(** * Car expense ledger (app.js): shallow embedding and verified properties

    The development follows the class [CarExpenseTracker] of [app.js]:
    the in-memory collection of trip records, the derived view (search,
    sort, pagination), the spreadsheet import/export mapping and the
    localStorage loader.

    Modelling conventions.
    - JavaScript numbers that the program computes with are integers
      (toll, fuel, total, timestamps, page numbers, lengths); they are
      embedded as [Z].  Additions are exact in the model; in the browser
      they are exact as long as the operands and the sum stay within
      2^53 in absolute value, which the properties about sums of amounts
      assume.  Record
      identifiers ([Date.now() + Math.random()]) and the draws of
      [Math.random()] are rationals ([Q]).
    - Strings are byte strings holding UTF-8 text.
    - Readings of the clock, of the random generator and of the locale
      date formatter are explicit arguments of the handlers.
    - Exceptions are explicit: a computation that may throw returns an
      [outcome].
    - Of the page only what the handlers read back or what the properties
      below speak about is kept: the form fields, the search box, the sort
      selector, the list container and the pagination controls.  Toasts,
      button spinners and the loading overlay are left out. *)

From Stdlib Require Import ZArith QArith Qround String Ascii List Lia Bool.
From Stdlib Require Import Permutation Sorted DecimalString DecimalZ DecimalPos DecimalN.
From stdpp Require Import gmap strings.
Import ListNotations.

Open Scope string_scope.
Open Scope Z_scope.

(** ** The fragment of the JavaScript runtime used by app.js *)

Module JS.

(** Primitive values, as they occur in spreadsheet cells and in record
    fields. *)
Inductive Value : Type :=
| VUndefined
| VNull
| VBool (b : bool)
| VNumber (n : Z)
| VString (s : string).

(** Completion of a computation: normal, or abrupt with the name of the
    thrown error. *)
Inductive outcome (A : Type) : Type :=
| Return (a : A)
| Throw (e : string).
Arguments Return {A} a.
Arguments Throw {A} e.

Definition bind {A B} (m : outcome A) (k : A -> outcome B) : outcome B :=
  match m with
  | Return a => k a
  | Throw e => Throw e
  end.

(** [try { body } catch (error) { handler }] *)
Definition try_catch {A} (body : outcome A) (handler : string -> outcome A)
  : outcome A :=
  match body with
  | Return a => Return a
  | Throw e => handler e
  end.

(** *** Strings *)

Definition codes (s : string) : list N :=
  map N_of_ascii (list_ascii_of_string s).

Definition of_codes (l : list N) : string :=
  string_of_list_ascii (map ascii_of_N l).

(** UTF-8 encodings of the code points that [String.prototype.trim] and
    [parseInt] skip (WhiteSpace and LineTerminator of ECMA-262). *)
Definition WhiteSpace : list (list N) :=
  [ [9]; [10]; [11]; [12]; [13]; [32];
    [194; 160];                       (* U+00A0 *)
    [225; 154; 128];                  (* U+1680 *)
    [226; 128; 128]; [226; 128; 129]; [226; 128; 130]; [226; 128; 131];
    [226; 128; 132]; [226; 128; 133]; [226; 128; 134]; [226; 128; 135];
    [226; 128; 136]; [226; 128; 137]; [226; 128; 138];  (* U+2000..U+200A *)
    [226; 128; 168]; [226; 128; 169]; (* U+2028, U+2029 *)
    [226; 128; 175];                  (* U+202F *)
    [226; 129; 159];                  (* U+205F *)
    [227; 128; 128];                  (* U+3000 *)
    [239; 187; 191] ]%N.              (* U+FEFF *)

Fixpoint strip_prefix (p l : list N) : option (list N) :=
  match p, l with
  | [], _ => Some l
  | a :: p', b :: l' => if (a =? b)%N then strip_prefix p' l' else None
  | _ :: _, [] => None
  end.

Fixpoint strip_any (table : list (list N)) (l : list N) : option (list N) :=
  match table with
  | [] => None
  | p :: table' =>
      match strip_prefix p l with
      | Some rest => Some rest
      | None => strip_any table' l
      end
  end.

Fixpoint strip_all (table : list (list N)) (fuel : nat) (l : list N)
  : list N :=
  match fuel with
  | O => l
  | S fuel' =>
      match strip_any table l with
      | Some rest => strip_all table fuel' rest
      | None => l
      end
  end.

Definition trimStart_codes (l : list N) : list N :=
  strip_all WhiteSpace (length l) l.

Definition trimEnd_codes (l : list N) : list N :=
  rev (strip_all (map (@rev N) WhiteSpace) (length l) (rev l)).

(** [s.trim()] *)
Definition trim (s : string) : string :=
  of_codes (trimEnd_codes (trimStart_codes (codes s))).

(** [s.toLowerCase()]: the ASCII letters are folded; the bytes of
    multi-byte characters are kept (exact for Hangul, which has no
    case). *)
Definition lower_code (c : N) : N :=
  if ((65 <=? c) && (c <=? 90))%N then (c + 32)%N else c.

Definition toLowerCase (s : string) : string :=
  of_codes (map lower_code (codes s)).

(** [s.includes(sub)] *)
Fixpoint includes (s sub : string) : bool :=
  if String.prefix sub s then true
  else match s with
       | EmptyString => false
       | String _ s' => includes s' sub
       end.

Definition is_empty (s : string) : bool :=
  match s with
  | EmptyString => true
  | String _ _ => false
  end.

(** *** Truthiness and the [||] operator *)

Definition truthy (v : Value) : bool :=
  match v with
  | VUndefined | VNull => false
  | VBool b => b
  | VNumber n => negb (n =? 0)
  | VString s => negb (is_empty s)
  end.

Definition or_else (a b : Value) : Value :=
  if truthy a then a else b.

(** *** Numbers and their text *)

(** Plain decimal digits, with a minus sign for negatives. *)
Definition decimal (n : Z) : string :=
  NilZero.string_of_int (Z.to_int n).

Fixpoint drop_trailing_zeros (s : string) : string :=
  match s with
  | EmptyString => EmptyString
  | String c s' =>
      match drop_trailing_zeros s' with
      | EmptyString =>
          if Ascii.eqb c "0" then EmptyString else String c EmptyString
      | r => String c r
      end
  end.

(** Exponent form [d.ddde+k] of a positive integer. *)
Definition exponential (m : Z) : string :=
  match decimal m with
  | EmptyString => EmptyString
  | String d rest =>
      let frac := drop_trailing_zeros rest in
      String d (if is_empty frac then EmptyString else "." ++ frac)
        ++ "e+" ++ decimal (Z.of_nat (String.length rest))
  end.

(** [String(n)] for an integer [n] (Number::toString, radix 10): plain
    digits below 10^21 and exponent form from there on.  In exponent
    form the browser prints the shortest digits that read back as the
    same double; the model prints the digits of [n], which has the same
    shape (one digit before the point). *)
Definition Number_toString (n : Z) : string :=
  if Z.abs n <? 10 ^ 21 then decimal n
  else (if n <? 0 then "-" else EmptyString) ++ exponential (Z.abs n).

(** [String(v)], also what a template literal does with [${v}]. *)
Definition ToString (v : Value) : string :=
  match v with
  | VUndefined => "undefined"
  | VNull => "null"
  | VBool true => "true"
  | VBool false => "false"
  | VNumber n => Number_toString n
  | VString s => s
  end.

Definition digit_value (c : N) : option Z :=
  if ((48 <=? c) && (c <=? 57))%N then Some (Z.of_N c - 48)
  else if ((97 <=? c) && (c <=? 122))%N then Some (Z.of_N c - 87)
  else if ((65 <=? c) && (c <=? 90))%N then Some (Z.of_N c - 55)
  else None.

(** The longest prefix of digits of radix [R]. *)
Fixpoint take_digits (R : Z) (l : list N) : list Z :=
  match l with
  | [] => []
  | c :: l' =>
      match digit_value c with
      | Some d => if d <? R then d :: take_digits R l' else []
      | None => []
      end
  end.

Definition digits_value (R : Z) (ds : list Z) : Z :=
  fold_left (fun acc d => acc * R + d) ds 0.

Definition strip_sign (l : list N) : Z * list N :=
  match l with
  | c :: l' =>
      if (c =? 45)%N then (-1, l')          (* - *)
      else if (c =? 43)%N then (1, l')      (* + *)
      else (1, l)
  | [] => (1, l)
  end.

Definition strip_hex_prefix (l : list N) : Z * list N :=
  match l with
  | c1 :: c2 :: l' =>
      if ((c1 =? 48) && ((c2 =? 120) || (c2 =? 88)))%N   (* 0x, 0X *)
      then (16, l') else (10, l)
  | _ => (10, l)
  end.

(** [parseInt(s)] without a radix argument; [None] is NaN. *)
Definition parseInt_string (s : string) : option Z :=
  let '(sign, l) := strip_sign (trimStart_codes (codes s)) in
  let '(R, l) := strip_hex_prefix l in
  match take_digits R l with
  | [] => None
  | ds => Some (sign * digits_value R ds)
  end.

(** [parseInt(v)]: the argument is first converted to a string. *)
Definition parseInt (v : Value) : option Z :=
  parseInt_string (ToString v).

(** [x || d] for a number-or-NaN [x]: NaN and 0 are falsy. *)
Definition nan_or (x : option Z) (d : Z) : Z :=
  match x with
  | Some n => if n =? 0 then d else n
  | None => d
  end.

(** [Math.ceil(a / b)] and [Math.floor(q)] *)
Definition Math_ceil (q : Q) : Z := Qceiling q.
Definition Math_floor (q : Q) : Z := Qfloor q.

(** *** Arrays *)

(** [l.slice(start, end)] *)
Definition slice {A} (l : list A) (start end_ : Z) : list A :=
  let len := Z.of_nat (length l) in
  let k := if start <? 0 then Z.max (len + start) 0 else Z.min start len in
  let final := if end_ <? 0 then Z.max (len + end_) 0 else Z.min end_ len in
  firstn (Z.to_nat (final - k)) (skipn (Z.to_nat k) l).

(** [l.sort(cmp)] returns the stable sorted arrangement (ECMA-262
    requires stability); insertion from the right computes it. *)
Fixpoint insert_sorted {A} (cmp : A -> A -> Z) (x : A) (l : list A)
  : list A :=
  match l with
  | [] => [x]
  | y :: l' =>
      if cmp x y <=? 0 then x :: y :: l' else y :: insert_sorted cmp x l'
  end.

Fixpoint sort {A} (cmp : A -> A -> Z) (l : list A) : list A :=
  match l with
  | [] => []
  | x :: l' => insert_sorted cmp x (sort cmp l')
  end.

(** [l.filter(f)] with a callback that may throw: the first exception
    aborts the traversal. *)
Fixpoint filterM {A} (f : A -> outcome bool) (l : list A)
  : outcome (list A) :=
  match l with
  | [] => Return []
  | x :: l' =>
      bind (f x) (fun keep =>
      bind (filterM f l') (fun rest =>
      Return (if keep then x :: rest else rest)))
  end.

End JS.

Export JS.

(** ** JSON text, as [JSON.parse] reads it *)

Module JSON.

#[local] Set Warnings "-register-all".


Inductive Json : Type :=
| JNull
| JBool (b : bool)
| JNumber (q : Q)
| JString (s : string)
| JArray (items : list Json)
| JObject (members : list (string * Json)).

Fixpoint skip_ws (l : list N) : list N :=
  match l with
  | c :: l' =>
      if ((c =? 32) || (c =? 9) || (c =? 10) || (c =? 13))%N
      then skip_ws l' else l
  | [] => []
  end.

Fixpoint take_dec (l : list N) : list Z * list N :=
  match l with
  | c :: l' =>
      if ((48 <=? c) && (c <=? 57))%N
      then let (ds, r) := take_dec l' in (Z.of_N c - 48 :: ds, r)
      else ([], l)
  | [] => ([], [])
  end.

Definition is_nil {A} (l : list A) : bool :=
  match l with [] => true | _ => false end.

(** The value [m * 10^k] *)
Definition scale (m k : Z) : Q :=
  if k <? 0 then Qmake m (Z.to_pos (10 ^ (- k))) else inject_Z (m * 10 ^ k).

(** number ::= -? int frac? exp?, with no leading zero in int *)
Definition parse_number (l : list N) : option (Q * list N) :=
  let '(sign, l1) :=
    match l with
    | c :: r => if (c =? 45)%N then (-1, r) else (1, l)
    | [] => (1, l)
    end in
  let '(int_digits, l2) := take_dec l1 in
  let leading_zero :=
    match int_digits with
    | d :: _ :: _ => d =? 0
    | _ => false
    end in
  if is_nil int_digits || leading_zero then None else
  let '(frac_ok, frac_digits, l3) :=
    match l2 with
    | c :: r =>
        if (c =? 46)%N
        then let (fd, r') := take_dec r in (negb (is_nil fd), fd, r')
        else (true, [], l2)
    | [] => (true, [], l2)
    end in
  if negb frac_ok then None else
  let mantissa := sign * digits_value 10 (int_digits ++ frac_digits) in
  let shift := - Z.of_nat (length frac_digits) in
  match l3 with
  | c :: r =>
      if ((c =? 101) || (c =? 69))%N then
        let '(esign, r1) :=
          match r with
          | s :: r' =>
              if (s =? 45)%N then (-1, r')
              else if (s =? 43)%N then (1, r') else (1, r)
          | [] => (1, r)
          end in
        let '(exp_digits, r2) := take_dec r1 in
        if is_nil exp_digits then None
        else Some (scale mantissa (shift + esign * digits_value 10 exp_digits), r2)
      else Some (scale mantissa shift, l3)
  | [] => Some (scale mantissa shift, l3)
  end.

Definition hex4 (a b c d : N) : option Z :=
  match digit_value a, digit_value b, digit_value c, digit_value d with
  | Some x, Some y, Some z, Some w =>
      if (x <? 16) && (y <? 16) && (z <? 16) && (w <? 16)
      then Some (((x * 16 + y) * 16 + z) * 16 + w) else None
  | _, _, _, _ => None
  end.

(** The body of a string literal up to the closing quote: raw bytes
    ([inl]) and UTF-16 code units written as escapes ([inr]). *)
Fixpoint parse_chars (l : list N) : option (list (N + Z) * list N) :=
  let cons x res :=
    match res with Some (xs, r) => Some (x :: xs, r) | None => None end in
  match l with
  | [] => None
  | c :: l' =>
      if (c =? 34)%N then Some ([], l')
      else if (c <? 32)%N then None
      else if (c =? 92)%N then
        match l' with
        | e :: r =>
            if (e =? 34)%N then cons (inr 34) (parse_chars r)
            else if (e =? 92)%N then cons (inr 92) (parse_chars r)
            else if (e =? 47)%N then cons (inr 47) (parse_chars r)
            else if (e =? 98)%N then cons (inr 8) (parse_chars r)
            else if (e =? 102)%N then cons (inr 12) (parse_chars r)
            else if (e =? 110)%N then cons (inr 10) (parse_chars r)
            else if (e =? 114)%N then cons (inr 13) (parse_chars r)
            else if (e =? 116)%N then cons (inr 9) (parse_chars r)
            else if (e =? 117)%N then
              match r with
              | h1 :: h2 :: h3 :: h4 :: r' =>
                  match hex4 h1 h2 h3 h4 with
                  | Some u => cons (inr u) (parse_chars r')
                  | None => None
                  end
              | _ => None
              end
            else None
        | [] => None
        end
      else cons (inl c) (parse_chars l')
  end.

Definition utf8 (cp : Z) : list N :=
  map Z.to_N
    (if cp <? 128 then [cp]
     else if cp <? 2048 then [192 + cp / 64; 128 + cp mod 64]
     else if cp <? 65536 then
       [224 + cp / 4096; 128 + (cp / 64) mod 64; 128 + cp mod 64]
     else [240 + cp / 262144; 128 + (cp / 4096) mod 64;
           128 + (cp / 64) mod 64; 128 + cp mod 64]).

Definition is_high (u : Z) : bool := (55296 <=? u) && (u <=? 56319).
Definition is_low (u : Z) : bool := (56320 <=? u) && (u <=? 57343).

Fixpoint encode (l : list (N + Z)) : list N :=
  match l with
  | [] => []
  | inl b :: l' => b :: encode l'
  | inr u :: l' =>
      match l' with
      | inr v :: l'' =>
          if is_high u && is_low v
          then utf8 (65536 + (u - 55296) * 1024 + (v - 56320)) ++ encode l''
          else utf8 u ++ encode l'
      | _ => utf8 u ++ encode l'
      end
  end.

Definition parse_string (l : list N) : option (string * list N) :=
  match parse_chars l with
  | Some (cs, r) => Some (of_codes (encode cs), r)
  | None => None
  end.

Section Containers.
Variable parse_value : list N -> option (Json * list N).

Fixpoint parse_elements (fuel : nat) (l : list N)
  : option (list Json * list N) :=
  match fuel with
  | O => None
  | S fuel' =>
      match parse_value l with
      | None => None
      | Some (v, r) =>
          match skip_ws r with
          | c :: r' =>
              if (c =? 44)%N then
                match parse_elements fuel' r' with
                | Some (vs, r'') => Some (v :: vs, r'')
                | None => None
                end
              else if (c =? 93)%N then Some ([v], r')
              else None
          | [] => None
          end
      end
  end.

Fixpoint parse_members (fuel : nat) (l : list N)
  : option (list (string * Json) * list N) :=
  match fuel with
  | O => None
  | S fuel' =>
      match skip_ws l with
      | q :: l1 =>
          if negb (q =? 34)%N then None else
          match parse_string l1 with
          | None => None
          | Some (key, l2) =>
              match skip_ws l2 with
              | colon :: l3 =>
                  if negb (colon =? 58)%N then None else
                  match parse_value l3 with
                  | None => None
                  | Some (v, r) =>
                      match skip_ws r with
                      | c :: r' =>
                          if (c =? 44)%N then
                            match parse_members fuel' r' with
                            | Some (ms, r'') => Some ((key, v) :: ms, r'')
                            | None => None
                            end
                          else if (c =? 125)%N then Some ([(key, v)], r')
                          else None
                      | [] => None
                      end
                  end
              | [] => None
              end
          end
      | [] => None
      end
  end.
End Containers.

Fixpoint parse_value (fuel : nat) (l : list N) : option (Json * list N) :=
  match fuel with
  | O => None
  | S fuel' =>
      match skip_ws l with
      | [] => None
      | c :: r =>
          if (c =? 110)%N then                                  (* null *)
            option_map (pair JNull) (strip_prefix (codes "ull") r)
          else if (c =? 116)%N then                             (* true *)
            option_map (pair (JBool true)) (strip_prefix (codes "rue") r)
          else if (c =? 102)%N then                             (* false *)
            option_map (pair (JBool false)) (strip_prefix (codes "alse") r)
          else if (c =? 34)%N then
            match parse_string r with
            | Some (s, r') => Some (JString s, r')
            | None => None
            end
          else if (c =? 91)%N then                              (* [ *)
            match skip_ws r with
            | c' :: r' =>
                if (c' =? 93)%N then Some (JArray [], r')
                else
                  match parse_elements (parse_value fuel') fuel' r with
                  | Some (vs, r'') => Some (JArray vs, r'')
                  | None => None
                  end
            | [] => None
            end
          else if (c =? 123)%N then                             (* { *)
            match skip_ws r with
            | c' :: r' =>
                if (c' =? 125)%N then Some (JObject [], r')
                else
                  match parse_members (parse_value fuel') fuel' r with
                  | Some (ms, r'') => Some (JObject ms, r'')
                  | None => None
                  end
            | [] => None
            end
          else
            match parse_number (c :: r) with
            | Some (q, r') => Some (JNumber q, r')
            | None => None
            end
      end
  end.

(** [JSON.parse(text)] *)
Definition parse (text : string) : outcome Json :=
  let l := codes text in
  match parse_value (S (length l)) l with
  | Some (v, r) =>
      if is_nil (skip_ws r) then Return v else Throw "SyntaxError"
  | None => Throw "SyntaxError"
  end.

Fixpoint lookup_last (key : string) (members : list (string * Json))
  : option Json :=
  match members with
  | [] => None
  | (k, v) :: rest =>
      match lookup_last key rest with
      | Some v' => Some v'
      | None => if String.eqb k key then Some v else None
      end
  end.

(** [data.key] for a key that no prototype defines ([records],
    [totalCost]): reading a property of [null] throws, a primitive or
    an array has no such property, an object answers with its member
    (the last one when the text repeats the key). *)
Definition get (data : Json) (key : string) : outcome (option Json) :=
  match data with
  | JNull => Throw "TypeError"
  | JObject members => Return (lookup_last key members)
  | _ => Return None
  end.

Definition truthy (v : option Json) : bool :=
  match v with
  | None | Some JNull => false
  | Some (JBool b) => b
  | Some (JNumber q) => negb (Qeq_bool q 0)
  | Some (JString s) => negb (is_empty s)
  | Some (JArray _) | Some (JObject _) => true
  end.

(** [v || d] *)
Definition or_else (v : option Json) (d : Json) : Json :=
  match v with
  | Some j => if truthy v then j else d
  | None => d
  end.

(** The double quote character. *)
Definition dq : string := String (ascii_of_nat 34) EmptyString.

(** [quoted s] is s between double quotes. *)
Definition quoted (s : string) : string := dq ++ s ++ dq.

End JSON.

(** ** The class CarExpenseTracker *)

Module Tracker.

(** One trip entry, the object literal built by [handleFormSubmit] and
    [handleUpload].  The four text fields hold whatever value the
    import found truthy in the sheet, hence [Value]. *)
Record TripRecord : Type := {
  id : Q;
  date : Value;
  route : Value;
  startPoint : Value;
  endPoint : Value;
  toll : Z;
  fuel : Z;
  total : Z;
  timestamp : Z
}.

(** A row of [XLSX.utils.sheet_to_json]: header text to cell value. *)
Abbreviation Row := (gmap string Value).

Definition row_get (row : Row) (key : string) : Value :=
  default VUndefined (row !! key).

(** What the list container [#records] shows. *)
Inductive Rendered : Type :=
| NoRecordsMessage
| Items (pageRecords : list TripRecord).

Record Form : Type := {
  startPoint_value : string;
  endPoint_value : string;
  tollFee_value : string;
  fuelCost_value : string;
  startPointError : string;
  endPointError : string
}.

Record Pagination : Type := {
  pagination_shown : bool;       (* style.display: flex / none *)
  prevPage_disabled : bool;
  nextPage_disabled : bool;
  pageInfo : string
}.

(** [this.elements] *)
Record Elements : Type := {
  form : Form;
  searchInput_value : string;
  sortSelect_value : string;
  records_list : Rendered;
  pagination : Pagination;
  exportBtn_disabled : bool
}.

(** The fields of the instance; [savePending] says that the timer of
    [debouncedSave] is armed. *)
Record State : Type := {
  elements : Elements;
  records : list TripRecord;
  filteredRecords : list TripRecord;
  totalCost : Z;
  currentPage : Z;
  recordsPerPage : Z;
  savePending : bool
}.

(** Readings of [Date.now()], [Math.random()] and
    [toLocaleDateString('ko-KR')] taken while one record is built. *)
Record Readings : Type := {
  now_for_id : Z;
  random_for_id : Q;
  today : string;
  now_for_timestamp : Z
}.

Definition set_form (f : Form) (e : Elements) : Elements :=
  {| form := f;
     searchInput_value := searchInput_value e;
     sortSelect_value := sortSelect_value e;
     records_list := records_list e;
     pagination := pagination e;
     exportBtn_disabled := exportBtn_disabled e |}.

Definition set_records_list (r : Rendered) (e : Elements) : Elements :=
  {| form := form e;
     searchInput_value := searchInput_value e;
     sortSelect_value := sortSelect_value e;
     records_list := r;
     pagination := pagination e;
     exportBtn_disabled := exportBtn_disabled e |}.

Definition set_pagination (p : Pagination) (e : Elements) : Elements :=
  {| form := form e;
     searchInput_value := searchInput_value e;
     sortSelect_value := sortSelect_value e;
     records_list := records_list e;
     pagination := p;
     exportBtn_disabled := exportBtn_disabled e |}.

Definition set_exportBtn_disabled (b : bool) (e : Elements) : Elements :=
  {| form := form e;
     searchInput_value := searchInput_value e;
     sortSelect_value := sortSelect_value e;
     records_list := records_list e;
     pagination := pagination e;
     exportBtn_disabled := b |}.

Definition set_elements (e : Elements) (st : State) : State :=
  {| elements := e;
     records := records st;
     filteredRecords := filteredRecords st;
     totalCost := totalCost st;
     currentPage := currentPage st;
     recordsPerPage := recordsPerPage st;
     savePending := savePending st |}.

Definition set_records (l : list TripRecord) (st : State) : State :=
  {| elements := elements st;
     records := l;
     filteredRecords := filteredRecords st;
     totalCost := totalCost st;
     currentPage := currentPage st;
     recordsPerPage := recordsPerPage st;
     savePending := savePending st |}.

Definition set_filteredRecords (l : list TripRecord) (st : State) : State :=
  {| elements := elements st;
     records := records st;
     filteredRecords := l;
     totalCost := totalCost st;
     currentPage := currentPage st;
     recordsPerPage := recordsPerPage st;
     savePending := savePending st |}.

Definition set_totalCost (c : Z) (st : State) : State :=
  {| elements := elements st;
     records := records st;
     filteredRecords := filteredRecords st;
     totalCost := c;
     currentPage := currentPage st;
     recordsPerPage := recordsPerPage st;
     savePending := savePending st |}.

Definition set_currentPage (p : Z) (st : State) : State :=
  {| elements := elements st;
     records := records st;
     filteredRecords := filteredRecords st;
     totalCost := totalCost st;
     currentPage := p;
     recordsPerPage := recordsPerPage st;
     savePending := savePending st |}.

(** [this.debouncedSave()]: arms (or re-arms) the save timer. *)
Definition debouncedSave (st : State) : State :=
  {| elements := elements st;
     records := records st;
     filteredRecords := filteredRecords st;
     totalCost := totalCost st;
     currentPage := currentPage st;
     recordsPerPage := recordsPerPage st;
     savePending := true |}.

(** The state set up by the constructor, for the page as the markup
    gives it. *)
Definition constructor (page : Elements) : State :=
  {| elements := page;
     records := [];
     filteredRecords := [];
     totalCost := 0;
     currentPage := 1;
     recordsPerPage := 20;
     savePending := false |}.

Definition len {A} (l : list A) : Z := Z.of_nat (length l).

(** [this.filteredRecords.length > 0 ? this.filteredRecords : this.records] *)
Definition shown_records (st : State) : list TripRecord :=
  if 0 <? len (filteredRecords st) then filteredRecords st else records st.

Definition getTotalPages (st : State) : Z :=
  let totalRecords :=
    if 0 <? len (filteredRecords st)
    then len (filteredRecords st) else len (records st) in
  Math_ceil (inject_Z totalRecords / inject_Z (recordsPerPage st)).

Definition updateRecordsList (st : State) : State :=
  let records := shown_records st in
  if len records =? 0 then
    set_elements (set_records_list NoRecordsMessage (elements st)) st
  else
    let startIndex := (currentPage st - 1) * recordsPerPage st in
    let endIndex := startIndex + recordsPerPage st in
    let pageRecords := slice records startIndex endIndex in
    set_elements (set_records_list (Items pageRecords) (elements st)) st.

Definition updatePagination (st : State) : State :=
  let totalPages := getTotalPages st in
  let p := pagination (elements st) in
  if totalPages <=? 1 then
    set_elements
      (set_pagination
         {| pagination_shown := false;
            prevPage_disabled := prevPage_disabled p;
            nextPage_disabled := nextPage_disabled p;
            pageInfo := pageInfo p |} (elements st)) st
  else
    set_elements
      (set_pagination
         {| pagination_shown := true;
            prevPage_disabled := currentPage st =? 1;
            nextPage_disabled := currentPage st =? totalPages;
            pageInfo := Number_toString (currentPage st) ++ " / "
                          ++ Number_toString totalPages |} (elements st)) st.

Definition updateExportButton (st : State) : State :=
  set_elements
    (set_exportBtn_disabled (len (records st) =? 0) (elements st)) st.

(** [updateTotalCost] only rewrites the text of the total; it is not
    part of the embedding. *)
Definition updateUI (st : State) : State :=
  updateExportButton (updatePagination (updateRecordsList st)).

Definition validateForm (st : State) : bool * State :=
  let f := form (elements st) in
  let origin_ok := negb (is_empty (trim (startPoint_value f))) in
  let destination_ok := negb (is_empty (trim (endPoint_value f))) in
  let f' :=
    {| startPoint_value := startPoint_value f;
       endPoint_value := endPoint_value f;
       tollFee_value := tollFee_value f;
       fuelCost_value := fuelCost_value f;
       startPointError :=
         if origin_ok then EmptyString else "출발지를 입력해주세요.";
       endPointError :=
         if destination_ok then EmptyString else "도착지를 입력해주세요." |} in
  (origin_ok && destination_ok, set_elements (set_form f' (elements st)) st).

(** [Math.floor(Math.random() * 5000) + 1000] for the draw [r]. *)
Definition simulateTollFee (r : Q) : Z :=
  Math_floor (r * 5000) + 1000.

Definition addRecord (record : TripRecord) (st : State) : State :=
  let st1 := set_records (record :: records st) st in
  let st2 := set_totalCost (totalCost st1 + total record) st1 in
  let f := form (elements st2) in
  let f' :=
    {| startPoint_value := startPoint_value f;
       endPoint_value := endPoint_value f;
       tollFee_value := Number_toString (toll record);
       fuelCost_value := fuelCost_value f;
       startPointError := startPointError f;
       endPointError := endPointError f |} in
  let st3 := set_elements (set_form f' (elements st2)) st2 in
  debouncedSave (updateUI st3).

Definition clearForm (st : State) : State :=
  let f := form (elements st) in
  let f' :=
    {| startPoint_value := EmptyString;
       endPoint_value := EmptyString;
       tollFee_value := tollFee_value f;
       fuelCost_value := "0";
       startPointError := EmptyString;
       endPointError := EmptyString |} in
  set_elements (set_form f' (elements st)) st.

(** The object literal of [handleFormSubmit], for the toll draw [r]. *)
Definition form_record (r : Q) (env : Readings) (st : State) : TripRecord :=
  let f := form (elements st) in
  let startPoint := trim (startPoint_value f) in
  let endPoint := trim (endPoint_value f) in
  let tollFee := simulateTollFee r in
  let fuelCost := nan_or (parseInt (VString (fuelCost_value f))) 0 in
  {| id := inject_Z (now_for_id env) + random_for_id env;
     date := VString (today env);
     route := VString (startPoint ++ " → " ++ endPoint);
     startPoint := VString startPoint;
     endPoint := VString endPoint;
     toll := tollFee;
     fuel := fuelCost;
     total := tollFee + fuelCost;
     timestamp := now_for_timestamp env |}.

Definition handleFormSubmit (r : Q) (env : Readings) (st : State) : State :=
  let (valid, st1) := validateForm st in
  if negb valid then st1
  else clearForm (addRecord (form_record r env st1) st1).

(** The callback of [filter] in [handleSearch]; calling [toLowerCase]
    or [includes] on a value that is not a string throws. *)
Definition matches (searchTerm : string) (record : TripRecord)
  : outcome bool :=
  match route record with
  | VString r =>
      if includes (toLowerCase r) searchTerm then Return true
      else match date record with
           | VString d => Return (includes d searchTerm)
           | _ => Throw "TypeError"
           end
  | _ => Throw "TypeError"
  end.

Definition handleSearch (st : State) : outcome State :=
  let searchTerm := trim (toLowerCase (searchInput_value (elements st))) in
  bind (if is_empty searchTerm then Return (records st)
        else filterM (matches searchTerm) (records st))
    (fun filtered =>
       let st1 := set_filteredRecords filtered st in
       let st2 := set_currentPage 1 st1 in
       Return (updatePagination (updateRecordsList st2))).

(** The comparator of [handleSort]. *)
Definition compare_by (sortValue : string) (a b : TripRecord) : Z :=
  if String.eqb sortValue "date-desc" then timestamp b - timestamp a
  else if String.eqb sortValue "date-asc" then timestamp a - timestamp b
  else if String.eqb sortValue "cost-desc" then total b - total a
  else if String.eqb sortValue "cost-asc" then total a - total b
  else 0.

Definition handleSort (st : State) : State :=
  let sortValue := sortSelect_value (elements st) in
  let records := shown_records st in
  let sortedRecords := sort (compare_by sortValue) records in
  let st1 :=
    if 0 <? len (filteredRecords st)
    then set_filteredRecords sortedRecords st
    else set_records sortedRecords st in
  let st2 := set_currentPage 1 st1 in
  updatePagination (updateRecordsList st2).

Definition changePage (direction : Z) (st : State) : State :=
  let totalPages := getTotalPages st in
  let newPage := currentPage st + direction in
  if (1 <=? newPage) && (newPage <=? totalPages) then
    updatePagination (updateRecordsList (set_currentPage newPage st))
  else st.

(** *** Export and import *)

Definition export_row (record : TripRecord) : Row :=
  <["날짜" := date record]>
  (<["출발지" := startPoint record]>
  (<["도착지" := endPoint record]>
  (<["경로" := route record]>
  (<["통행료" := VNumber (toll record)]>
  (<["주유비" := VNumber (fuel record)]>
  (<["총비용" := VNumber (total record)]> ∅)))))).

(** [this.records.map(record => ({...}))] *)
Definition exportData (records : list TripRecord) : list Row :=
  map export_row records.

(** [handleExport] up to the point where the rows are handed to the
    spreadsheet library; [None] when the handler gives up before. *)
Definition handleExport (sheetJS_loaded : bool) (st : State)
  : option (list Row) :=
  if len (records st) =? 0 then None
  else if negb sheetJS_loaded then None
  else Some (exportData (records st)).

Definition unknown : string := "알 수 없음".

(** The object literal of [handleUpload] for one row. *)
Definition import_record (env : Readings) (importedCount : Z) (row : Row)
  : TripRecord :=
  {| id := inject_Z (now_for_id env) + random_for_id env;
     date := or_else (row_get row "날짜") (VString (today env));
     route :=
       or_else (row_get row "경로")
         (VString
            (ToString (or_else (row_get row "출발지") (VString unknown))
               ++ " → "
               ++ ToString (or_else (row_get row "도착지") (VString unknown))));
     startPoint := or_else (row_get row "출발지") (VString unknown);
     endPoint := or_else (row_get row "도착지") (VString unknown);
     toll := nan_or (parseInt (row_get row "통행료")) 0;
     fuel := nan_or (parseInt (row_get row "주유비")) 0;
     total := nan_or (parseInt (row_get row "통행료")) 0
              + nan_or (parseInt (row_get row "주유비")) 0;
     timestamp := now_for_timestamp env + importedCount |}.

(** [jsonData.forEach(row => {...})]; [env i] holds the readings taken
    while row [i] is handled. *)
Fixpoint forEach_row (env : nat -> Readings) (jsonData : list Row)
    (importedCount : nat) (st : State) : State * nat :=
  match jsonData with
  | [] => (st, importedCount)
  | row :: rest =>
      let record :=
        import_record (env importedCount) (Z.of_nat importedCount) row in
      let st1 := set_records (records st ++ [record]) st in
      let st2 := set_totalCost (totalCost st1 + total record) st1 in
      forEach_row env rest (S importedCount) st2
  end.

(** What the file chooser and the spreadsheet library deliver. *)
Inductive Upload : Type :=
| NoFile
| LibraryNotLoaded
| ReadError
| Sheet (jsonData : list Row).

Definition handleUpload (env : nat -> Readings) (input : Upload) (st : State)
  : State :=
  match input with
  | Sheet jsonData =>
      let (st1, _) := forEach_row env jsonData 0 st in
      debouncedSave (updateUI st1)
  | _ => st
  end.

End Tracker.

(** ** The loader of the persisted state *)

Module Storage.
Import JSON.

(** The two fields that [loadFromLocalStorage] assigns.  The loader
    stores what the payload holds, whatever its shape, so they are kept
    as JSON values here. *)
Record Fields : Type := {
  this_records : Json;
  this_totalCost : Json
}.

(** [getItem] is the completion of
    [localStorage.getItem('carExpenseData')]: it throws, or returns
    null ([None]) or the stored text. *)
Definition loadFromLocalStorage (getItem : outcome (option string))
    (this : Fields) : outcome Fields :=
  try_catch
    (bind getItem (fun saved =>
       match saved with
       | None => Return this
       | Some text =>
           if is_empty text then Return this
           else
             bind (parse text) (fun data =>
             bind (get data "records") (fun r =>
             let this1 :=
               {| this_records := or_else r (JArray []);
                  this_totalCost := this_totalCost this |} in
             bind (get data "totalCost") (fun t =>
             Return {| this_records := this_records this1;
                       this_totalCost := or_else t (JNumber 0) |})))
       end))
    (fun error =>
       Return {| this_records := JArray []; this_totalCost := JNumber 0 |}).

(** The fields as the constructor leaves them. *)
Definition fresh : Fields :=
  {| this_records := JArray []; this_totalCost := JNumber 0 |}.

End Storage.

Export Tracker.

(** ** Notions used in the statements *)

(** The decimal digits of a [Decimal.uint], most significant first. *)
Fixpoint uint_digits (d : Decimal.uint) : list Z :=
  match d with
  | Decimal.Nil => []
  | Decimal.D0 d' => 0 :: uint_digits d'
  | Decimal.D1 d' => 1 :: uint_digits d'
  | Decimal.D2 d' => 2 :: uint_digits d'
  | Decimal.D3 d' => 3 :: uint_digits d'
  | Decimal.D4 d' => 4 :: uint_digits d'
  | Decimal.D5 d' => 5 :: uint_digits d'
  | Decimal.D6 d' => 6 :: uint_digits d'
  | Decimal.D7 d' => 7 :: uint_digits d'
  | Decimal.D8 d' => 8 :: uint_digits d'
  | Decimal.D9 d' => 9 :: uint_digits d'
  end.

Definition is_digit_code (c : N) : bool := ((48 <=? c) && (c <=? 57))%N.

(** The fields of a record other than its identifier and timestamp. *)
Definition content (r : TripRecord)
  : Value * Value * Value * Value * Z * Z * Z :=
  (date r, startPoint r, endPoint r, route r, toll r, fuel r, total r).

(** The records that [forEach_row] appends, in order. *)
Fixpoint import_list (env : nat -> Readings) (importedCount : nat)
    (jsonData : list Row) : list TripRecord :=
  match jsonData with
  | [] => []
  | row :: rest =>
      import_record (env importedCount) (Z.of_nat importedCount) row
        :: import_list env (S importedCount) rest
  end.

(** A value is numeric for [parseInt] when its text, after leading white
    space and an optional sign, starts with a decimal digit. *)
Definition starts_with_number (v : Value) : bool :=
  match snd (strip_sign (trimStart_codes (codes (ToString v)))) with
  | c :: _ => is_digit_code c
  | [] => false
  end.

(** A cell of a row: absent, or not numeric. *)
Definition missing_or_non_numeric (cell : option Value) : bool :=
  match cell with
  | None => true
  | Some v => negb (starts_with_number v)
  end.

(** The text of the value starts, after white space, with a minus sign. *)
Definition has_minus_sign (v : Value) : bool :=
  match trimStart_codes (codes (ToString v)) with
  | c :: _ => (c =? 45)%N
  | [] => false
  end.

(** The values that hold the integer [n], which a double holds exactly
    (at most 2^53 in absolute value): the number [n] itself, its plain
    decimal text, or, for [n] other than 0, that text followed by text
    that does not start with a digit. *)
Definition reads_as (n : Z) (v : Value) : Prop :=
  Z.abs n <= 2 ^ 53
  /\ (v = VNumber n
      \/ v = VString (decimal n)
      \/ (n <> 0 /\ exists c rest,
            is_digit_code (N_of_ascii c) = false
            /\ v = VString (decimal n ++ String c rest))).

(** The records that the export/import mapping gives back unchanged. *)
Definition round_trips (r : TripRecord) : Prop :=
  truthy (date r) = true /\ truthy (startPoint r) = true /\
  truthy (endPoint r) = true /\ truthy (route r) = true /\
  total r = toll r + fuel r /\
  Z.abs (toll r) < 10 ^ 21 /\ Z.abs (fuel r) < 10 ^ 21.

(** ** Sample data *)

Definition blank_page : Elements :=
  {| form := {| startPoint_value := EmptyString;
                endPoint_value := EmptyString;
                tollFee_value := "0";
                fuelCost_value := "0";
                startPointError := EmptyString;
                endPointError := EmptyString |};
     searchInput_value := EmptyString;
     sortSelect_value := "date-desc";
     records_list := NoRecordsMessage;
     pagination := {| pagination_shown := false;
                      prevPage_disabled := true;
                      nextPage_disabled := true;
                      pageInfo := EmptyString |};
     exportBtn_disabled := true |}.

(** The user fills in the form. *)
Definition fill_form (origin destination fuelCost : string) (st : State)
  : State :=
  let f := form (elements st) in
  set_elements
    (set_form {| startPoint_value := origin;
                 endPoint_value := destination;
                 tollFee_value := tollFee_value f;
                 fuelCost_value := fuelCost;
                 startPointError := startPointError f;
                 endPointError := endPointError f |} (elements st)) st.

(** The user types in the search box, picks a sort order. *)
Definition type_search (term : string) (st : State) : State :=
  set_elements
    {| form := form (elements st);
       searchInput_value := term;
       sortSelect_value := sortSelect_value (elements st);
       records_list := records_list (elements st);
       pagination := pagination (elements st);
       exportBtn_disabled := exportBtn_disabled (elements st) |} st.

Definition select_sort (sortValue : string) (st : State) : State :=
  set_elements
    {| form := form (elements st);
       searchInput_value := searchInput_value (elements st);
       sortSelect_value := sortValue;
       records_list := records_list (elements st);
       pagination := pagination (elements st);
       exportBtn_disabled := exportBtn_disabled (elements st) |} st.

(** Readings for row [i] of a batch handled within one millisecond. *)
Definition clock (i : nat) : Readings :=
  {| now_for_id := 1700000000000;
     random_for_id := Qmake (Z.of_nat i mod 997) 997;
     today := "2024. 1. 5.";
     now_for_timestamp := 1700000000000 |}.

Definition trip (o d : string) (t f ts : Z) : TripRecord :=
  {| id := inject_Z ts;
     date := VString "2024. 1. 5.";
     route := VString (o ++ " → " ++ d);
     startPoint := VString o;
     endPoint := VString d;
     toll := t;
     fuel := f;
     total := t + f;
     timestamp := ts |}.

(** A ledger of [n] imported records on a fresh page. *)
Definition ledger (n : nat) : State :=
  handleUpload clock (Sheet (repeat ∅ n)) (constructor blank_page).

(** Three records outside [round_trips]: no date text, a total that is
    not toll + fuel, a toll of 10^21. *)
Definition undated : TripRecord :=
  {| id := 1; date := VString EmptyString;
     route := VString "서울역 → 수원역";
     startPoint := VString "서울역"; endPoint := VString "수원역";
     toll := 1000; fuel := 2000; total := 3000; timestamp := 1 |}.

Definition drifted : TripRecord :=
  {| id := 2; date := VString "2024. 1. 5.";
     route := VString "서울역 → 수원역";
     startPoint := VString "서울역"; endPoint := VString "수원역";
     toll := 1000; fuel := 2000; total := 9999; timestamp := 2 |}.

Definition huge : TripRecord :=
  {| id := 3; date := VString "2024. 1. 5.";
     route := VString "서울역 → 수원역";
     startPoint := VString "서울역"; endPoint := VString "수원역";
     toll := 10 ^ 21; fuel := 0; total := 10 ^ 21; timestamp := 3 |}.

(** A sheet row whose toll cell holds the text of 10^21. *)
Definition big_toll_row : Row :=
  <["통행료" := VString "1000000000000000000000"]> ∅.

(** The stored texts for which the loader ends with the empty state:
    text that is not JSON, the text [null], and values whose [records]
    and [totalCost] are both absent or falsy. *)
Definition falls_back (text : string) : bool :=
  match JSON.parse text with
  | Throw _ => true
  | Return data =>
      match JSON.get data "records", JSON.get data "totalCost" with
      | Return r, Return t => negb (JSON.truthy r) && negb (JSON.truthy t)
      | _, _ => true
      end
  end.

(** A payload that parses but has the wrong shape:
    [{"records":7,"totalCost":"many"}] *)
Definition misshapen_payload : string :=
  "{" ++ JSON.quoted "records" ++ ":7," ++ JSON.quoted "totalCost" ++ ":"
      ++ JSON.quoted "many" ++ "}".

(** ** The rest of the class: start-up, the event loop, saving *)

Module Session.

(** [loadMockData], for the history that [generateMockHistory(5)]
    returned: nothing happens when records are present. *)
Definition loadMockData (mockData : list TripRecord) (st : State) : State :=
  if 0 <? len (records st) then st
  else
    fold_left
      (fun st record =>
         let st1 := set_records (records st ++ [record]) st in
         set_totalCost (totalCost st1 + total record) st1)
      mockData st.

(** [init] on a first run (nothing under the storage key): the sample
    history is loaded and the page is drawn. *)
Definition init (mockData : list TripRecord) (page : Elements) : State :=
  updateUI (loadMockData mockData (constructor page)).

(** What the listeners of [attachEventListeners] receive.  The user's
    typing comes with the event; the search handler runs once the
    debounce delay has passed. *)
Inductive Event : Type :=
| FormSubmit (origin destination fuelCost : string) (r : Q) (env : Readings)
| SearchInput (text : string)
| SortChange (sortValue : string)
| PrevPageClick
| NextPageClick
| UploadChange (env : nat -> Readings) (input : Upload).

(** One turn of the event loop.  An exception of [handleSearch] escapes
    from the timer callback; the fields keep the values they had. *)
Definition dispatch (ev : Event) (st : State) : State :=
  match ev with
  | FormSubmit origin destination fuelCost r env =>
      handleFormSubmit r env (fill_form origin destination fuelCost st)
  | SearchInput text =>
      match handleSearch (type_search text st) with
      | Return st' => st'
      | Throw _ => type_search text st
      end
  | SortChange sortValue => handleSort (select_sort sortValue st)
  | PrevPageClick => changePage (-1) st
  | NextPageClick => changePage 1 st
  | UploadChange env input => handleUpload env input st
  end.

Definition run (events : list Event) (st : State) : State :=
  fold_left (fun st ev => dispatch ev st) events st.

End Session.

Export Session.

(** ** Saving *)

Module Persist.

(** A property whose value is undefined is left out by
    [JSON.stringify]; the other primitives are written as they are. *)
Definition member (key : string) (v : Value) : list (string * JSON.Json) :=
  match v with
  | VUndefined => []
  | VNull => [(key, JSON.JNull)]
  | VBool b => [(key, JSON.JBool b)]
  | VNumber n => [(key, JSON.JNumber (inject_Z n))]
  | VString s => [(key, JSON.JString s)]
  end.

(** A record as a JSON value. *)
Definition record_json (r : TripRecord) : JSON.Json :=
  JSON.JObject
    ([("id", JSON.JNumber (id r))]
       ++ member "date" (date r)
       ++ member "route" (route r)
       ++ member "startPoint" (startPoint r)
       ++ member "endPoint" (endPoint r)
       ++ [("toll", JSON.JNumber (inject_Z (toll r)));
           ("fuel", JSON.JNumber (inject_Z (fuel r)));
           ("total", JSON.JNumber (inject_Z (total r)));
           ("timestamp", JSON.JNumber (inject_Z (timestamp r)))])%list.

(** The object [data] of [saveToLocalStorage], as a JSON value. *)
Definition save_data (now : Z) (st : State) : JSON.Json :=
  JSON.JObject
    [("records", JSON.JArray (map record_json (records st)));
     ("totalCost", JSON.JNumber (inject_Z (totalCost st)));
     ("version", JSON.JString "1.0");
     ("lastSaved", JSON.JNumber (inject_Z now))].

(** [saveToLocalStorage] at time [now]: the text under the storage key
    after the call, [stored] being the text before it.  [stringify] is
    the platform's [JSON.stringify] and [setItem] the completion of
    [localStorage.setItem] for a text (it throws when the quota is
    exceeded). *)
Definition saveToLocalStorage (stringify : JSON.Json -> string)
    (setItem : string -> outcome unit) (now : Z) (st : State)
    (stored : option string) : outcome (option string) :=
  try_catch
    (let data := save_data now st in
     bind (setItem (stringify data)) (fun _ =>
     Return (Some (stringify data))))
    (fun error => Return stored).

End Persist.

(** ** Sample history *)

Module Mock.

Definition places : list string :=
  ["서울역"; "수원역"; "인천공항"; "부산역"; "대전역"; "광주터미널"].

(** [places[Math.floor(r * places.length)]] for the draw [r]; an index
    outside the array gives undefined. *)
Definition pick (r : Q) : Value :=
  let i := Math_floor (r * inject_Z (len places)) in
  if i <? 0 then VUndefined
  else match nth_error places (Z.to_nat i) with
       | Some s => VString s
       | None => VUndefined
       end.

(** [a === b] on primitive values. *)
Definition strict_eq (a b : Value) : bool :=
  match a, b with
  | VUndefined, VUndefined => true
  | VNull, VNull => true
  | VBool x, VBool y => Bool.eqb x y
  | VNumber x, VNumber y => x =? y
  | VString x, VString y => String.eqb x y
  | _, _ => false
  end.

(** Readings for the record of [i] days ago: the text and the time of
    that day, and [Date.now()]. *)
Record Day : Type := {
  day_text : string;
  day_time : Z;
  day_now : Z
}.

(** [while (startPoint === endPoint) endPoint = places[...]]: [random]
    lists the draws of [Math.random()] and [cursor] counts those taken;
    [None] when the loop is still running after [fuel] draws. *)
Fixpoint redraw (fuel : nat) (random : nat -> Q) (cursor : nat)
    (startPoint endPoint : Value) : option (Value * nat) :=
  if strict_eq startPoint endPoint then
    match fuel with
    | O => None
    | S fuel' =>
        redraw fuel' random (S cursor) startPoint (pick (random cursor))
    end
  else Some (endPoint, cursor).

(** The body of the [for] loop of [generateMockHistory], from day [i]
    on, for [days_left] more days. *)
Fixpoint history_from (fuel : nat) (days_left i : nat) (random : nat -> Q)
    (cursor : nat) (day : nat -> Day) : option (list TripRecord * nat) :=
  match days_left with
  | O => Some ([], cursor)
  | S days_left' =>
      let startPoint := pick (random cursor) in
      let endPoint0 := pick (random (S cursor)) in
      match redraw fuel random (S (S cursor)) startPoint endPoint0 with
      | None => None
      | Some (endPoint, c) =>
          let tollFee := simulateTollFee (random c) in
          let fuelCost := Math_floor (random (S c) * 50000) in
          let record :=
            {| id := inject_Z (day_now (day i)) + random (S (S c))
                     + inject_Z (Z.of_nat i);
               date := VString (day_text (day i));
               route := VString (ToString startPoint ++ " → "
                                   ++ ToString endPoint);
               startPoint := startPoint;
               endPoint := endPoint;
               toll := tollFee;
               fuel := fuelCost;
               total := tollFee + fuelCost;
               timestamp := day_time (day i) |} in
          match history_from fuel days_left' (S i) random (S (S (S c))) day with
          | Some (rest, c') => Some (record :: rest, c')
          | None => None
          end
      end
  end.

Definition generateMockHistory (fuel : nat) (days : nat) (random : nat -> Q)
    (cursor : nat) (day : nat -> Day) : option (list TripRecord * nat) :=
  history_from fuel days 0 random cursor day.

End Mock.

(** ** The debounce helper *)

Module Debounce.

Section Closure.
Context {Args : Type}.

(** The timer held in the variable [timeout] of the closure: when it is
    due and the arguments that its callback [later] passes to [func]. *)
Record Timer : Type := {
  due : Z;
  args : Args
}.

(** [executedFunction(...a)] at time [now]: the armed timer, if any, is
    cleared and a new one is set [wait] ms ahead. *)
Definition executedFunction (wait now : Z) (a : Args)
    (timeout : option Timer) : option Timer :=
  Some {| due := now + wait; args := a |}.

(** The event loop at time [now]: a due timer runs [later], which calls
    [func] with the arguments kept; the answer is that call, if any, and
    the timer left. *)
Definition tick (now : Z) (timeout : option Timer)
  : option Args * option Timer :=
  match timeout with
  | Some t => if due t <=? now then (Some (args t), None) else (None, timeout)
  | None => (None, None)
  end.

(** Calls of the debounced function at the given times, in time order;
    before each call the event loop has run what was due.  The answer
    lists the calls of [func] made meanwhile, oldest first, and the
    timer left after the last call. *)
Fixpoint calls (wait : Z) (timeline : list (Z * Args))
    (timeout : option Timer) : list Args * option Timer :=
  match timeline with
  | [] => ([], timeout)
  | (now, a) :: rest =>
      let (ran, timeout1) := tick now timeout in
      let (later_runs, timeout2) :=
        calls wait rest (executedFunction wait now a timeout1) in
      (match ran with Some x => x :: later_runs | None => later_runs end,
       timeout2)
  end.

(** What reaches the closure, in the order in which the event loop
    handles it: a call of the debounced function, or a turn in which the
    loop runs the timers that are due.  [setTimeout] promises a minimum
    delay only, so the turn that runs a timer comes at its due time or
    any time later, and a call that comes before that turn clears the
    timer. *)
Inductive Turn : Type :=
| Call (now : Z) (a : Args)
| Timers (now : Z).

(** The calls of [func] made along a trace, oldest first, and the timer
    left at its end. *)
Fixpoint turns (wait : Z) (trace : list Turn) (timeout : option Timer)
  : list Args * option Timer :=
  match trace with
  | [] => ([], timeout)
  | Call now a :: rest => turns wait rest (executedFunction wait now a timeout)
  | Timers now :: rest =>
      let (ran, timeout1) := tick now timeout in
      let (later_runs, timeout2) := turns wait rest timeout1 in
      (match ran with Some x => x :: later_runs | None => later_runs end,
       timeout2)
  end.

End Closure.

Arguments Timer : clear implicits.
Arguments Turn : clear implicits.

End Debounce.

(** The sum of the totals of a list of records. *)
Definition sum_totals (l : list TripRecord) : Z :=
  fold_right Z.add 0 (map total l).

(** The list that [updateRecordsList] puts on display for page [k]. *)
Definition page_items (st : State) (k : Z) : list TripRecord :=
  slice (shown_records st) ((k - 1) * recordsPerPage st)
    ((k - 1) * recordsPerPage st + recordsPerPage st).

(** What the container shows when it is up to date with the fields. *)
Definition page_view (st : State) : Rendered :=
  if len (shown_records st) =? 0 then NoRecordsMessage
  else Items (page_items st (currentPage st)).

(** The page numbers 1..n. *)
Definition page_numbers (n : Z) : list Z :=
  map (fun i => Z.of_nat i + 1) (seq 0 (Z.to_nat n)).

(** The current page is the first one or lies within the page count;
    pages hold 20 records. *)
Definition page_in_range (st : State) : Prop :=
  recordsPerPage st = 20
  /\ (currentPage st = 1 \/ 1 <= currentPage st <= getTotalPages st).


(** The search predicate on records whose route and date are strings. *)
Definition matches_text (searchTerm : string) (r : TripRecord) : bool :=
  includes (toLowerCase (ToString (route r))) searchTerm
  || includes (ToString (date r)) searchTerm.

Definition is_string (v : Value) : bool :=
  match v with VString _ => true | _ => false end.

(** The container is up to date with the fields. *)
Definition synced (st : State) : Prop :=
  records_list (elements st) = page_view st.

(** The aggregate total is the sum of the totals in the collection. *)
Definition total_consistent (st : State) : Prop :=
  totalCost st = sum_totals (records st).

(** The amounts of a list of records, added up in absolute value. *)
Definition weight (l : list TripRecord) : Z :=
  fold_right Z.add 0
    (map (fun r => Z.abs (toll r) + Z.abs (fuel r) + Z.abs (total r)) l).

(** The amounts of the collection add up, in absolute value, to an
    integer that a double holds exactly; so does then every amount, and
    every sum of some of the totals. *)
Definition safe_amounts (st : State) : Prop :=
  weight (records st) <= 2 ^ 53.

(** What a record of the sample history looks like. *)
Definition mock_record_ok (r : TripRecord) : Prop :=
  exists s e,
    startPoint r = VString s /\ endPoint r = VString e
    /\ In s Mock.places /\ In e Mock.places /\ s <> e
    /\ route r = VString (s ++ " → " ++ e)
    /\ 1000 <= toll r <= 5999 /\ 0 <= fuel r <= 49999
    /\ total r = toll r + fuel r.

(** A draw of [Math.random()] lies in [0, 1). *)
Definition unit_draw (r : Q) : Prop := (0 <= r)%Q /\ (r < 1)%Q.

(** Calls in time order, each less than [wait] after the one before. *)
Fixpoint burst {Args : Type} (wait : Z) (last : Z)
    (timeline : list (Z * Args)) : Prop :=
  match timeline with
  | [] => True
  | (t, _) :: rest => last <= t < last + wait /\ burst wait t rest
  end.

(** Calls that are each followed, before the next call, by a turn of the
    timers: the call at [t] with arguments [a] and the turn at [s]. *)
Fixpoint served {Args : Type} (timeline : list (Z * Z * Args))
  : list (Debounce.Turn Args) :=
  match timeline with
  | [] => []
  | (t, s, a) :: rest =>
      Debounce.Call t a :: Debounce.Timers s :: served rest
  end.

(** Calls with no turn of the timers in between. *)
Definition unserved {Args : Type} (timeline : list (Z * Args))
  : list (Debounce.Turn Args) :=
  map (fun c => Debounce.Call (fst c) (snd c)) timeline.

(** Sample readings of the days of the history and sample draws. *)
Definition sample_day (i : nat) : Mock.Day :=
  {| Mock.day_text := "2024. 1. 5.";
     Mock.day_time := 1704412800000 - 86400000 * Z.of_nat i;
     Mock.day_now := 1704412800000 |}.

Definition sample_draws (n : nat) : Q :=
  Qmake (Z.of_nat (n mod 7)) 7.

(** A number without fractional part. *)
Definition is_integer (q : Q) : bool :=
  Qeq_bool q (inject_Z (Qfloor q)).

(** [restores read saved]: the value [read] is the value [saved], member
    by member and item by item, with every integer as it was saved.  A
    saved number that is not an integer (a record identifier, the clock
    plus a random draw) is only required to come back as a number: the
    browser reads back the double that it wrote, of which the rational
    here is the exact sum. *)
Fixpoint restores (read saved : JSON.Json) : bool :=
  match read, saved with
  | JSON.JNull, JSON.JNull => true
  | JSON.JBool x, JSON.JBool y => Bool.eqb x y
  | JSON.JNumber x, JSON.JNumber y => Qeq_bool x y || negb (is_integer y)
  | JSON.JString x, JSON.JString y => String.eqb x y
  | JSON.JArray xs, JSON.JArray ys =>
      (fix items (xs ys : list JSON.Json) : bool :=
         match xs, ys with
         | [], [] => true
         | x :: xs', y :: ys' => restores x y && items xs' ys'
         | _, _ => false
         end) xs ys
  | JSON.JObject xs, JSON.JObject ys =>
      (fix members (xs ys : list (string * JSON.Json)) : bool :=
         match xs, ys with
         | [], [] => true
         | (k, x) :: xs', (k', y) :: ys' =>
             String.eqb k k' && restores x y && members xs' ys'
         | _, _ => false
         end) xs ys
  | _, _ => false
  end.

(** Readings with a draw that a double holds exactly. *)
Definition noon : Readings :=
  {| now_for_id := 1704412800000;
     random_for_id := 3 # 8;
     today := "2024. 1. 5.";
     now_for_timestamp := 1704412800000 |}.

(** A first record entered through the form. *)
Definition one_trip_ledger : State :=
  handleFormSubmit (1 # 2) noon
    (fill_form "서울역" "수원역" "30000" (constructor blank_page)).

(** The text that [JSON.stringify] writes for the data saved from
    [one_trip_ledger] at time 1704412800300. *)
Definition one_trip_text : string :=
  "{" ++ JSON.quoted "records" ++ ":[{"
      ++ JSON.quoted "id" ++ ":1704412800000.375,"
      ++ JSON.quoted "date" ++ ":" ++ JSON.quoted "2024. 1. 5." ++ ","
      ++ JSON.quoted "route" ++ ":" ++ JSON.quoted "서울역 → 수원역" ++ ","
      ++ JSON.quoted "startPoint" ++ ":" ++ JSON.quoted "서울역" ++ ","
      ++ JSON.quoted "endPoint" ++ ":" ++ JSON.quoted "수원역" ++ ","
      ++ JSON.quoted "toll" ++ ":3500,"
      ++ JSON.quoted "fuel" ++ ":30000,"
      ++ JSON.quoted "total" ++ ":33500,"
      ++ JSON.quoted "timestamp" ++ ":1704412800000}],"
      ++ JSON.quoted "totalCost" ++ ":33500,"
      ++ JSON.quoted "version" ++ ":" ++ JSON.quoted "1.0" ++ ","
      ++ JSON.quoted "lastSaved" ++ ":1704412800300}".

(** * Properties *)

(** ** The runtime fragment on examples *)

Example parseInt_examples :
  parseInt (VString "  42abc") = Some 42 /\
  parseInt (VString "-5") = Some (-5) /\
  parseInt (VString "0x1F") = Some 31 /\
  parseInt (VString "abc") = None /\
  parseInt (VNumber 1500) = Some 1500 /\
  parseInt (VNumber (10 ^ 21)) = Some 1 /\
  parseInt VUndefined = None /\
  trim "  a b  " = "a b" /\
  Number_toString (12 * 10 ^ 20) = "1.2e+21" /\
  slice [1; 2; 3; 4; 5] 3 7 = [4; 5] /\
  sort (fun a b => a - b) [3; 1; 2] = [1; 2; 3].
Proof. vm_compute. repeat split; reflexivity. Qed.

Example JSON_parse_examples :
  JSON.parse ("{" ++ JSON.quoted "a" ++ ": [1, -2.5e1, true, null], "
                  ++ JSON.quoted "b" ++ ":{}}")
  = Return (JSON.JObject
              [("a", JSON.JArray [JSON.JNumber 1; JSON.JNumber (-25);
                                  JSON.JBool true; JSON.JNull]);
               ("b", JSON.JObject [])]) /\
  JSON.parse "{records:" = Throw "SyntaxError" /\
  JSON.parse "[1,]" = Throw "SyntaxError" /\
  JSON.parse "01" = Throw "SyntaxError" /\
  JSON.parse " null " = Return JSON.JNull.
Proof. vm_compute. repeat split; reflexivity. Qed.

(** ** Facts about the runtime fragment *)

Section Runtime_facts.

Lemma digit_code_cases c :
  is_digit_code c = true ->
  (c = 48 \/ c = 49 \/ c = 50 \/ c = 51 \/ c = 52 \/ c = 53 \/ c = 54
   \/ c = 55 \/ c = 56 \/ c = 57)%N.
Proof.
  unfold is_digit_code. rewrite andb_true_iff, !N.leb_le. lia.
Qed.

Lemma codes_cons a s : codes (String a s) = N_of_ascii a :: codes s.
Proof. reflexivity. Qed.

Lemma uint_codes_digits d :
  forallb is_digit_code (codes (NilEmpty.string_of_uint d)) = true.
Proof. induction d; simpl; auto. Qed.

Lemma uint_take_digits d :
  take_digits 10 (codes (NilEmpty.string_of_uint d)) = uint_digits d.
Proof.
  induction d; simpl NilEmpty.string_of_uint; rewrite ?codes_cons;
    [reflexivity | simpl; rewrite IHd; reflexivity ..].
Qed.

Lemma uint_value_acc d : forall acc,
  fold_left (fun a x => a * 10 + x) (uint_digits d) (Z.pos acc)
  = Z.pos (Pos.of_uint_acc d acc).
Proof.
  induction d; intros acc; simpl; [reflexivity | ..];
    match goal with
    | |- fold_left _ _ ?z = Z.pos (Pos.of_uint_acc _ ?p) =>
        replace z with (Z.pos p) by lia; apply IHd
    end.
Qed.

Lemma uint_value d :
  digits_value 10 (uint_digits d) = Z.of_N (Pos.of_uint d).
Proof.
  unfold digits_value.
  induction d; simpl; [reflexivity | exact IHd | ..];
    match goal with
    | |- fold_left _ _ ?z = Z.pos (Pos.of_uint_acc _ ?p) =>
        change z with (Z.pos p); apply uint_value_acc
    end.
Qed.

(** A text that starts with a digit loses nothing to [trimStart], has
    no sign, and has no hex prefix unless an [x] follows a zero. *)
Lemma digit_first_trimStart c l :
  is_digit_code c = true -> trimStart_codes (c :: l) = c :: l.
Proof.
  intros H. destruct (digit_code_cases c H) as
    [-> | [-> | [-> | [-> | [-> | [-> | [-> | [-> | [-> | ->]]]]]]]]]; reflexivity.
Qed.

Lemma digit_first_sign c l :
  is_digit_code c = true -> strip_sign (c :: l) = (1, c :: l).
Proof.
  intros H. destruct (digit_code_cases c H) as
    [-> | [-> | [-> | [-> | [-> | [-> | [-> | [-> | [-> | ->]]]]]]]]]; reflexivity.
Qed.

Lemma digits_no_hex_prefix l :
  forallb is_digit_code l = true -> strip_hex_prefix l = (10, l).
Proof.
  destruct l as [|c1 [|c2 l]]; try reflexivity.
  simpl. rewrite !andb_true_iff. intros (_ & H2 & _).
  unfold strip_hex_prefix.
  destruct (digit_code_cases c2 H2) as
    [-> | [-> | [-> | [-> | [-> | [-> | [-> | [-> | [-> | ->]]]]]]]]];
    rewrite ?andb_false_r; reflexivity.
Qed.

Lemma parseInt_uint d :
  d <> Decimal.Nil ->
  parseInt_string (NilEmpty.string_of_uint d) = Some (Z.of_N (Pos.of_uint d))
  /\ parseInt_string (String "-" (NilEmpty.string_of_uint d))
     = Some (- Z.of_N (Pos.of_uint d)).
Proof.
  intros Hd.
  pose proof (uint_codes_digits d) as Hall.
  pose proof (uint_take_digits d) as Htake.
  pose proof (uint_value d) as Hval.
  assert (Hne : uint_digits d <> []) by (destruct d; simpl; congruence).
  unfold parseInt_string. rewrite codes_cons.
  destruct (codes (NilEmpty.string_of_uint d)) as [|c l] eqn:E.
  { simpl in Htake. congruence. }
  assert (Hc : is_digit_code c = true).
  { simpl in Hall. apply andb_true_iff in Hall. tauto. }
  split.
  - rewrite (digit_first_trimStart c l Hc), (digit_first_sign c l Hc).
    cbv beta iota.
    rewrite (digits_no_hex_prefix (c :: l) Hall). cbv beta iota.
    rewrite Htake.
    destruct (uint_digits d) eqn:E'; [congruence |].
    rewrite Hval. f_equal; lia.
  - replace (trimStart_codes (N_of_ascii "-" :: c :: l))
      with (N_of_ascii "-" :: c :: l) by reflexivity.
    change (strip_sign (N_of_ascii "-" :: c :: l)) with (-1, c :: l).
    cbv beta iota.
    rewrite (digits_no_hex_prefix (c :: l) Hall). cbv beta iota.
    rewrite Htake.
    destruct (uint_digits d) eqn:E'; [congruence |].
    rewrite Hval. f_equal; lia.
Qed.

Lemma to_uint_not_nil p : Pos.to_uint p <> Decimal.Nil.
Proof.
  intros E. pose proof (DecimalPos.Unsigned.of_to p) as H.
  rewrite E in H. discriminate.
Qed.

(** Reading back the plain decimal text of an integer. *)
Lemma parseInt_decimal n : parseInt_string (decimal n) = Some n.
Proof.
  destruct n as [|p|p]; [reflexivity | ..];
    unfold decimal; simpl Z.to_int; unfold NilZero.string_of_int;
    unfold NilZero.string_of_uint;
    pose proof (to_uint_not_nil p) as Hd;
    pose proof (DecimalPos.Unsigned.of_to p) as Hp;
    destruct (parseInt_uint (Pos.to_uint p) Hd) as [H1 H2];
    destruct (Pos.to_uint p) eqn:E; try congruence;
    rewrite ?H1, ?H2, Hp; reflexivity.
Qed.

(** [parseInt(n)] gives [n] back exactly below 10^21. *)
Lemma parseInt_number n :
  Z.abs n < 10 ^ 21 -> parseInt (VNumber n) = Some n.
Proof.
  intros H. unfold parseInt, ToString, Number_toString.
  apply Z.ltb_lt in H. rewrite H. apply parseInt_decimal.
Qed.

End Runtime_facts.

Section Coercion_facts.

Lemma digit_value_nonneg c d : digit_value c = Some d -> 0 <= d.
Proof.
  unfold digit_value.
  repeat match goal with
         | |- context [if ?b then _ else _] => destruct b eqn:?
         end; intros [= <-]; try discriminate;
    repeat match goal with
           | H : (_ && _)%bool = true |- _ => apply andb_true_iff in H; destruct H
           | H : (_ <=? _)%N = true |- _ => apply N.leb_le in H
           end; lia.
Qed.

Lemma take_digits_nonneg R l : Forall (fun d => 0 <= d) (take_digits R l).
Proof.
  induction l as [|c l IH]; simpl; [constructor |].
  destruct (digit_value c) as [d|] eqn:E; [| constructor].
  destruct (d <? R); constructor; eauto using digit_value_nonneg.
Qed.

Lemma fold_digits_nonneg R ds : forall acc,
  0 <= R -> 0 <= acc -> Forall (fun d => 0 <= d) ds ->
  0 <= fold_left (fun a x => a * R + x) ds acc.
Proof.
  induction ds as [|d ds IH]; intros acc HR Hacc Hds; simpl; [assumption |].
  inversion Hds; subst. apply IH; trivial. nia.
Qed.

Lemma strip_hex_prefix_radix l : 0 <= fst (strip_hex_prefix l).
Proof.
  unfold strip_hex_prefix. destruct l as [|c1 [|c2 l]]; simpl; try lia.
  destruct (_ && _)%bool; simpl; lia.
Qed.

(** Without a leading minus sign [parseInt(v) || 0] is not negative. *)
Lemma no_minus_nonneg v :
  has_minus_sign v = false -> 0 <= nan_or (parseInt v) 0.
Proof.
  unfold has_minus_sign, parseInt, parseInt_string.
  generalize (trimStart_codes (codes (ToString v))). intros l0 Hminus.
  assert (Hsign : fst (strip_sign l0) = 1).
  { destruct l0 as [|c l]; [reflexivity |]. simpl. rewrite Hminus.
    destruct (c =? 43)%N; reflexivity. }
  destruct (strip_sign l0) as [sign l]. simpl in Hsign. subst sign.
  pose proof (strip_hex_prefix_radix l) as HR.
  destruct (strip_hex_prefix l) as [R l']. simpl in HR.
  pose proof (take_digits_nonneg R l') as Hds.
  destruct (take_digits R l') as [|d ds] eqn:E; [simpl; lia |].
  unfold nan_or.
  assert (0 <= digits_value R (d :: ds))
    by (apply fold_digits_nonneg; trivial; lia).
  destruct (_ =? 0); lia.
Qed.

Lemma non_digit_take_digits c l :
  is_digit_code c = false -> take_digits 10 (c :: l) = [].
Proof.
  unfold is_digit_code. intros H. simpl. unfold digit_value. rewrite H.
  repeat match goal with
         | |- context [if ?b then _ else _] => destruct b eqn:?
         end; try reflexivity;
    repeat match goal with
           | H : (_ && _)%bool = true |- _ => apply andb_true_iff in H; destruct H
           | H : (_ <=? _)%N = true |- _ => apply N.leb_le in H
           | H : (_ <? _) = true |- _ => apply Z.ltb_lt in H
           end; lia.
Qed.

Lemma non_digit_no_hex_prefix c l :
  is_digit_code c = false -> strip_hex_prefix (c :: l) = (10, c :: l).
Proof.
  intros H. unfold strip_hex_prefix. destruct l as [|c2 l]; [reflexivity |].
  destruct (N.eqb_spec c 48) as [-> | _]; [discriminate | reflexivity].
Qed.

(** A value that is not numeric reads as NaN. *)
Lemma non_numeric_NaN v : starts_with_number v = false -> parseInt v = None.
Proof.
  unfold starts_with_number, parseInt, parseInt_string.
  destruct (strip_sign _) as [sign l]. simpl.
  destruct l as [|c l]; [reflexivity |]. intros H.
  rewrite (non_digit_no_hex_prefix c l H), (non_digit_take_digits c l H).
  reflexivity.
Qed.

Lemma missing_or_non_numeric_zero (row : Row) key :
  missing_or_non_numeric (row !! key) = true ->
  nan_or (parseInt (row_get row key)) 0 = 0.
Proof.
  unfold missing_or_non_numeric, row_get.
  destruct (row !! key) as [v|]; simpl; [| reflexivity].
  intros H. apply negb_true_iff in H.
  rewrite (non_numeric_NaN v H). reflexivity.
Qed.

End Coercion_facts.

(** ** Arrays and page arithmetic *)

Section Array_facts.
Context {A : Type}.

Lemma insert_sorted_perm (cmp : A -> A -> Z) x l :
  Permutation (x :: l) (insert_sorted cmp x l).
Proof.
  induction l as [|y l IH]; simpl; [reflexivity |].
  destruct (cmp x y <=? 0); [reflexivity |].
  rewrite perm_swap. apply perm_skip, IH.
Qed.

Lemma sort_perm (cmp : A -> A -> Z) l : Permutation l (sort cmp l).
Proof.
  induction l as [|x l IH]; simpl; [constructor |].
  rewrite <- insert_sorted_perm. apply perm_skip, IH.
Qed.

Lemma sort_length (cmp : A -> A -> Z) l : length (sort cmp l) = length l.
Proof. symmetry. apply Permutation_length, sort_perm. Qed.

(** A comparator that calls all elements equal leaves the order alone. *)
Lemma sort_constant (cmp : A -> A -> Z) l :
  (forall a b, cmp a b = 0) -> sort cmp l = l.
Proof.
  intros H. induction l as [|x l IH]; simpl; [reflexivity |].
  rewrite IH. destruct l; simpl; [reflexivity |]. rewrite H. reflexivity.
Qed.

Lemma slice_length (l : list A) a b :
  0 <= a -> 0 <= b ->
  Z.of_nat (length (slice l a b))
  = Z.max 0 (Z.min b (len l) - Z.min a (len l)).
Proof.
  intros Ha Hb. unfold slice, len.
  destruct (Z.ltb_spec a 0); [lia |]. destruct (Z.ltb_spec b 0); [lia |].
  rewrite length_firstn, length_skipn. lia.
Qed.

Lemma slice_all (l : list A) b : len l <= b -> slice l 0 b = l.
Proof.
  intros H. unfold slice, len in *.
  destruct (Z.ltb_spec b 0); [lia |].
  change (0 <? 0) with false. cbv beta iota zeta.
  replace (Z.to_nat (Z.min 0 (Z.of_nat (length l)))) with 0%nat by lia.
  replace (Z.to_nat (Z.min b (Z.of_nat (length l)) - Z.min 0 (Z.of_nat (length l))))
    with (length l) by lia.
  apply firstn_all.
Qed.

End Array_facts.

(** [Math.ceil(n / p)] on integers, by integer division. *)
Lemma Math_ceil_div n p :
  Math_ceil (inject_Z n / inject_Z p) = - ((- n) / p).
Proof.
  unfold Math_ceil, Qceiling. f_equal. rewrite Zdiv_Qdiv.
  apply Qfloor_comp. rewrite inject_Z_opp. unfold Qdiv. ring.
Qed.

(** [Math.ceil(n / p)] is the least [k] with [n <= k * p]. *)
Lemma Math_ceil_bounds n p :
  0 < p ->
  (Math_ceil (inject_Z n / inject_Z p) - 1) * p < n
  /\ n <= Math_ceil (inject_Z n / inject_Z p) * p.
Proof.
  intros Hp. rewrite Math_ceil_div.
  pose proof (Z.div_mod (- n) p ltac:(lia)) as E.
  pose proof (Z.mod_pos_bound (- n) p Hp) as B.
  nia.
Qed.

(** ** What the view updates leave alone *)

Section Frame_facts.

Lemma updateRecordsList_frame st :
  records (updateRecordsList st) = records st
  /\ filteredRecords (updateRecordsList st) = filteredRecords st
  /\ totalCost (updateRecordsList st) = totalCost st
  /\ currentPage (updateRecordsList st) = currentPage st
  /\ recordsPerPage (updateRecordsList st) = recordsPerPage st.
Proof. unfold updateRecordsList. destruct (_ =? _); simpl; tauto. Qed.

Lemma updatePagination_frame st :
  records (updatePagination st) = records st
  /\ filteredRecords (updatePagination st) = filteredRecords st
  /\ totalCost (updatePagination st) = totalCost st
  /\ currentPage (updatePagination st) = currentPage st
  /\ recordsPerPage (updatePagination st) = recordsPerPage st
  /\ records_list (elements (updatePagination st))
     = records_list (elements st).
Proof. unfold updatePagination. destruct (_ <=? _); simpl; tauto. Qed.

Lemma updateUI_frame st :
  records (updateUI st) = records st
  /\ filteredRecords (updateUI st) = filteredRecords st
  /\ totalCost (updateUI st) = totalCost st
  /\ currentPage (updateUI st) = currentPage st
  /\ recordsPerPage (updateUI st) = recordsPerPage st.
Proof.
  unfold updateUI, updateExportButton, set_elements.
  cbn [records filteredRecords totalCost currentPage recordsPerPage].
  destruct (updatePagination_frame (updateRecordsList st))
    as (-> & -> & -> & -> & -> & _).
  apply updateRecordsList_frame.
Qed.

Lemma debouncedSave_frame st :
  records (debouncedSave st) = records st
  /\ filteredRecords (debouncedSave st) = filteredRecords st
  /\ totalCost (debouncedSave st) = totalCost st
  /\ currentPage (debouncedSave st) = currentPage st
  /\ recordsPerPage (debouncedSave st) = recordsPerPage st.
Proof. repeat split; reflexivity. Qed.

Lemma addRecord_fields record st :
  records (addRecord record st) = record :: records st
  /\ filteredRecords (addRecord record st) = filteredRecords st
  /\ totalCost (addRecord record st) = totalCost st + total record
  /\ currentPage (addRecord record st) = currentPage st
  /\ recordsPerPage (addRecord record st) = recordsPerPage st.
Proof.
  unfold addRecord. cbv zeta.
  match goal with
  | |- context [updateUI ?s] =>
      destruct (debouncedSave_frame (updateUI s)) as (-> & -> & -> & -> & ->);
      destruct (updateUI_frame s) as (-> & -> & -> & -> & ->)
  end.
  repeat split; reflexivity.
Qed.

Lemma forEach_row_fields env rows : forall k st,
  records (fst (forEach_row env rows k st))
    = (records st ++ import_list env k rows)%list
  /\ filteredRecords (fst (forEach_row env rows k st)) = filteredRecords st
  /\ currentPage (fst (forEach_row env rows k st)) = currentPage st
  /\ recordsPerPage (fst (forEach_row env rows k st)) = recordsPerPage st
  /\ totalCost (fst (forEach_row env rows k st))
     = totalCost st + fold_right Z.add 0 (map total (import_list env k rows)).
Proof.
  induction rows as [|row rows IH]; intros k st; simpl.
  - rewrite app_nil_r. repeat split; lia.
  - match goal with
    | |- context [forEach_row env rows (S k) ?s] =>
        destruct (IH (S k) s) as (-> & -> & -> & -> & ->)
    end.
    simpl. rewrite <- app_assoc. simpl. repeat split; lia.
Qed.

Lemma handleUpload_fields env rows st :
  records (handleUpload env (Sheet rows) st)
    = (records st ++ import_list env 0 rows)%list
  /\ filteredRecords (handleUpload env (Sheet rows) st) = filteredRecords st
  /\ currentPage (handleUpload env (Sheet rows) st) = currentPage st
  /\ totalCost (handleUpload env (Sheet rows) st)
     = totalCost st + fold_right Z.add 0 (map total (import_list env 0 rows)).
Proof.
  unfold handleUpload.
  pose proof (forEach_row_fields env rows 0 st) as H.
  destruct (forEach_row env rows 0 st) as [st1 n]. simpl in H.
  unfold debouncedSave.
  cbn [records filteredRecords totalCost currentPage recordsPerPage].
  destruct (updateUI_frame st1) as (-> & -> & -> & -> & _).
  tauto.
Qed.

Lemma import_list_length env rows : forall k,
  length (import_list env k rows) = length rows.
Proof. induction rows; intros k; simpl; auto. Qed.

End Frame_facts.

(** ** The record made by the form *)

Lemma is_empty_false s : s <> EmptyString -> is_empty s = false.
Proof. destruct s; [congruence | reflexivity]. Qed.

(** [validateForm] writes the two error texts and nothing else. *)
Lemma validateForm_spec r env st :
  fst (validateForm st)
  = negb (is_empty (trim (startPoint_value (form (elements st)))))
    && negb (is_empty (trim (endPoint_value (form (elements st)))))
  /\ records (snd (validateForm st)) = records st
  /\ currentPage (snd (validateForm st)) = currentPage st
  /\ form_record r env (snd (validateForm st)) = form_record r env st.
Proof. repeat split; reflexivity. Qed.

Lemma clearForm_frame st :
  records (clearForm st) = records st.
Proof. reflexivity. Qed.

Lemma clearForm_currentPage st :
  currentPage (clearForm st) = currentPage st.
Proof. reflexivity. Qed.

(** C1. When origin and destination are not empty after trimming, the
    form submission prepends one record whose total is toll + fuel and
    whose route is its origin, " → " and its destination, the origin and
    the destination being the trimmed field texts. *)
Theorem form_record_total_route (r : Q) (env : Readings) (st : State) :
  trim (startPoint_value (form (elements st))) <> EmptyString ->
  trim (endPoint_value (form (elements st))) <> EmptyString ->
  exists record origin destination,
    records (handleFormSubmit r env st) = record :: records st
    /\ origin = trim (startPoint_value (form (elements st)))
    /\ destination = trim (endPoint_value (form (elements st)))
    /\ startPoint record = VString origin
    /\ endPoint record = VString destination
    /\ toll record = simulateTollFee r
    /\ fuel record
       = nan_or (parseInt (VString (fuelCost_value (form (elements st))))) 0
    /\ total record = toll record + fuel record
    /\ route record = VString (origin ++ " → " ++ destination).
Proof.
  intros Ho Hd.
  pose proof (is_empty_false _ Ho) as Eo.
  pose proof (is_empty_false _ Hd) as Ed.
  exists (form_record r env st), (trim (startPoint_value (form (elements st)))),
    (trim (endPoint_value (form (elements st)))).
  split; [| repeat split; reflexivity].
  unfold handleFormSubmit.
  destruct (validateForm_spec r env st) as (Hv & Hrec & _ & Hform).
  destruct (validateForm st) as [valid st1].
  cbn [fst snd] in Hv, Hrec, Hform.
  rewrite Hv, Eo, Ed. cbn [negb andb].
  rewrite clearForm_frame.
  destruct (addRecord_fields (form_record r env st1) st1) as (-> & _).
  rewrite Hform, Hrec. reflexivity.
Qed.

Lemma form_record_total_route_witness :
  exists record,
    records (handleFormSubmit (1 # 2) (clock 0)
               (fill_form "  서울역 " "수원역" "30000" (constructor blank_page)))
    = [record]
    /\ total record = 33500
    /\ route record = VString "서울역 → 수원역".
Proof.
  destruct (form_record_total_route (1 # 2) (clock 0)
              (fill_form "  서울역 " "수원역" "30000" (constructor blank_page)))
    as (record & o & d & Hr & Ho & Hd & _ & _ & Ht & Hf & Htot & Hroute).
  - vm_compute. discriminate.
  - vm_compute. discriminate.
  - exists record. split; [exact Hr |].
    rewrite Htot, Ht, Hf, Hroute, Ho, Hd. split; vm_compute; reflexivity.
Defined.

(** ** Page count and visible page *)

Lemma shown_records_cases st :
  (filteredRecords st = [] /\ shown_records st = records st)
  \/ (filteredRecords st <> [] /\ shown_records st = filteredRecords st).
Proof.
  unfold shown_records, len. destruct (filteredRecords st); simpl; [left | right];
    split; congruence.
Qed.

Lemma getTotalPages_shown st :
  getTotalPages st
  = Math_ceil (inject_Z (len (shown_records st)) / inject_Z (recordsPerPage st)).
Proof.
  unfold getTotalPages, shown_records. destruct (0 <? _); reflexivity.
Qed.

(** C2, as the code has it.  The page count is the ceiling of n / page
    size, where n is the size of the list that is displayed: the filtered
    list when it is not empty, the whole collection otherwise.  When that
    list is empty the page count is 0 and the container shows the
    "no records" message; otherwise the page count is at least 1. *)
Theorem page_count_of_shown_records st :
  0 < recordsPerPage st ->
  (getTotalPages st - 1) * recordsPerPage st < len (shown_records st)
  /\ len (shown_records st) <= getTotalPages st * recordsPerPage st
  /\ (len (shown_records st) = 0 ->
      getTotalPages st = 0
      /\ records_list (elements (updateRecordsList st)) = NoRecordsMessage)
  /\ (0 < len (shown_records st) -> 1 <= getTotalPages st).
Proof.
  intros Hp. rewrite getTotalPages_shown.
  destruct (Math_ceil_bounds (len (shown_records st)) (recordsPerPage st) Hp)
    as [Hlo Hhi].
  split; [exact Hlo |]. split; [exact Hhi |]. split.
  - intros Hn. split.
    + rewrite Hn, Math_ceil_div. simpl. rewrite Z.div_0_l by lia. reflexivity.
    + unfold updateRecordsList. rewrite Hn. reflexivity.
  - intros Hn.
    destruct (Z.le_gt_cases 1
                (Math_ceil (inject_Z (len (shown_records st))
                            / inject_Z (recordsPerPage st)))) as [|Hk];
      [assumption | nia].
Qed.

Lemma page_count_of_shown_records_witness :
  (3 - 1) * 20 < 45 /\ 45 <= 3 * 20 /\ 1 <= getTotalPages (ledger 45).
Proof.
  destruct (page_count_of_shown_records (ledger 45)) as (H1 & H2 & _ & H4).
  - vm_compute. reflexivity.
  - split; [exact H1 | split; [exact H2 |]]. apply H4. vm_compute. reflexivity.
Defined.

(** C2, as stated, fails on the empty collection: the page count is 0,
    not at least 1. *)
Lemma page_count_empty_collection :
  shown_records (constructor blank_page) = []
  /\ getTotalPages (constructor blank_page) = 0
  /\ ~ 1 <= getTotalPages (constructor blank_page).
Proof. vm_compute. repeat split; congruence. Qed.

(** C9. With 45 records and pages of 20 there are 3 pages, page 3 shows
    exactly 5 records, and a step that would lead to page 4 or to page 0
    changes nothing. *)
Theorem pagination_of_45_records st :
  length (records st) = 45%nat ->
  filteredRecords st = [] \/ length (filteredRecords st) = 45%nat ->
  recordsPerPage st = 20 ->
  getTotalPages st = 3
  /\ (currentPage st = 3 ->
      exists page,
        records_list (elements (updateRecordsList st)) = Items page
        /\ length page = 5%nat)
  /\ (currentPage st = 2 ->
      exists page,
        currentPage (changePage 1 st) = 3
        /\ records_list (elements (changePage 1 st)) = Items page
        /\ length page = 5%nat)
  /\ (forall direction,
        currentPage st + direction = 4 \/ currentPage st + direction = 0 ->
        changePage direction st = st).
Proof.
  intros Hrec Hfil Hsize.
  assert (Hshown : length (shown_records st) = 45%nat).
  { destruct (shown_records_cases st) as [[E ->] | [E ->]]; [exact Hrec |].
    destruct Hfil; congruence. }
  assert (Hpages : getTotalPages st = 3).
  { rewrite getTotalPages_shown. unfold len. rewrite Hshown, Hsize.
    reflexivity. }
  assert (Hpage3 : forall st',
            shown_records st' = shown_records st ->
            recordsPerPage st' = 20 -> currentPage st' = 3 ->
            exists page,
              records_list (elements (updateRecordsList st')) = Items page
              /\ length page = 5%nat).
  { intros st' Es Ep Ec. unfold updateRecordsList.
    rewrite Es, Ep, Ec. unfold len at 1. rewrite Hshown.
    change (Z.of_nat 45 =? 0) with false. cbn -[slice].
    eexists. split; [reflexivity |].
    pose proof (slice_length (shown_records st) 40 60
                  ltac:(lia) ltac:(lia)) as L.
    unfold len in L. rewrite Hshown in L.
    change ((3 - 1) * 20) with 40. change (40 + 20) with 60. lia. }
  split; [exact Hpages |]. split; [| split].
  - intros Hc. apply Hpage3; trivial.
  - intros Hc. unfold changePage. rewrite Hpages, Hc.
    change ((1 <=? 2 + 1) && (2 + 1 <=? 3)) with true.
    change (2 + 1) with 3. cbv iota.
    destruct (updatePagination_frame
                (updateRecordsList (set_currentPage 3 st)))
      as (_ & _ & _ & -> & _ & ->).
    destruct (updateRecordsList_frame (set_currentPage 3 st))
      as (_ & _ & _ & -> & _).
    destruct (Hpage3 (set_currentPage 3 st)) as (page & E & L);
      try reflexivity; trivial.
    exists page. repeat split; trivial.
  - intros direction Hd. unfold changePage. rewrite Hpages.
    destruct Hd as [-> | ->]; reflexivity.
Qed.

Lemma pagination_of_45_records_witness :
  getTotalPages (changePage 1 (ledger 45)) = 3
  /\ (exists page,
        currentPage (changePage 1 (changePage 1 (ledger 45))) = 3
        /\ records_list (elements (changePage 1 (changePage 1 (ledger 45))))
           = Items page
        /\ length page = 5%nat)
  /\ changePage 2 (changePage 1 (ledger 45)) = changePage 1 (ledger 45).
Proof.
  destruct (pagination_of_45_records (changePage 1 (ledger 45)))
    as (H1 & _ & H3 & H4).
  - vm_compute. reflexivity.
  - left. vm_compute. reflexivity.
  - vm_compute. reflexivity.
  - split; [exact H1 |]. split.
    + apply H3. vm_compute. reflexivity.
    + apply H4. left. vm_compute. reflexivity.
Defined.

(** ** Search *)

Lemma includes_empty s : includes s EmptyString = true.
Proof. destruct s; reflexivity. Qed.

Lemma filterM_none {A} (f : A -> outcome bool) l :
  Forall (fun x => f x = Return false) l -> filterM f l = Return [].
Proof.
  induction 1 as [|x l Hx _ IH]; simpl; [reflexivity |].
  rewrite Hx, IH. reflexivity.
Qed.

(** No record matches the empty term with [Return false]. *)
Lemma matches_empty_term r : matches EmptyString r <> Return false.
Proof.
  unfold matches. destruct (route r); try discriminate.
  rewrite includes_empty. discriminate.
Qed.

Lemma handleSearch_fields st st' :
  handleSearch st = Return st' ->
  records st' = records st /\ totalCost st' = totalCost st
  /\ currentPage st' = 1 /\ recordsPerPage st' = recordsPerPage st.
Proof.
  unfold handleSearch.
  destruct (if is_empty _ then _ else _) as [filtered|]; simpl; [| discriminate].
  intros [= <-].
  match goal with
  | |- context [updatePagination ?s] =>
      destruct (updatePagination_frame s) as (-> & _ & -> & -> & -> & _)
  end.
  match goal with
  | |- context [updateRecordsList ?s] =>
      destruct (updateRecordsList_frame s) as (-> & _ & -> & -> & ->)
  end.
  simpl. tauto.
Qed.

(** C10. When no record matches the search term, the filtered list is
    empty and both the page count and the displayed list come from the
    whole collection: the list shows its first page, which is every
    record when they fit on one page. *)
Theorem search_without_match_shows_collection st :
  Forall (fun r =>
            matches (trim (toLowerCase (searchInput_value (elements st)))) r
            = Return false) (records st) ->
  exists st',
    handleSearch st = Return st'
    /\ filteredRecords st' = []
    /\ records st' = records st
    /\ getTotalPages st'
       = Math_ceil (inject_Z (len (records st)) / inject_Z (recordsPerPage st))
    /\ records_list (elements st')
       = (if len (records st) =? 0 then NoRecordsMessage
          else Items (slice (records st) 0 (recordsPerPage st)))
    /\ (0 < len (records st) <= recordsPerPage st ->
        records_list (elements st') = Items (records st)).
Proof.
  intros Hnone.
  set (term := trim (toLowerCase (searchInput_value (elements st)))) in *.
  assert (Hfiltered :
            (if is_empty term then Return (records st)
             else filterM (matches term) (records st)) = Return []).
  { destruct term eqn:E; simpl.
    - destruct (records st) as [|r l]; [reflexivity |].
      inversion Hnone; subst. exfalso. eapply matches_empty_term; eauto.
    - apply filterM_none, Hnone. }
  unfold handleSearch. fold term. rewrite Hfiltered. simpl bind.
  eexists. split; [reflexivity |].
  set (st2 := set_currentPage 1 (set_filteredRecords [] st)).
  destruct (updatePagination_frame (updateRecordsList st2))
    as (E1 & E2 & _ & _ & E5 & E6).
  destruct (updateRecordsList_frame st2) as (F1 & F2 & _ & _ & F5).
  assert (Hlist : records_list (elements (updateRecordsList st2))
                  = if len (records st) =? 0 then NoRecordsMessage
                    else Items (slice (records st) 0 (recordsPerPage st))).
  { unfold updateRecordsList, shown_records. simpl.
    destruct (len (records st) =? 0); reflexivity. }
  split; [rewrite E2, F2; reflexivity |].
  split; [rewrite E1, F1; reflexivity |].
  split; [| split].
  - unfold getTotalPages. rewrite E1, E2, E5, F1, F2, F5. reflexivity.
  - rewrite E6. exact Hlist.
  - intros [Hpos Hfit]. rewrite E6, Hlist.
    destruct (Z.eqb_spec (len (records st)) 0); [lia |].
    rewrite slice_all by assumption. reflexivity.
Qed.

Lemma search_without_match_shows_collection_witness :
  exists st',
    handleSearch (type_search "제주" (ledger 3)) = Return st'
    /\ filteredRecords st' = []
    /\ records_list (elements st') = Items (records (ledger 3)).
Proof.
  destruct (search_without_match_shows_collection
              (type_search "제주" (ledger 3)))
    as (st' & H1 & H2 & _ & _ & _ & H6).
  - vm_compute. repeat constructor.
  - exists st'. split; [exact H1 |]. split; [exact H2 |].
    apply H6. vm_compute. split; [reflexivity | discriminate].
Defined.

(** ** Sort, pagination and what they touch *)

Lemma handleSort_fields st :
  totalCost (handleSort st) = totalCost st
  /\ currentPage (handleSort st) = 1
  /\ records (handleSort st)
     = (if 0 <? len (filteredRecords st) then records st
        else sort (compare_by (sortSelect_value (elements st))) (records st)).
Proof.
  unfold handleSort. cbv zeta.
  match goal with
  | |- context [updatePagination ?s] =>
      destruct (updatePagination_frame s) as (-> & _ & -> & -> & _)
  end.
  match goal with
  | |- context [updateRecordsList ?s] =>
      destruct (updateRecordsList_frame s) as (-> & _ & -> & -> & _)
  end.
  unfold shown_records. destruct (0 <? len (filteredRecords st)); simpl; tauto.
Qed.

Lemma changePage_fields direction st :
  records (changePage direction st) = records st
  /\ totalCost (changePage direction st) = totalCost st
  /\ (currentPage (changePage direction st) = currentPage st
      \/ currentPage (changePage direction st) = currentPage st + direction
         /\ 1 <= currentPage st + direction <= getTotalPages st).
Proof.
  unfold changePage. cbv zeta.
  destruct (_ && _) eqn:E; [| tauto].
  apply andb_true_iff in E. destruct E as [E1 E2].
  apply Z.leb_le in E1, E2.
  match goal with
  | |- context [updatePagination ?s] =>
      destruct (updatePagination_frame s) as (-> & _ & -> & -> & _)
  end.
  match goal with
  | |- context [updateRecordsList ?s] =>
      destruct (updateRecordsList_frame s) as (-> & _ & -> & -> & _)
  end.
  simpl. repeat split; trivial. right. lia.
Qed.

(** With a sort value other than the four directives the comparator
    answers 0 and the order stays as it is. *)
Lemma handleSort_unsorted st :
  compare_by (sortSelect_value (elements st)) = (fun _ _ => 0) ->
  records (handleSort st) = records st.
Proof.
  intros H. destruct (handleSort_fields st) as (_ & _ & ->).
  destruct (0 <? len (filteredRecords st)); [reflexivity |].
  apply sort_constant. intros a b. rewrite H. reflexivity.
Qed.

(** C7, as the code has it.  Search and pagination leave the collection
    (contents and order) and the aggregate total as they are.  Sort leaves
    the aggregate total as it is and keeps the contents of the collection;
    it keeps the order as well while the filtered list is not empty, and
    otherwise stores the sorted arrangement as the new collection. *)
Theorem view_operations_and_collection st direction :
  (forall st', handleSearch st = Return st' ->
               records st' = records st /\ totalCost st' = totalCost st)
  /\ records (changePage direction st) = records st
  /\ totalCost (changePage direction st) = totalCost st
  /\ totalCost (handleSort st) = totalCost st
  /\ Permutation (records st) (records (handleSort st))
  /\ (filteredRecords st <> [] -> records (handleSort st) = records st)
  /\ (filteredRecords st = [] ->
      records (handleSort st)
      = sort (compare_by (sortSelect_value (elements st))) (records st)).
Proof.
  destruct (handleSort_fields st) as (Ht & _ & Hr).
  destruct (changePage_fields direction st) as (Cr & Ct & _).
  split.
  { intros st' H. destruct (handleSearch_fields st st' H) as (H1 & H2 & _).
    split; assumption. }
  split; [exact Cr |]. split; [exact Ct |]. split; [exact Ht |].
  rewrite Hr. unfold len.
  destruct (filteredRecords st) as [|x l]; simpl.
  - split; [apply sort_perm |]. split; [congruence | reflexivity].
  - split; [reflexivity |]. split; [reflexivity | discriminate].
Qed.

Lemma view_operations_and_collection_witness :
  records (handleSort (select_sort "cost-asc" (ledger 2)))
  = sort (compare_by "cost-asc") (records (ledger 2)).
Proof.
  destruct (view_operations_and_collection
              (select_sort "cost-asc" (ledger 2)) 1) as (_ & _ & _ & _ & _ & _ & H).
  apply H. vm_compute. reflexivity.
Defined.

(** C7, as stated, fails for sort: with no search active, sorting two
    imported records by date, newest first, reverses the collection. *)
Lemma sort_reorders_collection :
  map timestamp (records (ledger 2)) = [1700000000000; 1700000000001]
  /\ map timestamp (records (handleSort (ledger 2)))
     = [1700000000001; 1700000000000]
  /\ records (handleSort (ledger 2)) <> records (ledger 2).
Proof.
  assert (H1 : map timestamp (records (ledger 2))
               = [1700000000000; 1700000000001]) by (vm_compute; reflexivity).
  assert (H2 : map timestamp (records (handleSort (ledger 2)))
               = [1700000000001; 1700000000000]) by (vm_compute; reflexivity).
  split; [exact H1 |]. split; [exact H2 |].
  intros E. rewrite E, H1 in H2. discriminate.
Qed.

(** ** The current page *)

Lemma handleFormSubmit_currentPage r env st :
  currentPage (handleFormSubmit r env st) = currentPage st.
Proof.
  unfold handleFormSubmit.
  destruct (validateForm_spec r env st) as (_ & _ & Hpage & _).
  destruct (validateForm st) as [valid st1]. cbn [snd] in Hpage.
  destruct (negb valid); [exact Hpage |].
  rewrite clearForm_currentPage.
  destruct (addRecord_fields (form_record r env st1) st1)
    as (_ & _ & _ & -> & _).
  exact Hpage.
Qed.

Lemma filterM_returns {A} (f : A -> outcome bool) l :
  Forall (fun x => exists keep, f x = Return keep) l ->
  exists kept, filterM f l = Return kept.
Proof.
  induction 1 as [|x l (keep & Hx) _ (kept & IH)]; [eexists; reflexivity |].
  cbn [filterM]. rewrite Hx, IH. cbn [bind]. eexists. reflexivity.
Qed.

Lemma matches_returns term r :
  is_string (route r) = true -> is_string (date r) = true ->
  exists keep, matches term r = Return keep.
Proof.
  unfold matches.
  destruct (route r) as [| | | |s]; try discriminate.
  destruct (date r) as [| | | |d]; try discriminate. intros _ _.
  destruct (includes (toLowerCase s) term); eexists; reflexivity.
Qed.

(** The search returns normally when the route and the date of every
    record are strings. *)
Lemma handleSearch_completes st :
  Forall (fun r => is_string (route r) = true /\ is_string (date r) = true)
    (records st) ->
  exists st', handleSearch st = Return st'.
Proof.
  intros H. unfold handleSearch.
  destruct (is_empty _); [cbn [bind]; eexists; reflexivity |].
  destruct (filterM_returns
              (matches (trim (toLowerCase (searchInput_value (elements st)))))
              (records st)) as (kept & ->).
  - eapply List.Forall_impl; [| exact H]. intros r [Hr Hd].
    apply matches_returns; assumption.
  - cbn [bind]. eexists. reflexivity.
Qed.

Lemma changePage_moves direction st :
  1 <= currentPage st + direction <= getTotalPages st ->
  currentPage (changePage direction st) = currentPage st + direction.
Proof.
  intros [H1 H2]. unfold changePage. cbv zeta.
  apply Z.leb_le in H1, H2. rewrite H1, H2. cbn [andb].
  destruct (updatePagination_frame
              (updateRecordsList
                 (set_currentPage (currentPage st + direction) st)))
    as (_ & _ & _ & -> & _).
  destruct (updateRecordsList_frame
              (set_currentPage (currentPage st + direction) st))
    as (_ & _ & _ & -> & _).
  reflexivity.
Qed.

Lemma changePage_refused direction st :
  ~ 1 <= currentPage st + direction <= getTotalPages st ->
  changePage direction st = st.
Proof.
  intros H. unfold changePage. cbv zeta.
  destruct (Z.leb_spec 1 (currentPage st + direction));
    destruct (Z.leb_spec (currentPage st + direction) (getTotalPages st));
    try reflexivity. lia.
Qed.

(** C3, as the code has it.  Adding a record, submitting the form and
    importing a batch leave the current page where it was.  Sort sets the
    current page to 1, and so does every search that returns; the search
    returns whenever the route and the date of every record are strings.
    Pagination moves the current page by the requested step when the new
    page lies within 1..page count, and changes nothing otherwise. *)
Theorem current_page_after_actions st record r fenv env input direction :
  currentPage (addRecord record st) = currentPage st
  /\ currentPage (handleFormSubmit r fenv st) = currentPage st
  /\ currentPage (handleUpload env input st) = currentPage st
  /\ currentPage (handleSort st) = 1
  /\ (forall st', handleSearch st = Return st' -> currentPage st' = 1)
  /\ (Forall (fun r => is_string (route r) = true /\ is_string (date r) = true)
        (records st) ->
      exists st', handleSearch st = Return st' /\ currentPage st' = 1)
  /\ (1 <= currentPage st + direction <= getTotalPages st ->
      currentPage (changePage direction st) = currentPage st + direction)
  /\ (~ 1 <= currentPage st + direction <= getTotalPages st ->
      changePage direction st = st).
Proof.
  destruct (addRecord_fields record st) as (_ & _ & _ & Ha & _).
  destruct (handleSort_fields st) as (_ & Hs & _).
  assert (Hsearch : forall st', handleSearch st = Return st' ->
                                currentPage st' = 1).
  { intros st' H. destruct (handleSearch_fields st st' H) as (_ & _ & Hp & _).
    exact Hp. }
  split; [exact Ha |].
  split; [exact (handleFormSubmit_currentPage r fenv st) |].
  split.
  { destruct input as [| | |rows]; try reflexivity.
    destruct (handleUpload_fields env rows st) as (_ & _ & Hu & _).
    exact Hu. }
  split; [exact Hs |].
  split; [exact Hsearch |].
  split.
  { intros H. destruct (handleSearch_completes st H) as (st' & E).
    exists st'. split; [exact E | exact (Hsearch st' E)]. }
  split; [exact (changePage_moves direction st) |].
  exact (changePage_refused direction st).
Qed.

Lemma current_page_after_actions_witness :
  currentPage (changePage 1 (ledger 25)) = 2
  /\ changePage 1 (changePage 1 (ledger 25)) = changePage 1 (ledger 25)
  /\ exists st', handleSearch (type_search "수원" (changePage 1 (ledger 25)))
                 = Return st'
                 /\ currentPage st' = 1.
Proof.
  split; [| split].
  - destruct (current_page_after_actions (ledger 25) (trip "서울역" "수원역" 1 2 3)
                (1 # 2) (clock 0) clock NoFile 1)
      as (_ & _ & _ & _ & _ & _ & H & _).
    rewrite H; vm_compute; [reflexivity | split; discriminate].
  - destruct (current_page_after_actions (changePage 1 (ledger 25))
                (trip "서울역" "수원역" 1 2 3) (1 # 2) (clock 0) clock NoFile 1)
      as (_ & _ & _ & _ & _ & _ & _ & H).
    apply H. vm_compute. intros [_ H2]. apply H2. reflexivity.
  - destruct (current_page_after_actions
                (type_search "수원" (changePage 1 (ledger 25)))
                (trip "서울역" "수원역" 1 2 3) (1 # 2) (clock 0) clock NoFile 1)
      as (_ & _ & _ & _ & _ & H & _).
    apply H. vm_compute. repeat constructor.
Defined.

(** C3, as stated, fails: on page 2 of a ledger of 25 records, submitting
    the form or importing a row leaves the current page at 2. *)
Lemma page_not_reset_by_add_or_import :
  currentPage (changePage 1 (ledger 25)) = 2
  /\ currentPage
       (handleFormSubmit (1 # 2) (clock 0)
          (fill_form "서울역" "수원역" "30000" (changePage 1 (ledger 25)))) = 2
  /\ length
       (records
          (handleFormSubmit (1 # 2) (clock 0)
             (fill_form "서울역" "수원역" "30000" (changePage 1 (ledger 25)))))
     = 26%nat
  /\ currentPage (handleUpload clock (Sheet [∅]) (changePage 1 (ledger 25))) = 2
  /\ 2 <> 1.
Proof. vm_compute. repeat split; congruence. Qed.

(** ** Export and import *)

Lemma export_row_get r :
  row_get (export_row r) "날짜" = date r
  /\ row_get (export_row r) "출발지" = startPoint r
  /\ row_get (export_row r) "도착지" = endPoint r
  /\ row_get (export_row r) "경로" = route r
  /\ row_get (export_row r) "통행료" = VNumber (toll r)
  /\ row_get (export_row r) "주유비" = VNumber (fuel r).
Proof. repeat split; reflexivity. Qed.

Lemma or_else_truthy a b : truthy a = true -> or_else a b = a.
Proof. unfold or_else. intros ->. reflexivity. Qed.

Lemma nan_or_zero n : nan_or (Some n) 0 = n.
Proof. unfold nan_or. destruct (Z.eqb_spec n 0); congruence. Qed.

Lemma import_export_record env k r :
  round_trips r -> content (import_record env k (export_row r)) = content r.
Proof.
  intros (Hd & Hs & He & Hr & Ht & Htoll & Hfuel).
  destruct (export_row_get r) as (E1 & E2 & E3 & E4 & E5 & E6).
  unfold content, import_record.
  cbn [date startPoint endPoint route toll fuel total].
  rewrite E1, E2, E3, E4, E5, E6.
  rewrite !or_else_truthy by assumption.
  rewrite (parseInt_number _ Htoll), (parseInt_number _ Hfuel), !nan_or_zero.
  rewrite Ht. reflexivity.
Qed.

Lemma import_export_list env rs : forall k,
  Forall round_trips rs ->
  map content (import_list env k (exportData rs)) = map content rs.
Proof.
  induction rs as [|r rs IH]; intros k H; [reflexivity |].
  inversion H; subst. simpl. rewrite IH by assumption.
  rewrite import_export_record by assumption. reflexivity.
Qed.

Lemma handleExport_rows st :
  records st <> [] -> handleExport true st = Some (exportData (records st)).
Proof.
  unfold handleExport, len. destruct (records st); [congruence | reflexivity].
Qed.

(** C4, as the code has it.  Exporting records and importing the rows
    back appends records equal to the originals in date, origin,
    destination, route, toll, fuel and total, provided each original has
    non-empty (truthy) date, origin, destination and route, a total equal
    to toll + fuel, and toll and fuel below 10^21 in absolute value. *)
Theorem export_import_round_trip env rs st :
  Forall round_trips rs ->
  (forall st0, records st0 = rs -> rs <> [] ->
               handleExport true st0 = Some (exportData rs))
  /\ exists imported,
       records (handleUpload env (Sheet (exportData rs)) st)
       = (records st ++ imported)%list
       /\ map content imported = map content rs.
Proof.
  intros H. split.
  - intros st0 <- Hne. exact (handleExport_rows st0 Hne).
  - exists (import_list env 0 (exportData rs)).
    destruct (handleUpload_fields env (exportData rs) st) as (E & _).
    split; [exact E | apply import_export_list, H].
Qed.

Lemma export_import_round_trip_witness :
  exists imported,
    records (handleUpload clock
               (Sheet (exportData [trip "서울역" "수원역" 3000 30000 1;
                                   trip "부산역" "대전역" 1200 0 2]))
               (constructor blank_page))
    = imported
    /\ map total imported = [33000; 1200].
Proof.
  destruct (export_import_round_trip clock
              [trip "서울역" "수원역" 3000 30000 1;
               trip "부산역" "대전역" 1200 0 2] (constructor blank_page))
    as (_ & imported & E & C).
  - repeat constructor; vm_compute; congruence.
  - exists imported. split; [exact E |].
    apply (f_equal (map (fun c => snd c))) in C.
    rewrite !map_map in C. exact C.
Defined.

(** The records made by the form and by the import satisfy the textual
    part of [round_trips]. *)
Lemma form_record_fields_truthy r env st :
  trim (startPoint_value (form (elements st))) <> EmptyString ->
  trim (endPoint_value (form (elements st))) <> EmptyString ->
  today env <> EmptyString ->
  let record := form_record r env st in
  truthy (date record) = true /\ truthy (startPoint record) = true
  /\ truthy (endPoint record) = true /\ truthy (route record) = true
  /\ total record = toll record + fuel record.
Proof.
  intros Ho Hd Ht record. subst record. unfold form_record.
  cbn [date startPoint endPoint route toll fuel total truthy].
  rewrite (is_empty_false _ Ho), (is_empty_false _ Hd), (is_empty_false _ Ht).
  repeat split; trivial.
  destruct (trim (startPoint_value (form (elements st)))); [congruence |].
  reflexivity.
Qed.




(** C4, as stated, fails for a record without date text (the import puts
    today's date), for a record whose total is not toll + fuel (the
    import recomputes it) and for a toll of 10^21 (its text is 1e+21,
    which reads back as 1).  The last kind of record is made by the
    import itself from a cell holding the 22 digits. *)
Lemma export_import_not_identity :
  map content (import_list clock 0 (exportData [undated]))
    <> map content [undated]
  /\ map content (import_list clock 0 (exportData [drifted]))
    <> map content [drifted]
  /\ map content (import_list clock 0 (exportData [huge]))
    <> map content [huge]
  /\ map toll (records (handleUpload clock (Sheet [big_toll_row])
                          (constructor blank_page))) = [10 ^ 21]
  /\ map toll (import_list clock 0
                 (exportData
                    (records (handleUpload clock (Sheet [big_toll_row])
                                (constructor blank_page))))) = [1].
Proof.
  repeat split; vm_compute; try reflexivity; intros H; discriminate H.
Qed.

(** ** What [parseInt] reads *)

Section Prefix_facts.

Lemma codes_app s t : codes (s ++ t) = (codes s ++ codes t)%list.
Proof.
  unfold codes. induction s as [|a s IH]; [reflexivity |].
  simpl. f_equal. exact IH.
Qed.

Lemma uint_take_digits_app d c l :
  is_digit_code c = false ->
  take_digits 10 (codes (NilEmpty.string_of_uint d) ++ c :: l) = uint_digits d.
Proof.
  intros Hc.
  induction d; simpl NilEmpty.string_of_uint; rewrite ?codes_cons;
    [exact (non_digit_take_digits c l Hc) | simpl; rewrite IHd; reflexivity ..].
Qed.

Lemma uint_single_zero d :
  codes (NilEmpty.string_of_uint d) = [48%N] -> Pos.of_uint d = 0%N.
Proof.
  destruct d; simpl NilEmpty.string_of_uint; rewrite ?codes_cons;
    try discriminate.
  intros [= H]. destruct d; try discriminate H. reflexivity.
Qed.

Lemma digits_then_no_hex_prefix c0 l0 c l :
  forallb is_digit_code (c0 :: l0) = true ->
  is_digit_code c = false ->
  (l0 = [] -> c0 <> 48%N) ->
  strip_hex_prefix ((c0 :: l0) ++ c :: l) = (10, (c0 :: l0) ++ c :: l)%list.
Proof.
  intros Hall Hc Hz. destruct l0 as [|c1 l0].
  - simpl. destruct (N.eqb_spec c0 48) as [E | _]; [| reflexivity].
    exfalso. exact (Hz eq_refl E).
  - simpl in Hall. rewrite !andb_true_iff in Hall.
    destruct Hall as (_ & H1 & _).
    change (((c0 :: c1 :: l0) ++ c :: l)%list) with (c0 :: c1 :: (l0 ++ c :: l))%list.
    unfold strip_hex_prefix.
    destruct (digit_code_cases c1 H1) as
      [-> | [-> | [-> | [-> | [-> | [-> | [-> | [-> | [-> | ->]]]]]]]]];
      rewrite ?andb_false_r; reflexivity.
Qed.

Lemma parseInt_uint_prefix d c rest :
  d <> Decimal.Nil -> Pos.of_uint d <> 0%N ->
  is_digit_code (N_of_ascii c) = false ->
  parseInt_string (NilEmpty.string_of_uint d ++ String c rest)
  = Some (Z.of_N (Pos.of_uint d))
  /\ parseInt_string (String "-" (NilEmpty.string_of_uint d ++ String c rest))
     = Some (- Z.of_N (Pos.of_uint d)).
Proof.
  intros Hd Hnz Hc.
  pose proof (uint_codes_digits d) as Hall.
  pose proof (uint_take_digits_app d (N_of_ascii c) (codes rest) Hc) as Htake.
  pose proof (uint_value d) as Hval.
  pose proof (uint_single_zero d) as Hzero.
  assert (Hne : uint_digits d <> []) by (destruct d; simpl; congruence).
  unfold parseInt_string. rewrite codes_cons, codes_app, codes_cons.
  destruct (codes (NilEmpty.string_of_uint d)) as [|c0 l0] eqn:E.
  { pose proof (uint_take_digits d) as H. rewrite E in H. simpl in H.
    congruence. }
  assert (Hc0 : is_digit_code c0 = true).
  { simpl in Hall. apply andb_true_iff in Hall. tauto. }
  assert (Hz : l0 = [] -> c0 <> 48%N).
  { intros -> ->. apply Hnz, Hzero. reflexivity. }
  pose proof (digits_then_no_hex_prefix c0 l0 (N_of_ascii c) (codes rest)
                Hall Hc Hz) as Hhex.
  change ((c0 :: l0) ++ N_of_ascii c :: codes rest)%list
    with (c0 :: (l0 ++ N_of_ascii c :: codes rest))%list in *.
  set (tail := (l0 ++ N_of_ascii c :: codes rest)%list) in *.
  split.
  - rewrite (digit_first_trimStart c0 tail Hc0), (digit_first_sign c0 tail Hc0).
    cbv beta iota. rewrite Hhex. cbv beta iota. rewrite Htake.
    destruct (uint_digits d) eqn:E'; [congruence |].
    rewrite Hval. f_equal; lia.
  - replace (trimStart_codes (N_of_ascii "-" :: c0 :: tail))
      with (N_of_ascii "-" :: c0 :: tail) by reflexivity.
    change (strip_sign (N_of_ascii "-" :: c0 :: tail)) with (-1, c0 :: tail).
    cbv beta iota. rewrite Hhex. cbv beta iota. rewrite Htake.
    destruct (uint_digits d) eqn:E'; [congruence |].
    rewrite Hval. f_equal; lia.
Qed.

(** The plain decimal text of a non-zero integer, followed by text that
    does not start with a digit, reads as that integer. *)
Lemma parseInt_decimal_prefix n c rest :
  n <> 0 -> is_digit_code (N_of_ascii c) = false ->
  parseInt_string (decimal n ++ String c rest) = Some n.
Proof.
  intros Hn Hc.
  destruct n as [|p|p]; [congruence | ..];
    unfold decimal; simpl Z.to_int; unfold NilZero.string_of_int;
    unfold NilZero.string_of_uint;
    pose proof (to_uint_not_nil p) as Hd;
    pose proof (DecimalPos.Unsigned.of_to p) as Hp;
    (assert (Hnz : Pos.of_uint (Pos.to_uint p) <> 0%N)
      by (rewrite Hp; discriminate));
    destruct (parseInt_uint_prefix (Pos.to_uint p) c rest Hd Hnz Hc) as [H1 H2];
    destruct (Pos.to_uint p) eqn:E; try congruence;
    cbv beta iota;
    repeat match goal with
           | |- context [String ?a ?s ++ ?t] =>
               change (String a s ++ t) with (String a (s ++ t))
           end;
    rewrite ?H1, ?H2, Hp; reflexivity.
Qed.

Lemma reads_as_parseInt n v : reads_as n v -> nan_or (parseInt v) 0 = n.
Proof.
  intros (Hb & [-> | [-> | (Hn & c & rest & Hc & ->)]]).
  - assert (Hlt : 2 ^ 53 < 10 ^ 21) by reflexivity.
    rewrite (parseInt_number n) by lia. apply nan_or_zero.
  - unfold parseInt, ToString. rewrite parseInt_decimal. apply nan_or_zero.
  - unfold parseInt, ToString. rewrite (parseInt_decimal_prefix n c rest Hn Hc).
    apply nan_or_zero.
Qed.

End Prefix_facts.

(** ** Defaults of the import *)

(** C5, as the code has it.  For every imported row: an absent origin or
    destination becomes the "unknown" label; a toll or fuel cell that is
    absent, or whose text does not start (after white space and an
    optional sign) with a digit, becomes 0, while a cell that holds an
    integer of at most 2^53 in absolute value, as a number, as its
    decimal text, or (for an integer other than 0) as its decimal text
    followed by text that does not start with a digit, is read as that
    integer; the
    total is toll + fuel whatever the row's total column holds; and every
    row of a batch yields a record. *)
Theorem import_row_defaults env k (row : Row) :
  (row !! "출발지" = None ->
   startPoint (import_record env k row) = VString "알 수 없음")
  /\ (row !! "도착지" = None ->
      endPoint (import_record env k row) = VString "알 수 없음")
  /\ (missing_or_non_numeric (row !! "통행료") = true ->
      toll (import_record env k row) = 0)
  /\ (missing_or_non_numeric (row !! "주유비") = true ->
      fuel (import_record env k row) = 0)
  /\ (forall n, reads_as n (row_get row "통행료") ->
                toll (import_record env k row) = n)
  /\ (forall n, reads_as n (row_get row "주유비") ->
                fuel (import_record env k row) = n)
  /\ total (import_record env k row)
     = toll (import_record env k row) + fuel (import_record env k row)
  /\ (forall v, import_record env k (<["총비용" := v]> row)
                = import_record env k row)
  /\ (forall envs rows st,
        exists imported,
          records (handleUpload envs (Sheet (row :: rows)) st)
          = (records st ++ import_record (envs 0%nat) 0 row :: imported)%list
          /\ length imported = length rows).
Proof.
  split; [| split; [| split; [| split; [| split; [| split; [| split;
    [| split]]]]]]].
  - intros H. unfold import_record, row_get. cbn [startPoint].
    rewrite H. reflexivity.
  - intros H. unfold import_record, row_get. cbn [endPoint].
    rewrite H. reflexivity.
  - intros H. exact (missing_or_non_numeric_zero row _ H).
  - intros H. exact (missing_or_non_numeric_zero row _ H).
  - intros n H. exact (reads_as_parseInt n _ H).
  - intros n H. exact (reads_as_parseInt n _ H).
  - reflexivity.
  - intros v. unfold import_record, row_get.
    rewrite !lookup_insert_ne by discriminate. reflexivity.
  - intros envs rows st. exists (import_list envs 1 rows).
    destruct (handleUpload_fields envs (row :: rows) st) as (E & _).
    split; [exact E | apply import_list_length].
Qed.

Lemma import_row_defaults_witness :
  map content
    (import_list clock 0
       [ <["통행료" := VString "N/A"]> (<["총비용" := VNumber 777]> ∅);
         <["출발지" := VString "서울역"]> (<["주유비" := VString "12000원"]> ∅) ])
  = [ (VString "2024. 1. 5.", VString "알 수 없음", VString "알 수 없음",
       VString "알 수 없음 → 알 수 없음", 0, 0, 0);
      (VString "2024. 1. 5.", VString "서울역", VString "알 수 없음",
       VString "서울역 → 알 수 없음", 0, 12000, 12000) ]
  /\ toll (import_record (clock 0) 0
             (<["통행료" := VString "N/A"]> (<["총비용" := VNumber 777]> ∅))) = 0
  /\ fuel (import_record (clock 0) 0 (<["주유비" := VString "12 liters"]> ∅))
     = 12.
Proof.
  split; [vm_compute; reflexivity |]. split.
  - destruct (import_row_defaults (clock 0) 0
                (<["통행료" := VString "N/A"]> (<["총비용" := VNumber 777]> ∅)))
      as (_ & _ & H & _).
    apply H. vm_compute. reflexivity.
  - destruct (import_row_defaults (clock 0) 0
                (<["주유비" := VString "12 liters"]> ∅))
      as (_ & _ & _ & _ & _ & H & _).
    apply H. split; [vm_compute; discriminate |].
    right. right. split; [discriminate |].
    exists " "%char, "liters". split; vm_compute; reflexivity.
Defined.

(** C5, as stated, fails for a cell that is not a number but starts with
    digits: the import keeps the leading integer instead of 0. *)
Lemma import_keeps_leading_digits :
  toll (import_record (clock 0) 0 (<["통행료" := VString "12abc"]> ∅)) = 12
  /\ toll (import_record (clock 0) 0 (<["통행료" := VString "1,200"]> ∅)) = 1
  /\ fuel (import_record (clock 0) 0 (<["주유비" := VString "7 days"]> ∅)) = 7
  /\ 12 <> 0.
Proof. vm_compute. repeat split; congruence. Qed.

(** ** Signs of toll and fuel *)

Lemma simulateTollFee_range (r : Q) :
  (0 <= r)%Q -> (r < 1)%Q -> 1000 <= simulateTollFee r <= 5999.
Proof.
  intros H0 H1. unfold simulateTollFee, Math_floor.
  assert (Hlo : 0 <= Qfloor (r * 5000)).
  { change 0 with (Qfloor 0). apply Qfloor_resp_le.
    apply Qmult_le_0_compat; [exact H0 | discriminate]. }
  assert (Hhi : Qfloor (r * 5000) < 5000).
  { rewrite Zlt_Qlt. eapply Qle_lt_trans; [apply Qfloor_le |].
    change (inject_Z 5000) with (1 * 5000)%Q.
    apply Qmult_lt_compat_r; [reflexivity | exact H1]. }
  lia.
Qed.

(** C8, as the code has it.  The toll of a form record lies between 1000
    and 5999.  The fuel of a form record and the toll and fuel of an
    imported record are the integer that the input holds, negative
    integers included: an input that holds an integer of at most 2^53 in
    absolute value, as a number, as its decimal text, or (for an integer
    other than 0) as its decimal text followed by text that does not
    start with a digit, is stored as that integer.  They are 0 when the
    input is
    absent or does not start (after white space and an optional sign)
    with a digit, and are not negative when the input text has no leading
    minus sign. *)
Theorem toll_and_fuel_signs r fenv st env k (row : Row) :
  ((0 <= r)%Q -> (r < 1)%Q -> 1000 <= toll (form_record r fenv st) <= 5999)
  /\ (has_minus_sign (VString (fuelCost_value (form (elements st)))) = false ->
      0 <= fuel (form_record r fenv st))
  /\ (starts_with_number (VString (fuelCost_value (form (elements st)))) = false ->
      fuel (form_record r fenv st) = 0)
  /\ (has_minus_sign (row_get row "통행료") = false ->
      0 <= toll (import_record env k row))
  /\ (has_minus_sign (row_get row "주유비") = false ->
      0 <= fuel (import_record env k row))
  /\ (missing_or_non_numeric (row !! "통행료") = true ->
      toll (import_record env k row) = 0)
  /\ (missing_or_non_numeric (row !! "주유비") = true ->
      fuel (import_record env k row) = 0)
  /\ (forall n, reads_as n (VString (fuelCost_value (form (elements st)))) ->
                fuel (form_record r fenv st) = n)
  /\ (forall n, reads_as n (row_get row "통행료") ->
                toll (import_record env k row) = n)
  /\ (forall n, reads_as n (row_get row "주유비") ->
                fuel (import_record env k row) = n).
Proof.
  split; [| split; [| split; [| split; [| split; [| split; [| split;
    [| split; [| split]]]]]]]].
  - intros H0 H1. exact (simulateTollFee_range r H0 H1).
  - intros H. exact (no_minus_nonneg _ H).
  - intros H. unfold form_record. cbn [fuel].
    rewrite (non_numeric_NaN _ H). reflexivity.
  - intros H. exact (no_minus_nonneg _ H).
  - intros H. exact (no_minus_nonneg _ H).
  - intros H. exact (missing_or_non_numeric_zero row _ H).
  - intros H. exact (missing_or_non_numeric_zero row _ H).
  - intros n H. exact (reads_as_parseInt n _ H).
  - intros n H. exact (reads_as_parseInt n _ H).
  - intros n H. exact (reads_as_parseInt n _ H).
Qed.

Lemma toll_and_fuel_signs_witness :
  1000 <= toll (form_record (1 # 2) (clock 0)
                  (fill_form "서울역" "수원역" "-5" (constructor blank_page)))
       <= 5999
  /\ fuel (form_record (1 # 2) (clock 0)
             (fill_form "서울역" "수원역" "-5" (constructor blank_page))) = -5
  /\ toll (import_record (clock 0) 0 (<["통행료" := VNumber (-100)]> ∅)) = -100
  /\ 0 <= fuel (import_record (clock 0) 0 (<["통행료" := VNumber (-100)]> ∅)).
Proof.
  destruct (toll_and_fuel_signs (1 # 2) (clock 0)
              (fill_form "서울역" "수원역" "-5" (constructor blank_page))
              (clock 0) 0 (<["통행료" := VNumber (-100)]> ∅))
    as (H1 & _ & _ & _ & H5 & _ & _ & H8 & H9 & _).
  split; [apply H1; vm_compute; congruence |].
  split; [apply H8; split; [vm_compute; discriminate | right; left; reflexivity] |].
  split; [apply H9; split; [vm_compute; discriminate | left; reflexivity] |].
  apply H5. vm_compute. reflexivity.
Defined.

(** C8, as stated, fails: a fuel field holding -5 gives a form record
    with fuel -5, and a sheet cell holding -100 gives an imported record
    with toll -100. *)
Lemma negative_amounts_are_kept :
  (exists record,
     records (handleFormSubmit (1 # 2) (clock 0)
                (fill_form "서울역" "수원역" "-5" (constructor blank_page)))
     = [record]
     /\ fuel record = -5 /\ ~ 0 <= fuel record)
  /\ toll (import_record (clock 0) 0 (<["통행료" := VNumber (-100)]> ∅)) = -100
  /\ fuel (import_record (clock 0) 0 (<["주유비" := VString "-250"]> ∅)) = -250
  /\ ~ 0 <= toll (import_record (clock 0) 0 (<["통행료" := VNumber (-100)]> ∅)).
Proof.
  split.
  - eexists. split; [vm_compute; reflexivity |].
    split; [reflexivity | vm_compute; congruence].
  - vm_compute. repeat split; congruence.
Qed.

(** ** Loading the persisted state *)

Import JSON Storage.

(** C6, as the code has it.  Loading never throws to the caller.  When
    reading the store throws, or the stored text is not JSON, or it is
    the text null, or it parses to a value whose records and totalCost
    are both absent or falsy, the result is the empty collection and the
    aggregate total 0.  A text that parses to an object is otherwise
    taken over member by member, whatever the shape of the members. *)
Theorem load_falls_back_without_throwing
    (getItem : outcome (option string)) (this : Fields) :
  (exists this', loadFromLocalStorage getItem this = Return this')
  /\ (forall e, getItem = Throw e ->
                loadFromLocalStorage getItem this = Return fresh)
  /\ (forall text,
        getItem = Return (Some text) -> is_empty text = false ->
        falls_back text = true ->
        loadFromLocalStorage getItem this = Return fresh)
  /\ (forall text members,
        getItem = Return (Some text) -> is_empty text = false ->
        parse text = Return (JObject members) ->
        loadFromLocalStorage getItem this
        = Return {| this_records :=
                      or_else (lookup_last "records" members) (JArray []);
                    this_totalCost :=
                      or_else (lookup_last "totalCost" members) (JNumber 0) |}).
Proof.
  split; [| split; [| split]].
  - unfold loadFromLocalStorage, try_catch.
    destruct (bind getItem _); eexists; reflexivity.
  - intros e ->. reflexivity.
  - intros text -> Hne Hfb. unfold loadFromLocalStorage, falls_back in *.
    cbn [bind]. rewrite Hne.
    destruct (parse text) as [data|]; [| reflexivity].
    cbn [bind].
    destruct data as [| b | q | s | items | members]; try reflexivity.
    cbn [get bind try_catch this_records] in *.
    apply andb_true_iff in Hfb. destruct Hfb as [Hr Ht].
    apply negb_true_iff in Hr, Ht. unfold or_else, fresh.
    destruct (lookup_last "records" members) as [r|];
      destruct (lookup_last "totalCost" members) as [t|];
      rewrite ?Hr, ?Ht; reflexivity.
  - intros text members -> Hne Hparse. unfold loadFromLocalStorage.
    cbn [bind]. rewrite Hne, Hparse. reflexivity.
Qed.

Lemma load_falls_back_without_throwing_witness :
  loadFromLocalStorage (Return (Some "{records: [")) fresh = Return fresh
  /\ loadFromLocalStorage (Return (Some "null"))
       {| this_records := JArray [JNull]; this_totalCost := JNumber 5 |}
     = Return fresh.
Proof.
  split.
  - destruct (load_falls_back_without_throwing
                (Return (Some "{records: [")) fresh) as (_ & _ & H & _).
    apply (H "{records: ["); vm_compute; reflexivity.
  - destruct (load_falls_back_without_throwing
                (Return (Some "null"))
                {| this_records := JArray [JNull]; this_totalCost := JNumber 5 |})
      as (_ & _ & H & _).
    apply (H "null"); vm_compute; reflexivity.
Defined.

(** C6, as stated, fails for a payload that parses but has the wrong
    shape: the loader stores the number 7 as the collection and the text
    "many" as the aggregate total. *)
Lemma load_keeps_misshapen_payload :
  parse misshapen_payload
  = Return (JObject [("records", JNumber 7); ("totalCost", JString "many")])
  /\ loadFromLocalStorage (Return (Some misshapen_payload)) fresh
     = Return {| this_records := JNumber 7; this_totalCost := JString "many" |}
  /\ loadFromLocalStorage (Return (Some misshapen_payload)) fresh
     <> Return fresh.
Proof.
  assert (H : loadFromLocalStorage (Return (Some misshapen_payload)) fresh
              = Return {| this_records := JNumber 7;
                          this_totalCost := JString "many" |})
    by (vm_compute; reflexivity).
  split; [vm_compute; reflexivity |]. split; [exact H |].
  rewrite H. unfold fresh. intros E. discriminate E.
Qed.


(** * More of the class *)

(** ** Fields and view through the helpers *)

Section View_facts.

Lemma page_view_ext st st' :
  records st' = records st -> filteredRecords st' = filteredRecords st ->
  currentPage st' = currentPage st -> recordsPerPage st' = recordsPerPage st ->
  page_view st' = page_view st.
Proof.
  intros Hr Hf Hc Hp. unfold page_view, page_items, shown_records.
  rewrite Hr, Hf, Hc, Hp. reflexivity.
Qed.

Lemma getTotalPages_ext st st' :
  records st' = records st -> filteredRecords st' = filteredRecords st ->
  recordsPerPage st' = recordsPerPage st ->
  getTotalPages st' = getTotalPages st.
Proof. unfold getTotalPages. intros -> -> ->. reflexivity. Qed.

Lemma synced_ext st st' :
  records st' = records st -> filteredRecords st' = filteredRecords st ->
  currentPage st' = currentPage st -> recordsPerPage st' = recordsPerPage st ->
  records_list (elements st') = records_list (elements st) ->
  synced st -> synced st'.
Proof.
  intros Hr Hf Hc Hp He H. unfold synced.
  rewrite He, (page_view_ext st st' Hr Hf Hc Hp). exact H.
Qed.

Lemma updateRecordsList_view st :
  records_list (elements (updateRecordsList st)) = page_view st.
Proof.
  unfold updateRecordsList, page_view, page_items.
  destruct (len (shown_records st) =? 0); reflexivity.
Qed.

Lemma updateRecordsList_synced st : synced (updateRecordsList st).
Proof.
  unfold synced. rewrite updateRecordsList_view.
  destruct (updateRecordsList_frame st) as (Hr & Hf & _ & Hc & Hp).
  symmetry. apply page_view_ext; assumption.
Qed.

Lemma updatePagination_synced st : synced st -> synced (updatePagination st).
Proof.
  destruct (updatePagination_frame st) as (Hr & Hf & _ & Hc & Hp & He).
  apply synced_ext; assumption.
Qed.

Lemma updateExportButton_fields st :
  records (updateExportButton st) = records st
  /\ filteredRecords (updateExportButton st) = filteredRecords st
  /\ totalCost (updateExportButton st) = totalCost st
  /\ currentPage (updateExportButton st) = currentPage st
  /\ recordsPerPage (updateExportButton st) = recordsPerPage st
  /\ records_list (elements (updateExportButton st))
     = records_list (elements st)
  /\ exportBtn_disabled (elements (updateExportButton st))
     = (len (records st) =? 0).
Proof. repeat split; reflexivity. Qed.

Lemma updateUI_synced st : synced (updateUI st).
Proof.
  unfold updateUI.
  destruct (updateExportButton_fields
              (updatePagination (updateRecordsList st)))
    as (Hr & Hf & _ & Hc & Hp & He & _).
  eapply synced_ext; eauto.
  apply updatePagination_synced, updateRecordsList_synced.
Qed.

Lemma debouncedSave_synced st : synced st -> synced (debouncedSave st).
Proof.
  destruct (debouncedSave_frame st) as (Hr & Hf & _ & Hc & Hp).
  apply synced_ext; trivial.
Qed.

Lemma clearForm_fields st :
  records (clearForm st) = records st
  /\ filteredRecords (clearForm st) = filteredRecords st
  /\ totalCost (clearForm st) = totalCost st
  /\ currentPage (clearForm st) = currentPage st
  /\ recordsPerPage (clearForm st) = recordsPerPage st
  /\ records_list (elements (clearForm st)) = records_list (elements st).
Proof. repeat split; reflexivity. Qed.

Lemma fill_form_fields o d f st :
  records (fill_form o d f st) = records st
  /\ filteredRecords (fill_form o d f st) = filteredRecords st
  /\ totalCost (fill_form o d f st) = totalCost st
  /\ currentPage (fill_form o d f st) = currentPage st
  /\ recordsPerPage (fill_form o d f st) = recordsPerPage st
  /\ records_list (elements (fill_form o d f st)) = records_list (elements st).
Proof. repeat split; reflexivity. Qed.

Lemma type_search_fields text st :
  records (type_search text st) = records st
  /\ filteredRecords (type_search text st) = filteredRecords st
  /\ totalCost (type_search text st) = totalCost st
  /\ currentPage (type_search text st) = currentPage st
  /\ recordsPerPage (type_search text st) = recordsPerPage st
  /\ records_list (elements (type_search text st)) = records_list (elements st).
Proof. repeat split; reflexivity. Qed.

Lemma select_sort_fields v st :
  records (select_sort v st) = records st
  /\ filteredRecords (select_sort v st) = filteredRecords st
  /\ totalCost (select_sort v st) = totalCost st
  /\ currentPage (select_sort v st) = currentPage st
  /\ recordsPerPage (select_sort v st) = recordsPerPage st
  /\ records_list (elements (select_sort v st)) = records_list (elements st).
Proof. repeat split; reflexivity. Qed.

Lemma validateForm_fields st :
  records (snd (validateForm st)) = records st
  /\ filteredRecords (snd (validateForm st)) = filteredRecords st
  /\ totalCost (snd (validateForm st)) = totalCost st
  /\ currentPage (snd (validateForm st)) = currentPage st
  /\ recordsPerPage (snd (validateForm st)) = recordsPerPage st
  /\ records_list (elements (snd (validateForm st)))
     = records_list (elements st)
  /\ savePending (snd (validateForm st)) = savePending st.
Proof. repeat split; reflexivity. Qed.

Lemma addRecord_synced record st : synced (addRecord record st).
Proof.
  unfold addRecord. cbv zeta.
  apply debouncedSave_synced, updateUI_synced.
Qed.

End View_facts.

(** ** What every action keeps *)

Section Invariant_facts.

Lemma sum_totals_app l1 l2 :
  sum_totals (l1 ++ l2) = sum_totals l1 + sum_totals l2.
Proof.
  unfold sum_totals. induction l1 as [|x l1 IH]; simpl; [reflexivity |].
  rewrite IH. lia.
Qed.

Lemma sum_totals_perm l1 l2 :
  Permutation l1 l2 -> sum_totals l1 = sum_totals l2.
Proof.
  unfold sum_totals. induction 1; simpl; lia.
Qed.

Lemma getTotalPages_mono st st' :
  0 < recordsPerPage st ->
  recordsPerPage st' = recordsPerPage st ->
  filteredRecords st' = filteredRecords st ->
  (length (records st) <= length (records st'))%nat ->
  getTotalPages st <= getTotalPages st'.
Proof.
  intros Hp Ep Ef Hlen. unfold getTotalPages. rewrite Ep, Ef.
  rewrite !Math_ceil_div.
  destruct (0 <? len (filteredRecords st)); [lia |].
  unfold len. apply Z.opp_le_mono. rewrite !Z.opp_involutive.
  apply Z.div_le_mono; lia.
Qed.

Lemma handleFormSubmit_cases r env st :
  (records (handleFormSubmit r env st) = records st
   /\ totalCost (handleFormSubmit r env st) = totalCost st
   /\ filteredRecords (handleFormSubmit r env st) = filteredRecords st
   /\ currentPage (handleFormSubmit r env st) = currentPage st
   /\ recordsPerPage (handleFormSubmit r env st) = recordsPerPage st
   /\ records_list (elements (handleFormSubmit r env st))
      = records_list (elements st))
  \/ (exists record,
        records (handleFormSubmit r env st) = record :: records st
        /\ totalCost (handleFormSubmit r env st) = totalCost st + total record
        /\ filteredRecords (handleFormSubmit r env st) = filteredRecords st
        /\ currentPage (handleFormSubmit r env st) = currentPage st
        /\ recordsPerPage (handleFormSubmit r env st) = recordsPerPage st
        /\ synced (handleFormSubmit r env st)).
Proof.
  unfold handleFormSubmit.
  pose proof (validateForm_fields st) as (Hr & Hf & Ht & Hc & Hp & He & _).
  destruct (validateForm st) as [valid st1].
  cbn [snd] in Hr, Hf, Ht, Hc, Hp, He.
  destruct (negb valid); [left; tauto |].
  right. exists (form_record r env st1).
  destruct (addRecord_fields (form_record r env st1) st1)
    as (Ar & Af & At & Ac & Ap).
  destruct (clearForm_fields (addRecord (form_record r env st1) st1))
    as (Cr & Cf & Ct & Cc & Cp & Ce).
  rewrite Cr, Cf, Ct, Cc, Cp, Ar, Af, At, Ac, Ap, Hr, Hf, Ht, Hc, Hp.
  repeat split; trivial.
  eapply synced_ext; eauto. apply addRecord_synced.
Qed.

Lemma handleSearch_more st st' :
  handleSearch st = Return st' ->
  records st' = records st /\ totalCost st' = totalCost st
  /\ currentPage st' = 1 /\ recordsPerPage st' = recordsPerPage st
  /\ synced st'.
Proof.
  intros H. destruct (handleSearch_fields st st' H) as (Hr & Ht & Hc & Hp).
  repeat split; trivial.
  unfold handleSearch in H.
  destruct (if is_empty _ then _ else _) as [filtered|]; [| discriminate H].
  cbn [bind] in H. injection H as <-.
  apply updatePagination_synced, updateRecordsList_synced.
Qed.

Lemma handleSort_filtered st :
  filteredRecords (handleSort st)
  = (if 0 <? len (filteredRecords st)
     then sort (compare_by (sortSelect_value (elements st))) (filteredRecords st)
     else filteredRecords st)
  /\ recordsPerPage (handleSort st) = recordsPerPage st
  /\ synced (handleSort st).
Proof.
  unfold handleSort. cbv zeta.
  match goal with
  | |- context [updatePagination (updateRecordsList ?s)] =>
      pose proof (updatePagination_synced _ (updateRecordsList_synced s)) as Hs;
      destruct (updatePagination_frame (updateRecordsList s))
        as (_ & -> & _ & _ & -> & _);
      destruct (updateRecordsList_frame s) as (_ & -> & _ & _ & ->)
  end.
  split; [| split; [| exact Hs]];
    unfold shown_records; destruct (0 <? len (filteredRecords st)); reflexivity.
Qed.

Lemma handleSort_more st :
  recordsPerPage (handleSort st) = recordsPerPage st
  /\ Permutation (records st) (records (handleSort st))
  /\ shown_records (handleSort st)
     = sort (compare_by (sortSelect_value (elements st))) (shown_records st)
  /\ synced (handleSort st).
Proof.
  destruct (handleSort_filtered st) as (Hf & Hp & Hs).
  destruct (handleSort_fields st) as (_ & _ & Hr).
  split; [exact Hp |]. split; [| split; [| exact Hs]].
  - rewrite Hr. destruct (0 <? len (filteredRecords st));
      [reflexivity | apply sort_perm].
  - unfold shown_records. rewrite Hf, Hr. unfold len.
    destruct (filteredRecords st) as [|x l]; [reflexivity |].
    change (0 <? Z.of_nat (length (x :: l))) with true. cbv iota.
    rewrite sort_length.
    change (0 <? Z.of_nat (length (x :: l))) with true. reflexivity.
Qed.

Lemma changePage_cases direction st :
  changePage direction st = st
  \/ (records (changePage direction st) = records st
      /\ filteredRecords (changePage direction st) = filteredRecords st
      /\ totalCost (changePage direction st) = totalCost st
      /\ recordsPerPage (changePage direction st) = recordsPerPage st
      /\ currentPage (changePage direction st) = currentPage st + direction
      /\ 1 <= currentPage st + direction <= getTotalPages st
      /\ synced (changePage direction st)).
Proof.
  unfold changePage. cbv zeta.
  destruct (_ && _) eqn:E; [right | left; reflexivity].
  apply andb_true_iff in E. destruct E as [E1 E2].
  apply Z.leb_le in E1, E2.
  match goal with
  | |- context [updatePagination (updateRecordsList ?s)] =>
      pose proof (updatePagination_synced _ (updateRecordsList_synced s)) as Hs;
      destruct (updatePagination_frame (updateRecordsList s))
        as (-> & -> & -> & -> & -> & _);
      destruct (updateRecordsList_frame s) as (-> & -> & -> & -> & ->)
  end.
  repeat split; trivial.
Qed.

Lemma handleUpload_more env rows st :
  recordsPerPage (handleUpload env (Sheet rows) st) = recordsPerPage st
  /\ synced (handleUpload env (Sheet rows) st)
  /\ savePending (handleUpload env (Sheet rows) st) = true.
Proof.
  unfold handleUpload.
  pose proof (forEach_row_fields env rows 0 st) as (_ & _ & _ & Hp & _).
  destruct (forEach_row env rows 0 st) as [st1 n]. cbn [fst] in Hp.
  destruct (debouncedSave_frame (updateUI st1)) as (_ & _ & _ & _ & ->).
  destruct (updateUI_frame st1) as (_ & _ & _ & _ & ->).
  split; [exact Hp |]. split; [| reflexivity].
  apply debouncedSave_synced, updateUI_synced.
Qed.

Lemma loadMockData_fields mockData st :
  records st = [] ->
  records (loadMockData mockData st) = mockData
  /\ filteredRecords (loadMockData mockData st) = filteredRecords st
  /\ totalCost (loadMockData mockData st) = totalCost st + sum_totals mockData
  /\ currentPage (loadMockData mockData st) = currentPage st
  /\ recordsPerPage (loadMockData mockData st) = recordsPerPage st.
Proof.
  intros He. unfold loadMockData, len. rewrite He.
  change (0 <? Z.of_nat (length (@nil TripRecord))) with false. cbv iota.
  set (push := fun (st : State) (record : TripRecord) =>
                 let st1 := set_records (records st ++ [record]) st in
                 set_totalCost (totalCost st1 + total record) st1).
  assert (G : forall l s,
            records (fold_left push l s) = (records s ++ l)%list
            /\ filteredRecords (fold_left push l s) = filteredRecords s
            /\ totalCost (fold_left push l s) = totalCost s + sum_totals l
            /\ currentPage (fold_left push l s) = currentPage s
            /\ recordsPerPage (fold_left push l s) = recordsPerPage s).
  { induction l as [|x l IH]; intros s.
    - cbn [fold_left]. rewrite app_nil_r. unfold sum_totals. simpl.
      repeat split; lia.
    - cbn [fold_left]. destruct (IH (push s x)) as (-> & -> & -> & -> & ->).
      unfold push.
      cbn [set_totalCost set_records records filteredRecords totalCost
             currentPage recordsPerPage].
      rewrite <- app_assoc. unfold sum_totals. simpl.
      repeat split; lia. }
  destruct (G mockData st) as (Gr & Gf & Gt & Gc & Gp).
  rewrite Gr, Gf, Gt, Gc, Gp, He. repeat split; reflexivity.
Qed.

End Invariant_facts.

Section Session_invariants.

Lemma run_invariant (P : State -> Prop) :
  (forall ev st, P st -> P (dispatch ev st)) ->
  forall events st, P st -> P (run events st).
Proof.
  intros Hstep events. unfold run.
  induction events as [|ev events IH]; intros st H; [exact H |].
  cbn [fold_left]. apply IH, Hstep, H.
Qed.

Lemma dispatch_total_consistent ev st :
  total_consistent st -> total_consistent (dispatch ev st).
Proof.
  unfold total_consistent. intros H.
  destruct ev as [o d f r env | text | v | | | env input]; cbn [dispatch].
  - destruct (handleFormSubmit_cases r env (fill_form o d f st))
      as [(Hr & Ht & _) | (record & Hr & Ht & _)];
      rewrite Hr, Ht; cbn [fill_form set_elements records totalCost].
    + exact H.
    + unfold sum_totals in *. cbn [map fold_right]. lia.
  - destruct (handleSearch (type_search text st)) as [st'|] eqn:E.
    + destruct (handleSearch_fields _ _ E) as (-> & -> & _). exact H.
    + exact H.
  - destruct (handleSort_fields (select_sort v st)) as (-> & _).
    destruct (handleSort_more (select_sort v st)) as (_ & Hperm & _).
    rewrite <- (sum_totals_perm _ _ Hperm). exact H.
  - destruct (changePage_fields (-1) st) as (-> & -> & _). exact H.
  - destruct (changePage_fields 1 st) as (-> & -> & _). exact H.
  - destruct input as [| | |rows]; try exact H.
    destruct (handleUpload_fields env rows st) as (-> & _ & _ & ->).
    rewrite sum_totals_app. unfold sum_totals in *. lia.
Qed.

Lemma init_fields mockData page :
  records (init mockData page) = mockData
  /\ filteredRecords (init mockData page) = []
  /\ totalCost (init mockData page) = sum_totals mockData
  /\ currentPage (init mockData page) = 1
  /\ recordsPerPage (init mockData page) = 20.
Proof.
  unfold init.
  destruct (updateUI_frame (loadMockData mockData (constructor page)))
    as (-> & -> & -> & -> & ->).
  destruct (loadMockData_fields mockData (constructor page) eq_refl)
    as (-> & -> & -> & -> & ->).
  repeat split; reflexivity.
Qed.

Lemma weight_nonneg l : 0 <= weight l.
Proof. unfold weight. induction l as [|x l IH]; simpl; lia. Qed.

Lemma weight_app l1 l2 : weight (l1 ++ l2) = weight l1 + weight l2.
Proof.
  unfold weight. induction l1 as [|x l1 IH]; simpl; [reflexivity |].
  rewrite IH. lia.
Qed.

Lemma weight_perm l1 l2 : Permutation l1 l2 -> weight l1 = weight l2.
Proof. unfold weight. induction 1; simpl; lia. Qed.

Lemma sum_totals_weight l : Z.abs (sum_totals l) <= weight l.
Proof.
  unfold sum_totals, weight. induction l as [|x l IH]; simpl; lia.
Qed.

(** No action takes a record out of the collection. *)
Lemma dispatch_weight ev st :
  weight (records st) <= weight (records (dispatch ev st)).
Proof.
  destruct ev as [o d f r env | text | v | | | env input]; cbn [dispatch].
  - destruct (handleFormSubmit_cases r env (fill_form o d f st))
      as [(Hr & _) | (record & Hr & _)];
      rewrite Hr; cbn [fill_form set_elements records].
    + lia.
    + change (record :: records st) with ([record] ++ records st)%list.
      rewrite weight_app. pose proof (weight_nonneg [record]). lia.
  - destruct (handleSearch (type_search text st)) as [st'|] eqn:E.
    + destruct (handleSearch_fields _ _ E) as (-> & _).
      cbn [type_search set_elements records]. lia.
    + cbn [type_search set_elements records]. lia.
  - destruct (handleSort_more (select_sort v st)) as (_ & Hperm & _).
    rewrite <- (weight_perm _ _ Hperm).
    cbn [select_sort set_elements records]. lia.
  - destruct (changePage_fields (-1) st) as (-> & _). lia.
  - destruct (changePage_fields 1 st) as (-> & _). lia.
  - destruct input as [| | |rows]; [cbn [handleUpload]; lia .. |].
    destruct (handleUpload_fields env rows st) as (-> & _).
    rewrite weight_app.
    pose proof (weight_nonneg (import_list env 0 rows)). lia.
Qed.

Lemma run_weight events : forall st,
  weight (records st) <= weight (records (run events st)).
Proof.
  unfold run. induction events as [|ev events IH]; intros st; [simpl; lia |].
  cbn [fold_left]. etransitivity; [apply (dispatch_weight ev st) | apply IH].
Qed.

Lemma run_app before after st :
  run (before ++ after) st = run after (run before st).
Proof. unfold run. apply fold_left_app. Qed.

(** X1. While the amounts stay within the integers that a double holds
    exactly (the tolls, fuel costs and totals of the collection add up,
    in absolute value, to at most 2^53 in the state that the session
    ends in), the aggregate total equals the sum of the totals of the
    records in every state on the way from a first start, and it is
    itself such an integer: no action takes a record out, and every
    handler that adds one updates the aggregate by its total. *)
Theorem aggregate_total_is_sum mockData page before after :
  safe_amounts (run (before ++ after) (init mockData page)) ->
  totalCost (run before (init mockData page))
  = sum_totals (records (run before (init mockData page)))
  /\ safe_amounts (run before (init mockData page))
  /\ Z.abs (totalCost (run before (init mockData page))) <= 2 ^ 53.
Proof.
  intros Hsafe. unfold safe_amounts in *. rewrite run_app in Hsafe.
  pose proof (run_weight after (run before (init mockData page))) as Hmono.
  assert (E : total_consistent (run before (init mockData page))).
  { apply (run_invariant total_consistent dispatch_total_consistent).
    destruct (init_fields mockData page) as (Hr & _ & Ht & _).
    unfold total_consistent. rewrite Hr, Ht. reflexivity. }
  unfold total_consistent in E.
  split; [exact E |]. split; [lia |].
  rewrite E.
  pose proof (sum_totals_weight (records (run before (init mockData page)))).
  lia.
Qed.

Lemma aggregate_total_is_sum_witness :
  totalCost
    (run [FormSubmit "서울역" "수원역" "30000" (1 # 2) (clock 0)]
       (init [trip "부산역" "대전역" 1200 0 2] blank_page))
  = 34700
  /\ Z.abs
       (totalCost
          (run [FormSubmit "서울역" "수원역" "30000" (1 # 2) (clock 0)]
             (init [trip "부산역" "대전역" 1200 0 2] blank_page)))
     <= 2 ^ 53.
Proof.
  destruct (aggregate_total_is_sum [trip "부산역" "대전역" 1200 0 2] blank_page
              [FormSubmit "서울역" "수원역" "30000" (1 # 2) (clock 0)]
              [UploadChange clock (Sheet [<["통행료" := VNumber (-100)]> ∅]);
               SortChange "cost-desc"])
    as (H1 & _ & H3).
  - vm_compute. discriminate.
  - split; [rewrite H1; vm_compute; reflexivity | exact H3].
Defined.

Lemma dispatch_page_in_range ev st :
  page_in_range st -> page_in_range (dispatch ev st).
Proof.
  unfold page_in_range. intros (Hp & Hc).
  destruct ev as [o d f r env | text | v | | | env input]; cbn [dispatch].
  - destruct (fill_form_fields o d f st) as (Fr & Ff & _ & Fc & Fp & _).
    destruct (handleFormSubmit_cases r env (fill_form o d f st))
      as [(Hr' & _ & Hf' & Hc' & Hp' & _)
         | (record & Hr' & _ & Hf' & Hc' & Hp' & _)];
      rewrite Hc', Hp', Fc, Fp; (split; [exact Hp |]).
    + destruct Hc as [Hc | Hc]; [left; exact Hc | right].
      rewrite (getTotalPages_ext st); [exact Hc | congruence ..].
    + destruct Hc as [Hc | Hc]; [left; exact Hc | right].
      split; [lia |]. etransitivity; [apply Hc |].
      apply getTotalPages_mono; try congruence; try lia.
      rewrite Hr', Fr. simpl. lia.
  - destruct (handleSearch (type_search text st)) as [st'|] eqn:E.
    + destruct (handleSearch_fields _ _ E) as (_ & _ & -> & ->).
      split; [exact Hp | left; reflexivity].
    + split; [exact Hp | exact Hc].
  - destruct (handleSort_fields (select_sort v st)) as (_ & -> & _).
    destruct (handleSort_more (select_sort v st)) as (-> & _).
    split; [exact Hp | left; reflexivity].
  - destruct (changePage_cases (-1) st)
      as [-> | (Hr' & Hf' & _ & Hp' & Hc' & Hin & _)]; [tauto |].
    rewrite Hp', Hc'. split; [exact Hp | right].
    rewrite (getTotalPages_ext st); trivial.
  - destruct (changePage_cases 1 st)
      as [-> | (Hr' & Hf' & _ & Hp' & Hc' & Hin & _)]; [tauto |].
    rewrite Hp', Hc'. split; [exact Hp | right].
    rewrite (getTotalPages_ext st); trivial.
  - destruct input as [| | |rows]; try tauto.
    destruct (handleUpload_fields env rows st) as (Hr' & Hf' & Hc' & _).
    destruct (handleUpload_more env rows st) as (Hp' & _).
    rewrite Hc', Hp'. split; [exact Hp |].
    destruct Hc as [Hc | Hc]; [left; exact Hc | right].
    split; [lia |]. etransitivity; [apply Hc |].
    apply getTotalPages_mono; try congruence; try lia.
    rewrite Hr', length_app. lia.
Qed.

Lemma run_page_in_range mockData page events :
  page_in_range (run events (init mockData page)).
Proof.
  apply (run_invariant page_in_range dispatch_page_in_range).
  destruct (init_fields mockData page) as (_ & _ & _ & Hc & Hp).
  split; [exact Hp | left; exact Hc].
Qed.

(** X2. In every state that the session reaches from a first start, the
    page size is 20 and the current page is page 1 or lies between 1 and
    the page count: no action leaves the current page beyond the last
    page. *)
Theorem current_page_stays_in_range mockData page events :
  recordsPerPage (run events (init mockData page)) = 20
  /\ 1 <= currentPage (run events (init mockData page))
  /\ (currentPage (run events (init mockData page)) = 1
      \/ currentPage (run events (init mockData page))
         <= getTotalPages (run events (init mockData page))).
Proof.
  destruct (run_page_in_range mockData page events) as (Hp & Hc).
  split; [exact Hp |].
  destruct Hc as [Hc | Hc]; [rewrite Hc | ]; split; try lia; tauto.
Qed.

Lemma dispatch_synced ev st : synced st -> synced (dispatch ev st).
Proof.
  intros H.
  destruct ev as [o d f r env | text | v | | | env input]; cbn [dispatch].
  - destruct (fill_form_fields o d f st) as (Fr & Ff & _ & Fc & Fp & Fe).
    destruct (handleFormSubmit_cases r env (fill_form o d f st))
      as [(Hr' & _ & Hf' & Hc' & Hp' & He') | (record & _ & _ & _ & _ & _ & Hs)];
      [| exact Hs].
    apply (synced_ext st); congruence.
  - destruct (type_search_fields text st) as (Fr & Ff & _ & Fc & Fp & Fe).
    destruct (handleSearch (type_search text st)) as [st'|] eqn:E.
    + destruct (handleSearch_more _ _ E) as (_ & _ & _ & _ & Hs). exact Hs.
    + apply (synced_ext st); trivial.
  - destruct (handleSort_more (select_sort v st)) as (_ & _ & _ & Hs).
    exact Hs.
  - destruct (changePage_cases (-1) st) as [-> | (_ & _ & _ & _ & _ & _ & Hs)];
      assumption.
  - destruct (changePage_cases 1 st) as [-> | (_ & _ & _ & _ & _ & _ & Hs)];
      assumption.
  - destruct input as [| | |rows]; try exact H.
    destruct (handleUpload_more env rows st) as (_ & Hs & _). exact Hs.
Qed.

Lemma run_synced mockData page events :
  synced (run events (init mockData page)).
Proof.
  apply (run_invariant synced dispatch_synced).
  unfold init. apply updateUI_synced.
Qed.

(** X3. In every state that the session reaches from a first start, the
    list container shows exactly the current page of the filtered list
    (or of the whole collection when the filtered list is empty): no
    handler changes the fields without redrawing the list. *)
Theorem list_shows_current_page mockData page events :
  records_list (elements (run events (init mockData page)))
  = page_view (run events (init mockData page)).
Proof. exact (run_synced mockData page events). Qed.

End Session_invariants.

(** ** Pages *)

Section Page_facts.

Lemma firstn_plus {A} (l : list A) : forall a b,
  firstn (a + b) l = (firstn a l ++ firstn b (skipn a l))%list.
Proof.
  induction l as [|x l IH]; intros [|a] b; simpl;
    rewrite ?firstn_nil; try reflexivity.
  rewrite IH. reflexivity.
Qed.

Lemma slice_firstn_skipn {A} (l : list A) a p :
  0 <= a -> 0 <= p ->
  slice l a (a + p) = firstn (Z.to_nat p) (skipn (Z.to_nat a) l).
Proof.
  intros Ha Hp. unfold slice.
  destruct (Z.ltb_spec a 0); [lia |].
  destruct (Z.ltb_spec (a + p) 0); [lia |].
  destruct (Z.le_gt_cases (Z.of_nat (length l)) a) as [Hge | Hlt].
  - rewrite !skipn_all2 by lia. rewrite !firstn_nil. reflexivity.
  - replace (Z.to_nat (Z.min a (Z.of_nat (length l)))) with (Z.to_nat a) by lia.
    destruct (Z.le_gt_cases (a + p) (Z.of_nat (length l))) as [Hfit | Hover].
    + f_equal. lia.
    + rewrite !firstn_all2; trivial; rewrite length_skipn; lia.
Qed.

Lemma pages_concat {A} (l : list A) (p : nat) : forall n,
  concat (map (fun i => firstn p (skipn (i * p) l)) (seq 0 n))
  = firstn (n * p) l.
Proof.
  induction n as [|n IH]; [reflexivity |].
  rewrite seq_S, map_app, concat_app, IH. cbn [map concat plus].
  rewrite app_nil_r.
  replace (S n * p)%nat with (n * p + p)%nat by lia.
  symmetry. apply firstn_plus.
Qed.

Lemma page_items_firstn st i :
  0 < recordsPerPage st ->
  page_items st (Z.of_nat i + 1)
  = firstn (Z.to_nat (recordsPerPage st))
      (skipn (i * Z.to_nat (recordsPerPage st)) (shown_records st)).
Proof.
  intros Hp. unfold page_items.
  replace (Z.of_nat i + 1 - 1) with (Z.of_nat i) by lia.
  rewrite slice_firstn_skipn by nia.
  f_equal. f_equal. nia.
Qed.

Lemma page_items_bounds st k :
  0 < recordsPerPage st ->
  1 <= k <= getTotalPages st ->
  records_list (elements (updateRecordsList (set_currentPage k st)))
  = Items (page_items st k)
  /\ 1 <= len (page_items st k) <= recordsPerPage st
  /\ (k < getTotalPages st -> len (page_items st k) = recordsPerPage st)
  /\ (k = getTotalPages st ->
      len (page_items st k)
      = len (shown_records st) - (k - 1) * recordsPerPage st).
Proof.
  intros Hp Hk. rewrite getTotalPages_shown in *.
  destruct (Math_ceil_bounds (len (shown_records st)) (recordsPerPage st) Hp)
    as [Hlo Hhi].
  set (total := Math_ceil (inject_Z (len (shown_records st))
                           / inject_Z (recordsPerPage st))) in *.
  assert (Hlen : len (page_items st k)
                 = Z.min (k * recordsPerPage st) (len (shown_records st))
                   - (k - 1) * recordsPerPage st).
  { unfold page_items, len at 1.
    rewrite slice_length by nia. fold (len (shown_records st)). nia. }
  split.
  - rewrite updateRecordsList_view. unfold page_view.
    change (shown_records (set_currentPage k st)) with (shown_records st).
    destruct (Z.eqb_spec (len (shown_records st)) 0); [nia | reflexivity].
  - rewrite Hlen. repeat split; try nia.
Qed.

(** X4. With a positive page size, every page from 1 to the page count
    holds at least one record and at most a page size of them, every
    page before the last one is full, and the last one holds the
    remainder.  These pages are what [updateRecordsList] puts on
    display. *)
Theorem pages_are_full_except_last st k :
  0 < recordsPerPage st ->
  1 <= k <= getTotalPages st ->
  records_list (elements (updateRecordsList (set_currentPage k st)))
  = Items (page_items st k)
  /\ 1 <= len (page_items st k) <= recordsPerPage st
  /\ (k < getTotalPages st -> len (page_items st k) = recordsPerPage st)
  /\ (k = getTotalPages st ->
      len (page_items st k)
      = len (shown_records st) - (k - 1) * recordsPerPage st).
Proof. exact (page_items_bounds st k). Qed.

Lemma pages_are_full_except_last_witness :
  len (page_items (ledger 45) 1) = 20
  /\ len (page_items (ledger 45) 3) = 45 - (3 - 1) * 20.
Proof.
  split.
  - destruct (pages_are_full_except_last (ledger 45) 1) as (_ & _ & H & _);
      [vm_compute; reflexivity | vm_compute; split; congruence |].
    rewrite H; vm_compute; reflexivity.
  - destruct (pages_are_full_except_last (ledger 45) 3) as (_ & _ & _ & H);
      [vm_compute; reflexivity | vm_compute; split; congruence |].
    rewrite H; vm_compute; reflexivity.
Defined.

(** X5. With a positive page size, the pages 1 .. page count, one after
    the other, are exactly the list on display (the filtered list, or the
    whole collection when the filtered list is empty): paging neither
    drops nor repeats a record. *)
Theorem pages_partition_the_list st :
  0 < recordsPerPage st ->
  concat (map (page_items st) (page_numbers (getTotalPages st)))
  = shown_records st.
Proof.
  intros Hp. unfold page_numbers. rewrite map_map.
  rewrite (map_ext _ (fun i =>
             firstn (Z.to_nat (recordsPerPage st))
               (skipn (i * Z.to_nat (recordsPerPage st)) (shown_records st))))
    by (intros i; apply page_items_firstn, Hp).
  rewrite pages_concat. apply firstn_all2.
  rewrite getTotalPages_shown.
  destruct (Math_ceil_bounds (len (shown_records st)) (recordsPerPage st) Hp)
    as [Hlo Hhi].
  unfold len in *. nia.
Qed.

Lemma pages_partition_the_list_witness :
  concat (map (page_items (ledger 45)) [1; 2; 3]) = records (ledger 45).
Proof.
  assert (E : shown_records (ledger 45) = records (ledger 45))
    by (vm_compute; reflexivity).
  assert (N : page_numbers (getTotalPages (ledger 45)) = [1; 2; 3])
    by (vm_compute; reflexivity).
  rewrite <- E, <- N. apply pages_partition_the_list.
  vm_compute. reflexivity.
Defined.

(** X6. In every state that the session reaches from a first start, the
    list container shows at least one record whenever the list to display
    is not empty: the session never rests on an empty page. *)
Theorem reached_page_is_never_empty mockData page events :
  shown_records (run events (init mockData page)) <> [] ->
  exists first rest,
    records_list (elements (run events (init mockData page)))
    = Items (first :: rest).
Proof.
  intros Hne. rewrite (run_synced mockData page events).
  destruct (run_page_in_range mockData page events) as (Hp & Hc).
  set (st := run events (init mockData page)) in *.
  assert (Hpos : 0 < len (shown_records st)).
  { unfold len. destruct (shown_records st); [congruence | simpl; lia]. }
  assert (Hsize : 0 < recordsPerPage st) by lia.
  assert (Hone : 1 <= getTotalPages st).
  { rewrite getTotalPages_shown.
    destruct (Math_ceil_bounds (len (shown_records st)) (recordsPerPage st)
                Hsize) as [_ Hhi].
    nia. }
  assert (Hin : 1 <= currentPage st <= getTotalPages st).
  { destruct Hc as [Hc | Hc]; lia. }
  destruct (page_items_bounds st (currentPage st) Hsize Hin)
    as (_ & (Hlen & _) & _).
  unfold page_view.
  destruct (Z.eqb_spec (len (shown_records st)) 0); [lia |].
  unfold len in Hlen.
  destruct (page_items st (currentPage st)) as [|x l]; [simpl in Hlen; lia |].
  exists x, l. reflexivity.
Qed.

Lemma reached_page_is_never_empty_witness :
  exists first rest,
    records_list
      (elements (run [NextPageClick; SearchInput "제주"; NextPageClick]
                   (init (records (ledger 45)) blank_page)))
    = Items (first :: rest).
Proof.
  apply reached_page_is_never_empty. vm_compute. discriminate.
Defined.

End Page_facts.

(** ** Sort order *)

Section Sort_facts.
Context {A : Type} (cmp : A -> A -> Z).


Hypothesis cmp_total : forall a b, 0 < cmp a b -> cmp b a <= 0.
Hypothesis cmp_trans : forall a b c, cmp a b <= 0 -> cmp b c <= 0 -> cmp a c <= 0.



End Sort_facts.

Section Stable_facts.
Context {A : Type} (cmp : A -> A -> Z) (key : A -> Z).
Hypothesis cmp_key : forall a b, 0 < cmp a b -> key a <> key b.



End Stable_facts.






(** ** Search results *)

Section Search_facts.

Lemma filterM_pure {A} (f : A -> outcome bool) (g : A -> bool) l :
  Forall (fun x => f x = Return (g x)) l ->
  filterM f l = Return (List.filter g l).
Proof.
  induction 1 as [|x l Hx _ IH]; [reflexivity |].
  cbn [filterM List.filter]. rewrite Hx, IH. cbn [bind].
  destruct (g x); reflexivity.
Qed.

Lemma filterM_throws {A} (f : A -> outcome bool) e l :
  (forall x e', f x = Throw e' -> e' = e) ->
  Exists (fun x => exists e', f x = Throw e') l ->
  filterM f l = Throw e.
Proof.
  intros Hone. induction 1 as [x l (e' & Hx) | x l _ IH]; cbn [filterM].
  - rewrite Hx. cbn [bind]. f_equal. eauto.
  - destruct (f x) as [keep | e'] eqn:E; cbn [bind].
    + rewrite IH. reflexivity.
    + f_equal. eauto.
Qed.

Lemma matches_strings term r :
  is_string (route r) = true -> is_string (date r) = true ->
  matches term r = Return (matches_text term r).
Proof.
  unfold matches, matches_text.
  destruct (route r) as [| | | |s]; try discriminate.
  destruct (date r) as [| | | |d]; try discriminate. intros _ _.
  cbn [ToString]. destruct (includes (toLowerCase s) term); reflexivity.
Qed.

Lemma matches_only_TypeError term r e :
  matches term r = Throw e -> e = "TypeError".
Proof.
  unfold matches. destruct (route r) as [| | | |s]; try congruence.
  destruct (includes _ _); [discriminate |].
  destruct (date r); congruence.
Qed.

(** X9. When the route and the date of every record are strings, the
    search returns normally; its result holds, in the order of the
    collection, exactly the records whose lower-cased route or whose date
    contains the trimmed, lower-cased term, and an empty term gives the
    whole collection.  The current page becomes 1 and the list shows the
    first page of the result. *)
Theorem search_returns_the_matching_records st :
  Forall (fun r => is_string (route r) = true /\ is_string (date r) = true)
    (records st) ->
  exists st',
    handleSearch st = Return st'
    /\ filteredRecords st'
       = (if is_empty (trim (toLowerCase (searchInput_value (elements st))))
          then records st
          else List.filter
                 (matches_text
                    (trim (toLowerCase (searchInput_value (elements st)))))
                 (records st))
    /\ records st' = records st
    /\ currentPage st' = 1
    /\ records_list (elements st') = page_view st'.
Proof.
  intros Hstr.
  set (term := trim (toLowerCase (searchInput_value (elements st)))).
  assert (Hf : (if is_empty term then Return (records st)
                else filterM (matches term) (records st))
               = Return (if is_empty term then records st
                         else List.filter (matches_text term) (records st))).
  { destruct (is_empty term); [reflexivity |].
    apply filterM_pure. eapply List.Forall_impl; [| exact Hstr].
    intros r [H1 H2]. apply matches_strings; assumption. }
  assert (E : handleSearch st
              = Return (updatePagination
                          (updateRecordsList
                             (set_currentPage 1
                                (set_filteredRecords
                                   (if is_empty term then records st
                                    else List.filter (matches_text term)
                                           (records st)) st))))).
  { unfold handleSearch. fold term. rewrite Hf. reflexivity. }
  eexists. split; [exact E |].
  destruct (handleSearch_more _ _ E) as (Hr & _ & Hc & _ & Hs).
  split; [| split; [exact Hr | split; [exact Hc | exact Hs]]].
  match goal with
  | |- context [updatePagination (updateRecordsList ?s)] =>
      destruct (updatePagination_frame (updateRecordsList s))
        as (_ & -> & _);
      destruct (updateRecordsList_frame s) as (_ & -> & _)
  end.
  reflexivity.
Qed.

Lemma search_returns_the_matching_records_witness :
  exists st',
    handleSearch
      (type_search " 부산 "
         (init [trip "서울역" "수원역" 3000 30000 1;
                trip "부산역" "대전역" 1200 0 2;
                trip "인천공항" "부산역" 2500 10000 3] blank_page))
    = Return st'
    /\ map timestamp (filteredRecords st') = [2; 3].
Proof.
  destruct (search_returns_the_matching_records
              (type_search " 부산 "
                 (init [trip "서울역" "수원역" 3000 30000 1;
                        trip "부산역" "대전역" 1200 0 2;
                        trip "인천공항" "부산역" 2500 10000 3] blank_page)))
    as (st' & E & Hf & _).
  - vm_compute. repeat constructor.
  - exists st'. split; [exact E |]. rewrite Hf. vm_compute. reflexivity.
Defined.

Lemma import_record_numeric_route env k (row : Row) n :
  row !! "경로" = Some (VNumber n) -> n <> 0 ->
  route (import_record env k row) = VNumber n.
Proof.
  intros Hrow Hn. unfold import_record, row_get. cbn [route]. rewrite Hrow.
  change (default VUndefined (Some (VNumber n))) with (VNumber n).
  unfold JS.or_else. cbn [JS.truthy].
  destruct (Z.eqb_spec n 0); [contradiction | reflexivity].
Qed.

(** X10. A search with a non-empty term throws a TypeError as soon as
    one record of the collection has a route that is not a string.  The
    import makes such a record from a row whose route cell holds a
    non-zero number, so after that import every such search fails and
    the event loop leaves the filtered list and the current page as they
    were. *)
Theorem search_throws_after_numeric_route env rows row n text st :
  In row rows ->
  row !! "경로" = Some (VNumber n) -> n <> 0 ->
  is_empty (trim (toLowerCase text)) = false ->
  handleSearch (type_search text (handleUpload env (Sheet rows) st))
  = Throw "TypeError"
  /\ filteredRecords
       (dispatch (SearchInput text) (handleUpload env (Sheet rows) st))
     = filteredRecords st
  /\ currentPage
       (dispatch (SearchInput text) (handleUpload env (Sheet rows) st))
     = currentPage st.
Proof.
  intros Hin Hrow Hn Hterm.
  assert (E : handleSearch (type_search text (handleUpload env (Sheet rows) st))
              = Throw "TypeError").
  { unfold handleSearch.
    change (searchInput_value
              (elements (type_search text (handleUpload env (Sheet rows) st))))
      with text.
    rewrite Hterm. 
    change (records (type_search text (handleUpload env (Sheet rows) st)))
      with (records (handleUpload env (Sheet rows) st)).
    destruct (handleUpload_fields env rows st) as (-> & _).
    rewrite (filterM_throws _ "TypeError"); [reflexivity | |].
    - intros x e'. apply matches_only_TypeError.
    - apply Exists_app. right.
      assert (G : forall k, Exists
                    (fun x => exists e',
                       matches (trim (toLowerCase text)) x = Throw e')
                    (import_list env k rows)).
      { clear -Hin Hrow Hn. induction rows as [|r rs IH]; [destruct Hin |].
        intros k. cbn [import_list]. destruct Hin as [-> | Hin].
        - apply Exists_cons_hd. exists "TypeError".
          unfold matches.
          rewrite (import_record_numeric_route _ _ _ _ Hrow Hn).
          reflexivity.
        - apply Exists_cons_tl, IH, Hin. }
      apply G. }
  split; [exact E |]. cbn [dispatch]. rewrite E.
  destruct (handleUpload_fields env rows st) as (_ & Hf & Hc & _).
  split; [exact Hf | exact Hc].
Qed.

Lemma search_throws_after_numeric_route_witness :
  handleSearch
    (type_search "서울"
       (handleUpload clock (Sheet [<["경로" := VNumber 7]> ∅])
          (init [trip "서울역" "수원역" 3000 30000 1] blank_page)))
  = Throw "TypeError".
Proof.
  destruct (search_throws_after_numeric_route clock
              [<["경로" := VNumber 7]> ∅] (<["경로" := VNumber 7]> ∅) 7 "서울"
              (init [trip "서울역" "수원역" 3000 30000 1] blank_page))
    as (H & _).
  - left. reflexivity.
  - vm_compute. reflexivity.
  - discriminate.
  - vm_compute. reflexivity.
  - exact H.
Defined.

End Search_facts.

(** ** Form submission and its display *)

Section Form_facts.

(** X11. When the origin or the destination is empty after trimming,
    the submission is refused: collection, filtered list, aggregate
    total, current page, the pending-save flag, the list on display and
    the field texts stay as they are, and each empty field gets its
    error message while a filled one has its message cleared. *)
Theorem refused_submission_changes_no_data r env st :
  trim (startPoint_value (form (elements st))) = EmptyString
  \/ trim (endPoint_value (form (elements st))) = EmptyString ->
  records (handleFormSubmit r env st) = records st
  /\ filteredRecords (handleFormSubmit r env st) = filteredRecords st
  /\ totalCost (handleFormSubmit r env st) = totalCost st
  /\ currentPage (handleFormSubmit r env st) = currentPage st
  /\ savePending (handleFormSubmit r env st) = savePending st
  /\ records_list (elements (handleFormSubmit r env st))
     = records_list (elements st)
  /\ startPoint_value (form (elements (handleFormSubmit r env st)))
     = startPoint_value (form (elements st))
  /\ endPoint_value (form (elements (handleFormSubmit r env st)))
     = endPoint_value (form (elements st))
  /\ fuelCost_value (form (elements (handleFormSubmit r env st)))
     = fuelCost_value (form (elements st))
  /\ startPointError (form (elements (handleFormSubmit r env st)))
     = (if is_empty (trim (startPoint_value (form (elements st))))
        then "출발지를 입력해주세요." else EmptyString)
  /\ endPointError (form (elements (handleFormSubmit r env st)))
     = (if is_empty (trim (endPoint_value (form (elements st))))
        then "도착지를 입력해주세요." else EmptyString).
Proof.
  intros Hblank.
  assert (Hv : fst (validateForm st) = false).
  { destruct (validateForm_spec r env st) as (-> & _).
    destruct Hblank as [-> | ->]; cbn [is_empty negb andb];
      rewrite ?andb_false_r; reflexivity. }
  assert (E : handleFormSubmit r env st = snd (validateForm st)).
  { unfold handleFormSubmit. destruct (validateForm st) as [valid st1].
    cbn [fst snd] in *. rewrite Hv. reflexivity. }
  rewrite E. unfold validateForm. cbn [snd].
  repeat split; cbn [set_elements set_form elements form startPointError
                       endPointError];
    destruct (is_empty _); reflexivity.
Qed.

Lemma refused_submission_changes_no_data_witness :
  records (handleFormSubmit (1 # 2) (clock 0)
             (fill_form "   " "수원역" "30000" (ledger 3)))
  = records (ledger 3)
  /\ startPointError
       (form (elements (handleFormSubmit (1 # 2) (clock 0)
                          (fill_form "   " "수원역" "30000" (ledger 3)))))
     = "출발지를 입력해주세요.".
Proof.
  destruct (refused_submission_changes_no_data (1 # 2) (clock 0)
              (fill_form "   " "수원역" "30000" (ledger 3)))
    as (H1 & _ & _ & _ & _ & _ & _ & _ & _ & H10 & _).
  - left. vm_compute. reflexivity.
  - split; [exact H1 |]. rewrite H10. vm_compute. reflexivity.
Defined.

Lemma slice_head {A} (x : A) (l : list A) p :
  0 < p -> exists rest, slice (x :: l) 0 p = x :: rest.
Proof.
  intros Hp. unfold slice.
  destruct (Z.ltb_spec p 0); [lia |].
  change (0 <? 0) with false. cbv iota.
  replace (Z.to_nat (Z.min 0 (Z.of_nat (length (x :: l))))) with 0%nat
    by (cbn [length]; lia).
  cbn [skipn].
  destruct (Z.to_nat (Z.min p (Z.of_nat (length (x :: l)))
                      - Z.min 0 (Z.of_nat (length (x :: l))))) eqn:E.
  - cbn [length] in E. lia.
  - cbn [firstn]. eexists. reflexivity.
Qed.

Lemma page_view_unfiltered st :
  filteredRecords st = [] -> currentPage st = 1 ->
  page_view st
  = (if len (records st) =? 0 then NoRecordsMessage
     else Items (slice (records st) 0 (recordsPerPage st))).
Proof.
  intros Hf Hc. unfold page_view, page_items, shown_records.
  rewrite Hf, Hc. reflexivity.
Qed.

Lemma page_view_filtered st st' :
  filteredRecords st <> [] ->
  filteredRecords st' = filteredRecords st ->
  currentPage st' = currentPage st -> recordsPerPage st' = recordsPerPage st ->
  page_view st' = page_view st.
Proof.
  intros Hne Hf Hc Hp. unfold page_view, page_items, shown_records.
  rewrite Hf, Hc, Hp. unfold len.
  destruct (filteredRecords st); [congruence | reflexivity].
Qed.

(** X12. A record added while no search result is held and page 1 is
    current appears at the top of the list on display.  A record added
    while a search result is held leaves the list on display as the
    fields before the addition give it: the record is in the collection
    but not in the filtered list until the search runs again. *)
Theorem added_record_on_display record st :
  0 < recordsPerPage st ->
  (filteredRecords st = [] -> currentPage st = 1 ->
   exists rest,
     records_list (elements (addRecord record st)) = Items (record :: rest))
  /\ (filteredRecords st <> [] ->
      records_list (elements (addRecord record st)) = page_view st
      /\ filteredRecords (addRecord record st) = filteredRecords st).
Proof.
  intros Hp.
  pose proof (addRecord_synced record st) as Hs.
  destruct (addRecord_fields record st) as (Hr & Hf & _ & Hc & Hsz).
  split.
  - intros Hnil Hone.
    rewrite Hs, page_view_unfiltered by congruence. rewrite Hr, Hsz.
    destruct (slice_head record (records st) (recordsPerPage st) Hp)
      as (rest & ->).
    exists rest. reflexivity.
  - intros Hne. split; [| exact Hf].
    rewrite Hs. apply page_view_filtered; assumption.
Qed.

Lemma added_record_on_display_witness :
  exists rest,
    records_list (elements (addRecord (trip "서울역" "수원역" 3000 30000 9)
                              (ledger 3)))
    = Items (trip "서울역" "수원역" 3000 30000 9 :: rest).
Proof.
  destruct (added_record_on_display (trip "서울역" "수원역" 3000 30000 9)
              (ledger 3)) as (H & _).
  - vm_compute. reflexivity.
  - apply H; vm_compute; reflexivity.
Defined.

End Form_facts.

(** ** Import and export *)

Section Transfer_facts.

Lemma import_list_timestamps env rows : forall k,
  (forall i j, (i <= j)%nat ->
               now_for_timestamp (env i) <= now_for_timestamp (env j)) ->
  StronglySorted Z.lt (map timestamp (import_list env k rows))
  /\ Forall (fun t => now_for_timestamp (env k) + Z.of_nat k <= t)
       (map timestamp (import_list env k rows)).
Proof.
  induction rows as [|row rows IH]; intros k Hmono; cbn [import_list map].
  - split; constructor.
  - destruct (IH (S k) Hmono) as [Hs Hb].
    cbn [import_record timestamp].
    assert (Hstep : now_for_timestamp (env k) + Z.of_nat k
                    < now_for_timestamp (env (S k)) + Z.of_nat (S k)).
    { pose proof (Hmono k (S k) ltac:(lia)). lia. }
    split.
    + constructor; [exact Hs |].
      eapply List.Forall_impl; [| exact Hb]. intros t Ht. cbv beta in *. lia.
    + constructor; [lia |].
      eapply List.Forall_impl; [| exact Hb]. intros t Ht. cbv beta in *. lia.
Qed.

Lemma StronglySorted_lt_NoDup l : StronglySorted Z.lt l -> List.NoDup l.
Proof.
  induction 1 as [|x l Hs IH Hx]; [apply List.NoDup_nil |].
  apply List.NoDup_cons; [| exact IH].
  intros Hin. rewrite List.Forall_forall in Hx. specialize (Hx x Hin). lia.
Qed.

(** X13. As long as the clock does not run backwards while a batch is
    imported, the timestamps of the imported records increase strictly
    in sheet order, so no two records of one batch share a timestamp. *)
Theorem imported_timestamps_are_distinct env rows st :
  (forall i j, (i <= j)%nat ->
               now_for_timestamp (env i) <= now_for_timestamp (env j)) ->
  exists imported,
    records (handleUpload env (Sheet rows) st) = (records st ++ imported)%list
    /\ length imported = length rows
    /\ StronglySorted Z.lt (map timestamp imported)
    /\ List.NoDup (map timestamp imported).
Proof.
  intros Hmono. exists (import_list env 0 rows).
  destruct (handleUpload_fields env rows st) as (E & _).
  destruct (import_list_timestamps env rows 0 Hmono) as (Hs & _).
  split; [exact E |]. split; [apply import_list_length |].
  split; [exact Hs | apply StronglySorted_lt_NoDup, Hs].
Qed.

Lemma imported_timestamps_are_distinct_witness :
  exists imported,
    records (handleUpload clock (Sheet [∅; ∅; ∅]) (constructor blank_page))
    = imported
    /\ List.NoDup (map timestamp imported).
Proof.
  destruct (imported_timestamps_are_distinct clock [∅; ∅; ∅]
              (constructor blank_page)) as (imported & E & _ & _ & H).
  - intros i j _. vm_compute. discriminate.
  - exists imported. split; [exact E | exact H].
Defined.

Lemma export_row_dom r :
  dom (export_row r)
  = ({["날짜"; "출발지"; "도착지"; "경로"; "통행료"; "주유비"; "총비용"]} : gset string).
Proof.
  unfold export_row. rewrite !dom_insert_L, dom_empty_L. set_solver.
Qed.

(** X14. The export is refused exactly when the collection is empty,
    which is also exactly when a redraw disables the export button.
    Otherwise (the library being loaded) it yields one row per record, in
    the order of the collection, each with the seven columns date,
    origin, destination, route, toll, fuel and total; a search result in
    force does not narrow the export. *)
Theorem export_covers_the_whole_collection st :
  (handleExport true st = None <-> records st = [])
  /\ (exportBtn_disabled (elements (updateUI st)) = true <-> records st = [])
  /\ (forall rows,
        handleExport true st = Some rows ->
        length rows = length (records st)
        /\ rows = map export_row (records st)
        /\ Forall
             (fun row : Row =>
                dom row
                = ({["날짜"; "출발지"; "도착지"; "경로"; "통행료"; "주유비";
                     "총비용"]} : gset string)) rows).
Proof.
  split; [| split].
  - unfold handleExport, len. destruct (records st); split; try discriminate;
      reflexivity.
  - unfold updateUI.
    destruct (updateExportButton_fields
                (updatePagination (updateRecordsList st)))
      as (_ & _ & _ & _ & _ & _ & ->).
    destruct (updatePagination_frame (updateRecordsList st)) as (-> & _).
    destruct (updateRecordsList_frame st) as (-> & _).
    unfold len. destruct (records st); split; try discriminate; reflexivity.
  - intros rows H. unfold handleExport, len in H.
    destruct (records st) as [|x l] eqn:E; [discriminate |].
    cbn [length Z.of_nat Z.eqb negb] in H. injection H as <-.
    unfold exportData.
    split; [cbn [map length]; f_equal; apply length_map |].
    split; [reflexivity |].
    apply List.Forall_forall. intros row Hin.
    change (In row (map export_row (x :: l))) in Hin.
    apply in_map_iff in Hin. destruct Hin as (r & <- & _).
    apply export_row_dom.
Qed.

End Transfer_facts.

(** ** Saving and loading *)

Section Persist_facts.
Import Persist.

Lemma parse_not_empty text data : parse text = Return data -> is_empty text = false.
Proof. destruct text; [discriminate | reflexivity]. Qed.

Lemma is_integer_inject_Z n : is_integer (inject_Z n) = true.
Proof.
  unfold is_integer. rewrite Qfloor_Z. apply Qeq_bool_iff. reflexivity.
Qed.

Lemma restores_saved data now st :
  restores data (save_data now st) = true ->
  exists r q v l,
    data = JObject [("records", r); ("totalCost", JNumber q);
                    ("version", v); ("lastSaved", l)]
    /\ restores r (JArray (map record_json (records st))) = true
    /\ Qeq_bool q (inject_Z (totalCost st)) = true.
Proof.
  unfold save_data. intros H.
  destruct data as [| | | | |members]; try discriminate H.
  destruct members as [|[k1 r] [|[k2 t] [|[k3 v] [|[k4 l] [|[k5 m] members]]]]];
    cbn [restores] in H; rewrite ?andb_true_iff in H;
    try discriminate H; try (decompose [and] H; discriminate).
  destruct H as ((E1 & Hr) & (E2 & Ht) & (E3 & _) & (E4 & _) & _).
  apply String.eqb_eq in E1, E2, E3, E4. subst k1 k2 k3 k4.
  destruct t as [| |q| | |]; try discriminate Ht.
  cbn [restores] in Ht. rewrite is_integer_inject_Z, orb_false_r in Ht.
  exists r, q, v, l. repeat split; assumption.
Qed.

Lemma load_saved_text text data now st this :
  parse text = Return data ->
  restores data (save_data now st) = true ->
  exists fields,
    loadFromLocalStorage (Return (Some text)) this = Return fields
    /\ restores (this_records fields)
         (JArray (map record_json (records st))) = true
    /\ restores (this_totalCost fields)
         (JNumber (inject_Z (totalCost st))) = true.
Proof.
  intros Hparse Hsame.
  destruct (restores_saved data now st Hsame) as (r & q & v & l & -> & Hr & Hq).
  unfold loadFromLocalStorage. cbn [bind].
  rewrite (parse_not_empty _ _ Hparse), Hparse. cbn [bind].
  change (get (JObject ?m) ?k) with (Return (lookup_last k m)).
  cbn [bind].
  change (lookup_last "records" _) with (Some r).
  change (lookup_last "totalCost" _) with (Some (JNumber q)).
  cbn [try_catch this_records]. eexists. split; [reflexivity |].
  cbn [this_records this_totalCost]. split.
  - destruct r as [| | | |items|]; try discriminate Hr. exact Hr.
  - unfold or_else, truthy. destruct (Qeq_bool q 0) eqn:E0;
      cbn [negb restores]; rewrite is_integer_inject_Z, orb_false_r.
    + apply Qeq_bool_iff in E0, Hq. apply Qeq_bool_iff.
      rewrite <- Hq, E0. reflexivity.
    + exact Hq.
Qed.

(** X15. What [saveToLocalStorage] writes, [loadFromLocalStorage] reads
    back: when the write succeeds and the platform's JSON text of the
    saved object parses back to that object (every text, truth value and
    integer as it was saved, a number in place of every record
    identifier), loading the stored text returns normally with the saved
    records as the collection and the saved aggregate as the total, in
    the same sense; the defaults of the loader leave an empty collection
    and a zero total as they are.  A write that throws leaves the stored
    text as it was, and the save still returns normally. *)
Theorem saved_state_is_restored stringify now st stored this :
  (exists data,
     parse (stringify (save_data now st)) = Return data
     /\ restores data (save_data now st) = true) ->
  (exists text fields,
     saveToLocalStorage stringify (fun _ => Return tt) now st stored
     = Return (Some text)
     /\ loadFromLocalStorage (Return (Some text)) this = Return fields
     /\ restores (this_records fields)
          (JArray (map record_json (records st))) = true
     /\ restores (this_totalCost fields)
          (JNumber (inject_Z (totalCost st))) = true)
  /\ (forall setItem e,
        setItem (stringify (save_data now st)) = Throw e ->
        saveToLocalStorage stringify setItem now st stored = Return stored).
Proof.
  intros (data & Hparse & Hsame). split.
  - destruct (load_saved_text _ data now st this Hparse Hsame)
      as (fields & Hl & Hr & Ht).
    exists (stringify (save_data now st)), fields.
    split; [reflexivity |]. split; [exact Hl |]. split; assumption.
  - intros setItem e He. unfold saveToLocalStorage. cbv zeta. rewrite He.
    reflexivity.
Qed.

Lemma saved_state_is_restored_witness :
  exists fields,
    loadFromLocalStorage (Return (Some one_trip_text)) fresh = Return fields
    /\ restores (this_records fields)
         (JArray (map record_json (records one_trip_ledger))) = true
    /\ this_totalCost fields = JNumber 33500.
Proof.
  destruct (saved_state_is_restored (fun _ => one_trip_text) 1704412800300
              one_trip_ledger None fresh)
    as ((text & fields & Hs & Hl & Hr & Ht) & _).
  - exists (match parse one_trip_text with
            | Return data => data
            | Throw _ => JNull
            end).
    split; vm_compute; reflexivity.
  - injection Hs as <-. exists fields.
    split; [exact Hl |]. split; [exact Hr |].
    vm_compute in Hl. injection Hl as <-. reflexivity.
Defined.

End Persist_facts.

(** ** The sample history *)

Section Mock_facts.
Import Mock.

Lemma floor_scaled_range (r : Q) (n : Z) :
  0 < n -> unit_draw r -> 0 <= Math_floor (r * inject_Z n) < n.
Proof.
  intros Hn [H0 H1]. unfold Math_floor. split.
  - change 0 with (Qfloor 0). apply Qfloor_resp_le.
    apply Qmult_le_0_compat; [exact H0 |].
    change 0%Q with (inject_Z 0). rewrite <- Zle_Qle. lia.
  - rewrite Zlt_Qlt. eapply Qle_lt_trans; [apply Qfloor_le |].
    rewrite <- (Qmult_1_l (inject_Z n)) at 2.
    apply Qmult_lt_compat_r; [| exact H1].
    change 0%Q with (inject_Z 0). rewrite <- Zlt_Qlt. lia.
Qed.

Lemma pick_place r :
  unit_draw r -> exists s, pick r = VString s /\ In s places.
Proof.
  intros Hr. unfold pick.
  pose proof (floor_scaled_range r (len places) ltac:(reflexivity) Hr) as Hi.
  set (i := Math_floor (r * inject_Z (len places))) in *.
  change (len places) with 6 in Hi.
  destruct (Z.ltb_spec i 0); [lia |].
  destruct (nth_error places (Z.to_nat i)) as [s|] eqn:E.
  - exists s. split; [reflexivity |]. eapply nth_error_In, E.
  - apply nth_error_None in E. cbn [places length] in E. lia.
Qed.

Lemma strict_eq_strings s e :
  strict_eq (VString s) (VString e) = false -> s <> e.
Proof. cbn [strict_eq]. apply String.eqb_neq. Qed.

Lemma redraw_result random :
  (forall n, unit_draw (random n)) ->
  forall gas cursor startPoint endPoint e c,
    (exists s, endPoint = VString s /\ In s places) ->
    redraw gas random cursor startPoint endPoint = Some (e, c) ->
    strict_eq startPoint e = false
    /\ exists s, e = VString s /\ In s places.
Proof.
  intros Hr. induction gas as [|gas IH]; intros cursor sp ep e c Hep H;
    cbn [redraw] in H; destruct (strict_eq sp ep) eqn:E.
  - discriminate H.
  - injection H as <- <-. split; [exact E | exact Hep].
  - eapply IH; [| exact H]. apply pick_place, Hr.
  - injection H as <- <-. split; [exact E | exact Hep].
Qed.

Lemma fuel_range r : unit_draw r -> 0 <= Math_floor (r * 50000) <= 49999.
Proof.
  intros Hr.
  pose proof (floor_scaled_range r 50000 ltac:(lia) Hr) as H.
  change (inject_Z 50000) with 50000%Q in H. lia.
Qed.

Lemma history_from_result random day :
  (forall n, unit_draw (random n)) ->
  forall gas days i cursor history c,
    history_from gas days i random cursor day = Some (history, c) ->
    length history = days
    /\ Forall mock_record_ok history
    /\ map date history
       = map (fun j => VString (day_text (day j))) (seq i days)
    /\ map timestamp history = map (fun j => day_time (day j)) (seq i days).
Proof.
  intros Hr gas. induction days as [|days IH]; intros i cursor history c;
    cbn [history_from].
  - intros [= <- <-]. repeat split; constructor.
  - destruct (redraw gas random (S (S cursor)) (pick (random cursor))
                (pick (random (S cursor)))) as [[e c1]|] eqn:Er;
      [| discriminate].
    destruct (history_from gas days (S i) random (S (S (S c1))) day)
      as [[rest c2]|] eqn:Eh; [| discriminate].
    intros [= <- <-].
    destruct (IH _ _ _ _ Eh) as (Hl & Hok & Hd & Ht).
    destruct (pick_place _ (Hr cursor)) as (s & Es & Hs).
    destruct (redraw_result random Hr _ _ _ _ _ _
                (pick_place _ (Hr (S cursor))) Er) as (Hne & s' & Ee & Hs').
    cbn [length map seq date timestamp]. rewrite Hl, Hd, Ht.
    split; [reflexivity |]. split; [| split; reflexivity].
    constructor; [| exact Hok].
    exists s, s'. cbn [startPoint endPoint route toll fuel total].
    rewrite Es, Ee in *. cbn [ToString].
    destruct (Hr c1) as [H0 H1].
    repeat split; trivial.
    + apply strict_eq_strings, Hne.
    + apply (simulateTollFee_range _ H0 H1).
    + apply (simulateTollFee_range _ H0 H1).
    + apply (fuel_range _ (Hr (S c1))).
    + apply (fuel_range _ (Hr (S c1))).
Qed.

(** X16. Whenever [generateMockHistory] returns, for draws in [0, 1), it
    returns one record per day, each with an origin and a destination
    taken from the six places and different from each other, the route
    made of the two, a toll between 1000 and 5999, a fuel cost between 0
    and 49999 and their sum as total; the records carry the dates and
    times of today, yesterday and so on, in that order. *)
Theorem mock_history_is_well_formed gas days random cursor day history c :
  (forall n, unit_draw (random n)) ->
  generateMockHistory gas days random cursor day = Some (history, c) ->
  length history = days
  /\ Forall mock_record_ok history
  /\ map date history = map (fun j => VString (day_text (day j))) (seq 0 days)
  /\ map timestamp history = map (fun j => day_time (day j)) (seq 0 days).
Proof.
  intros Hr H. exact (history_from_result random day Hr _ _ _ _ _ _ H).
Qed.

Lemma sample_draws_unit n : unit_draw (sample_draws n).
Proof.
  unfold unit_draw, sample_draws, Qle, Qlt. cbn [Qnum Qden].
  pose proof (Nat.mod_upper_bound n 7 ltac:(lia)). lia.
Qed.

Lemma mock_history_is_well_formed_witness :
  exists history c,
    generateMockHistory 3 5 sample_draws 0 sample_day = Some (history, c)
    /\ length history = 5%nat
    /\ Forall mock_record_ok history.
Proof.
  destruct (generateMockHistory 3 5 sample_draws 0 sample_day)
    as [[history c]|] eqn:E; [| vm_compute in E; discriminate E].
  exists history, c. split; [reflexivity |].
  destruct (mock_history_is_well_formed 3 5 sample_draws 0 sample_day
              history c sample_draws_unit E) as (H1 & H2 & _).
  split; assumption.
Defined.

(** X17. The loop that redraws the destination stops at the first draw
    that picks a place other than the origin: when the [k]-th further
    draw is the first such one and the bound on the draws exceeds [k], the loop
    returns that pick after taking [k + 1] draws; when the first
    destination already differs, no draw is taken. *)
Theorem redraw_stops_at_first_other_place random startPoint :
  forall k gas cursor endPoint,
  strict_eq startPoint endPoint = true ->
  (forall j, (j < k)%nat ->
             strict_eq startPoint (pick (random (cursor + j)%nat)) = true) ->
  strict_eq startPoint (pick (random (cursor + k)%nat)) = false ->
  (k < gas)%nat ->
  redraw gas random cursor startPoint endPoint
  = Some (pick (random (cursor + k)%nat), S (cursor + k)).
Proof.
  induction k as [|k IH]; intros gas cursor ep Heq Hsame Hdiff Hgas;
    (destruct gas as [|gas]; [lia |]); cbn [redraw]; rewrite Heq.
  - rewrite Nat.add_0_r in *. destruct gas; cbn [redraw]; rewrite Hdiff;
      reflexivity.
  - replace (cursor + S k)%nat with (S cursor + k)%nat in * by lia.
    apply IH.
    + specialize (Hsame 0%nat ltac:(lia)). rewrite Nat.add_0_r in Hsame.
      exact Hsame.
    + intros j Hj. specialize (Hsame (S j) ltac:(lia)).
      replace (cursor + S j)%nat with (S cursor + j)%nat in Hsame by lia.
      exact Hsame.
    + exact Hdiff.
    + lia.
Qed.

Lemma redraw_stops_at_first_other_place_witness :
  redraw 5 (fun n => if (n <? 2)%nat then 0%Q else (1 # 2)%Q) 0
    (VString "서울역") (VString "서울역")
  = Some (VString "부산역", 3%nat).
Proof.
  rewrite (redraw_stops_at_first_other_place _ _ 2);
    try (vm_compute; reflexivity).
  - intros j Hj. destruct j as [|[|j]]; [vm_compute; reflexivity .. | lia].
  - lia.
Defined.

(** X18. [loadMockData] leaves a collection that already holds records
    (restored data) untouched; on an empty collection it appends the
    sample history in order and adds its totals to the aggregate, and
    changes neither the filtered list nor the current page. *)
Theorem mock_data_only_fills_an_empty_collection mockData st :
  (records st <> [] -> loadMockData mockData st = st)
  /\ (records st = [] ->
      records (loadMockData mockData st) = mockData
      /\ totalCost (loadMockData mockData st) = totalCost st + sum_totals mockData
      /\ filteredRecords (loadMockData mockData st) = filteredRecords st
      /\ currentPage (loadMockData mockData st) = currentPage st).
Proof.
  split.
  - intros Hne. unfold loadMockData, len.
    destruct (records st); [congruence | reflexivity].
  - intros He. destruct (loadMockData_fields mockData st He)
      as (Hr & Hf & Ht & Hc & _).
    repeat split; assumption.
Qed.

End Mock_facts.

(** ** Debounced calls *)

Section Debounce_facts.
Import Debounce.
Context {Args : Type}.

Lemma last_cons_default {A} (x : A) l d d' :
  List.last (x :: l) d = List.last (x :: l) d'.
Proof.
  revert x. induction l as [|y l IH]; intros x; [reflexivity |].
  change (List.last (y :: l) d = List.last (y :: l) d'). apply IH.
Qed.

Lemma last_cons_cons {A} (x d : A) l :
  List.last (x :: l) d = List.last l x.
Proof.
  destruct l as [|y l]; [reflexivity |].
  change (List.last (y :: l) d = List.last (y :: l) x).
  apply last_cons_default.
Qed.

Lemma calls_within_burst wait : forall (timeline : list (Z * Args)) t a,
  burst wait t timeline ->
  calls wait timeline (Some {| due := t + wait; args := a |})
  = ([], Some {| due := fst (List.last timeline (t, a)) + wait;
                 args := snd (List.last timeline (t, a)) |}).
Proof.
  induction timeline as [|[t' b] rest IH]; intros t a Hb; [reflexivity |].
  destruct Hb as [Ht Hrest]. cbn [calls tick due args].
  destruct (Z.leb_spec (t + wait) t'); [lia |].
  unfold executedFunction. rewrite (IH t' b Hrest).
  rewrite (last_cons_cons (t', b) (t, a) rest). reflexivity.
Qed.

(** X19. Debounced calls that follow each other by less than the delay
    make no call of the wrapped function while they last; they leave one
    timer, due one delay after the last call and holding the arguments
    of the last call, so the wrapped function runs once, then, with
    those arguments. *)
Theorem burst_is_collapsed_into_one_call wait t0 (a0 : Args) rest now :
  burst wait t0 rest ->
  let t_last := fst (List.last rest (t0, a0)) in
  let a_last := snd (List.last rest (t0, a0)) in
  calls wait ((t0, a0) :: rest) None
  = ([], Some {| due := t_last + wait; args := a_last |})
  /\ (now < t_last + wait ->
      tick now (snd (calls wait ((t0, a0) :: rest) None))
      = (None, Some {| due := t_last + wait; args := a_last |}))
  /\ (t_last + wait <= now ->
      tick now (snd (calls wait ((t0, a0) :: rest) None))
      = (Some a_last, None)).
Proof.
  intros Hb t_last a_last.
  assert (E : calls wait ((t0, a0) :: rest) None
              = ([], Some {| due := t_last + wait; args := a_last |})).
  { cbn [calls tick]. unfold executedFunction.
    rewrite (calls_within_burst wait rest t0 a0 Hb). reflexivity. }
  rewrite E. cbn [snd tick due args].
  split; [reflexivity |].
  split; intros H; destruct (Z.leb_spec (t_last + wait) now); try lia;
    reflexivity.
Qed.

(** [calls] is the trace in which the timers are served right before
    every call. *)
Lemma calls_as_turns wait : forall (timeline : list (Z * Args)) timeout,
  calls wait timeline timeout
  = turns wait
      (flat_map (fun c => [Timers (fst c); Call (fst c) (snd c)]) timeline)
      timeout.
Proof.
  induction timeline as [|[t a] rest IH]; intros timeout; [reflexivity |].
  cbn [calls flat_map app turns fst snd].
  destruct (tick t timeout) as [ran timeout1].
  rewrite IH. reflexivity.
Qed.

Lemma turns_unserved wait : forall (timeline : list (Z * Args)) trace t a,
  turns wait (unserved timeline ++ trace)
    (Some {| due := t + wait; args := a |})
  = turns wait trace
      (Some {| due := fst (List.last timeline (t, a)) + wait;
               args := snd (List.last timeline (t, a)) |}).
Proof.
  induction timeline as [|[t' b] rest IH]; intros trace t a; [reflexivity |].
  cbn [unserved map app turns fst snd]. unfold executedFunction.
  fold (unserved rest). rewrite (IH trace t' b).
  rewrite (last_cons_cons (t', b) (t, a) rest). reflexivity.
Qed.

Lemma turns_served wait : forall (timeline : list (Z * Z * Args)),
  Forall (fun c => fst (fst c) + wait <= snd (fst c)) timeline ->
  turns wait (served timeline) None = (map snd timeline, None).
Proof.
  induction timeline as [|[[t s] a] rest IH]; intros H; [reflexivity |].
  inversion H as [|c l Hts Hrest]; subst. cbn [fst snd] in Hts.
  cbn [served turns tick executedFunction due args map snd].
  destruct (Z.leb_spec (t + wait) s); [| lia].
  rewrite (IH Hrest). reflexivity.
Qed.

(** X20. A debounced call runs the wrapped function when the event loop
    serves its timer before the next call comes: if every call is
    followed, before the next one, by a turn of the timers at least one
    delay after it, the wrapped function runs once per call, in order,
    with the arguments of that call, and no timer is left.  Calls with no
    such turn in between are collapsed into the last of them, however far
    apart in time they are. *)
Theorem served_calls_all_run wait (timeline : list (Z * Z * Args)) :
  Forall (fun c => fst (fst c) + wait <= snd (fst c)) timeline ->
  turns wait (served timeline) None = (map snd timeline, None)
  /\ (forall t0 (a0 : Args) late s,
        fst (List.last late (t0, a0)) + wait <= s ->
        turns wait (unserved ((t0, a0) :: late) ++ [Timers s]) None
        = ([snd (List.last late (t0, a0))], None)).
Proof.
  intros H. split; [exact (turns_served wait timeline H) |].
  intros t0 a0 late s Hs.
  cbn [unserved map app turns fst snd]. unfold executedFunction.
  fold (unserved late). rewrite (turns_unserved wait late [Timers s] t0 a0).
  cbn [turns tick due args].
  destruct (Z.leb_spec (fst (List.last late (t0, a0)) + wait) s); [| lia].
  reflexivity.
Qed.

End Debounce_facts.

Lemma burst_is_collapsed_into_one_call_witness :
  Debounce.calls 300 [(0, "ㅅ"); (120, "서"); (250, "서울")] None
  = ([], Some {| Debounce.due := 550; Debounce.args := "서울" |})
  /\ Debounce.tick 550
       (snd (Debounce.calls 300 [(0, "ㅅ"); (120, "서"); (250, "서울")] None))
     = (Some "서울", None).
Proof.
  destruct (burst_is_collapsed_into_one_call 300 0 "ㅅ"
              [(120, "서"); (250, "서울")] 550) as (H1 & _ & H3).
  - cbn [burst]. lia.
  - split; [exact H1 |]. apply H3. vm_compute. discriminate.
Defined.

Lemma served_calls_all_run_witness :
  Debounce.turns 1000 (served [(0, 1000, 1%nat); (1000, 2300, 2%nat); (2500, 3500, 3%nat)])
    None
  = ([1%nat; 2%nat; 3%nat], None)
  /\ Debounce.turns 1000 [Debounce.Call 0 1%nat; Debounce.Call 1000 2%nat;
        Debounce.Call 2500 3%nat; Debounce.Timers 3500]
       None
     = ([3%nat], None).
Proof.
  destruct (served_calls_all_run 1000
              [(0, 1000, 1%nat); (1000, 2300, 2%nat); (2500, 3500, 3%nat)])
    as (H1 & H2).
  - repeat constructor; vm_compute; discriminate.
  - split; [exact H1 |].
    apply (H2 0 1%nat [(1000, 2%nat); (2500, 3%nat)] 3500).
    vm_compute. discriminate.
Defined.

(** ** Pagination controls *)

Section Control_facts.

Lemma updatePagination_controls st :
  (getTotalPages st <= 1 ->
   pagination_shown (pagination (elements (updatePagination st))) = false)
  /\ (1 < getTotalPages st ->
      pagination_shown (pagination (elements (updatePagination st))) = true
      /\ prevPage_disabled (pagination (elements (updatePagination st)))
         = (currentPage st =? 1)
      /\ nextPage_disabled (pagination (elements (updatePagination st)))
         = (currentPage st =? getTotalPages st)
      /\ pageInfo (pagination (elements (updatePagination st)))
         = Number_toString (currentPage st) ++ " / "
             ++ Number_toString (getTotalPages st)).
Proof.
  unfold updatePagination. cbv zeta.
  destruct (Z.leb_spec (getTotalPages st) 1); split; intros Hcase; try lia;
    repeat split; reflexivity.
Qed.

(** X21. After [updatePagination], with the current page within
    1 .. page count: when there is more than one page the controls are
    shown, "previous" is disabled exactly on page 1 and "next" exactly
    on the last page, a click on an enabled button moves the current
    page by one and a click on a disabled one changes nothing; with at
    most one page the controls are hidden and both clicks change
    nothing. *)
Theorem controls_agree_with_changePage st :
  currentPage st = 1 \/ 1 <= currentPage st <= getTotalPages st ->
  let st' := updatePagination st in
  (getTotalPages st <= 1 ->
   pagination_shown (pagination (elements st')) = false
   /\ changePage 1 st' = st' /\ changePage (-1) st' = st')
  /\ (1 < getTotalPages st ->
      pagination_shown (pagination (elements st')) = true
      /\ (if nextPage_disabled (pagination (elements st'))
          then currentPage st = getTotalPages st /\ changePage 1 st' = st'
          else currentPage (changePage 1 st') = currentPage st + 1)
      /\ (if prevPage_disabled (pagination (elements st'))
          then currentPage st = 1 /\ changePage (-1) st' = st'
          else currentPage (changePage (-1) st') = currentPage st - 1)).
Proof.
  intros Hc st'. subst st'.
  destruct (updatePagination_frame st) as (Hr & Hf & _ & Hp & Hs & _).
  pose proof (getTotalPages_ext st (updatePagination st) Hr Hf Hs) as Ht.
  destruct (updatePagination_controls st) as (Hhide & Hshow).
  split.
  - intros Hle. split; [exact (Hhide Hle) |].
    split; apply changePage_refused; rewrite Hp, Ht; lia.
  - intros Hgt. destruct (Hshow Hgt) as (-> & -> & -> & _).
    split; [reflexivity |]. split.
    + destruct (Z.eqb_spec (currentPage st) (getTotalPages st)) as [E | N].
      * split; [exact E |]. apply changePage_refused. rewrite Hp, Ht. lia.
      * rewrite changePage_moves; rewrite Hp, ?Ht; lia.
    + destruct (Z.eqb_spec (currentPage st) 1) as [E | N].
      * split; [exact E |]. apply changePage_refused. rewrite Hp, Ht. lia.
      * rewrite changePage_moves; rewrite Hp, ?Ht; lia.
Qed.

Lemma controls_agree_with_changePage_witness :
  currentPage (changePage 1 (updatePagination (ledger 45))) = 2
  /\ changePage (-1) (updatePagination (ledger 45))
     = updatePagination (ledger 45).
Proof.
  destruct (controls_agree_with_changePage (ledger 45)) as (_ & H).
  - left. vm_compute. reflexivity.
  - destruct H as (_ & Hn & Hp); [vm_compute; reflexivity |].
    assert (En : nextPage_disabled
                   (pagination (elements (updatePagination (ledger 45))))
                 = false) by (vm_compute; reflexivity).
    assert (Ep : prevPage_disabled
                   (pagination (elements (updatePagination (ledger 45))))
                 = true) by (vm_compute; reflexivity).
    rewrite En in Hn. rewrite Ep in Hp.
    split; [rewrite Hn; vm_compute; reflexivity | apply Hp].
Defined.

End Control_facts.

(** ** An imported batch through export and import *)

Section Second_import.




End Second_import.
